(** * OLED RotorHazard display: a shallow embedding of [oled_display.py]

    The development follows [OLEDDisplay] in
    [custom_plugins/oled_rotorhazard_display/oled_display.py].

    - Python values that the display only prints are [Py.value]s; dicts are
      insertion-ordered association lists ([Py.dict]).
    - A Python string is a sequence of code points; a [string] here holds
      its UTF-8 bytes, and [len], [s[:n]] and [s[n:]] count code points.
    - A Python float is a binary64 number ([Py.float]); sensor values and
      raw lap times are formatted, divided and rounded as such.
    - [time.time()] returns seconds as a float; timestamps are modelled as
      exact rationals ([Q]).  Every call site of [time.time()] inside one
      tick is a separate reading supplied by the environment.
    - Python exceptions are modelled by [Py.result]; [try ... except
      Exception] is [Py.try_except].  Drawing happens on a canvas that keeps
      what was drawn before an exception ([Draw]).
    - The telemetry provider [rhapi] is a live object of the host: every
      query of a tick finds it in a state of its own.  These states, the
      clock, the random source and the panel are the environment of a call
      ([Env]).
    - The display thread and the event handlers are run one after the
      other: an event is stored between two ticks.  The one exception is
      [update_display_during], which places the write of a handler inside
      a tick. *)

From Stdlib Require Import String Ascii List ZArith QArith Lia Bool.
From Stdlib Require Import Qabs Qround DecimalString Sorting.Sorted SpecFloat.
Import ListNotations.

Local Open Scope list_scope.
Local Open Scope Z_scope.
Local Open Scope string_scope.

(* ================================================================== *)
(** ** Python values, strings, dicts and exceptions                    *)
(* ================================================================== *)

Module Py.

(** The values the display formats with [str()] / f-strings. *)
Inductive value : Type :=
| None_
| Int (z : Z)
| Str (s : string).

Definition value_eqb (a b : value) : bool :=
  match a, b with
  | None_, None_ => true
  | Int x, Int y => Z.eqb x y
  | Str x, Str y => String.eqb x y
  | _, _ => false
  end.

(** [bool(v)] *)
Definition truthy (v : value) : bool :=
  match v with
  | None_ => false
  | Int z => negb (Z.eqb z 0)
  | Str s => negb (String.eqb s "")
  end.

Definition str_of_Z (z : Z) : string := NilZero.string_of_int (Z.to_int z).

(** [str(v)], as used by f-string interpolation [f"{v}"]. *)
Definition str (v : value) : string :=
  match v with
  | None_ => "None"
  | Int z => str_of_Z z
  | Str s => s
  end.

(** [v == k] for an integer literal [k]. *)
Definition eq_int (v : value) (k : Z) : bool :=
  match v with
  | Int z => Z.eqb z k
  | _ => false
  end.

(** *** Strings

    Case folding is the one of ASCII letters, which is what decides whether
    a key contains "voltage". *)

Definition lower_ascii (c : ascii) : ascii :=
  let n := nat_of_ascii c in
  if (65 <=? n)%nat && (n <=? 90)%nat then ascii_of_nat (n + 32) else c.

(** [s.lower()] *)
Fixpoint lower (s : string) : string :=
  match s with
  | EmptyString => EmptyString
  | String c t => String (lower_ascii c) (lower t)
  end.

(** [s.startswith(p)] *)
Definition startswith (s p : string) : bool := String.prefix p s.

(** [needle in hay] on strings *)
Fixpoint contains (needle hay : string) : bool :=
  String.prefix needle hay ||
  match hay with
  | EmptyString => false
  | String _ t => contains needle t
  end.

(** A code point is a first byte and the continuation bytes [10xxxxxx]
    that its leading bits announce. *)
Definition is_continuation (c : ascii) : bool :=
  match c with
  | Ascii _ _ _ _ _ _ b6 b7 => b7 && negb b6
  end.

Definition continuation_bytes (c : ascii) : nat :=
  match c with
  | Ascii _ _ _ _ _ false true true => 1
  | Ascii _ _ _ _ false true true true => 2
  | Ascii _ _ _ false true true true true => 3
  | _ => 0
  end.

(** [len(s)], [s[:n]] and [s[n:]], reading [s] when [pending] continuation
    bytes of a code point are still to come. *)
Fixpoint strlen_from (pending : nat) (s : string) : nat :=
  match s with
  | EmptyString => O
  | String c t =>
      match pending, is_continuation c with
      | S pending', true => strlen_from pending' t
      | _, _ => S (strlen_from (continuation_bytes c) t)
      end
  end.

Fixpoint slice_to_from (pending n : nat) (s : string) : string :=
  match s with
  | EmptyString => EmptyString
  | String c t =>
      match pending, is_continuation c with
      | S pending', true => String c (slice_to_from pending' n t)
      | _, _ =>
          match n with
          | O => EmptyString
          | S n' => String c (slice_to_from (continuation_bytes c) n' t)
          end
      end
  end.

Fixpoint slice_from_from (pending n : nat) (s : string) : string :=
  match s with
  | EmptyString => EmptyString
  | String c t =>
      match pending, is_continuation c with
      | S pending', true => slice_from_from pending' n t
      | _, _ =>
          match n with
          | O => s
          | S n' => slice_from_from (continuation_bytes c) n' t
          end
      end
  end.

(** [len(s)]: the number of code points *)
Definition strlen (s : string) : nat := strlen_from 0 s.

(** [s[:n]]: the first [n] code points *)
Definition slice_to (n : nat) (s : string) : string := slice_to_from 0 n s.

(** [s[n:]]: what follows the first [n] code points *)
Definition slice_from (n : nat) (s : string) : string := slice_from_from 0 n s.

(** *** Exceptions *)

Inductive result (A : Type) : Type :=
| Ok (a : A)
| Raise.
Arguments Ok {A} a.
Arguments Raise {A}.

Definition bind {A B} (m : result A) (k : A -> result B) : result B :=
  match m with
  | Ok a => k a
  | Raise => Raise
  end.

(** [try: body  except Exception: handler] *)
Definition try_except {A} (body handler : result A) : result A :=
  match body with
  | Ok a => Ok a
  | Raise => handler
  end.

(** *** Fixed-point formatting, [f"{x:.Nf}"]

    Python prints the correctly rounded decimal of the exact value of the
    float, ties to even. *)

Definition round_half_even (q : Q) : Z :=
  let n := Qnum q in
  let d := Zpos (Qden q) in
  let fl := (n / d)%Z in
  let r := (n mod d)%Z in
  match (2 * r ?= d)%Z with
  | Lt => fl
  | Gt => (fl + 1)%Z
  | Eq => if Z.even fl then fl else (fl + 1)%Z
  end.

(** Zeros in front of a string of digits, up to a width. *)
Fixpoint zero_pad (width : nat) (s : string) : string :=
  match width with
  | O => s
  | S w => if (String.length s <? width)%nat then "0" ++ zero_pad w s else s
  end.

Definition format_f (digits : nat) (q : Q) : string :=
  let scale := (10 ^ Z.of_nat digits)%Z in
  let scaled := round_half_even (Qabs q * inject_Z scale) in
  let sign := if Qle_bool 0 q then "" else "-" in
  let int_part := str_of_Z (scaled / scale) in
  match digits with
  | O => sign ++ int_part
  | _ => sign ++ int_part ++ "." ++ zero_pad digits (str_of_Z (scaled mod scale))
  end.

(** *** Floats: binary64 *)

Definition float : Type := spec_float.
Definition prec : Z := 53.
Definition emax : Z := 1024.

(** The float nearest to an integer (ties to even). *)
Definition float_of_Z (z : Z) : float := binary_normalize prec emax z 0 false.

(** [float(z)]: an int beyond the floats raises [OverflowError]. *)
Definition float_of_int (z : Z) : result float :=
  match float_of_Z z with
  | S754_infinity _ => Raise
  | f => Ok f
  end.

Definition is_zero (x : float) : bool :=
  match x with
  | S754_zero _ => true
  | _ => false
  end.

(** [x < 0] *)
Definition is_negative (x : float) : bool := SFltb x (S754_zero false).

(** [copysign(0.0, x)] *)
Definition zero_like (x : float) : float :=
  match x with
  | S754_zero s | S754_infinity s | S754_finite s _ _ => S754_zero s
  | S754_nan => S754_zero false
  end.

(** The exact value of a finite float. *)
Definition Q_of_float (x : float) : Q :=
  match x with
  | S754_finite s m e =>
      let a := match e with
               | Zneg p => Qmake (Zpos m) (2 ^ p)%positive
               | _ => inject_Z (Zpos m * 2 ^ e)
               end in
      if s then Qopp a else a
  | _ => 0%Q
  end.

(** [f"{x:.Nf}"]: the correctly rounded decimal of the exact value. *)
Definition format_float (digits : nat) (x : float) : string :=
  match x with
  | S754_nan => "nan"
  | S754_infinity s => if s then "-inf" else "inf"
  | S754_zero s => (if s then "-" else "") ++ format_f digits 0
  | S754_finite _ _ _ => format_f digits (Q_of_float x)
  end.

(** [f"{x:0W.Nf}"]: zeros between the sign and the number. *)
Definition format_float_width (width digits : nat) (x : float) : string :=
  match format_float digits x with
  | String "-" rest => "-" ++ zero_pad (width - 1) rest
  | s => zero_pad width s
  end.

(** [x / y] *)
Definition float_div (x y : float) : result float :=
  if is_zero y then Raise else Ok (SFdiv prec emax x y).

(** C's [fmod]: the exact remainder, with the sign of [x]. *)
Definition fmod (x y : float) : float :=
  match x, y with
  | S754_nan, _ | _, S754_nan => S754_nan
  | S754_infinity _, _ => S754_nan
  | _, S754_zero _ => S754_nan
  | _, S754_infinity _ => x
  | S754_zero _, _ => x
  | S754_finite sx mx ex, S754_finite _ my ey =>
      let e := Z.min ex ey in
      let r := (Z.shiftl (Zpos mx) (ex - e) mod Z.shiftl (Zpos my) (ey - e))%Z in
      binary_normalize prec emax (if sx then - r else r) e sx
  end.

(** C's [floor] *)
Definition floor (x : float) : float :=
  match x with
  | S754_finite s m (Zneg p) =>
      let q := Z.shiftr (Zpos m) (Zpos p) in
      let exact := (Z.shiftl q (Zpos p) =? Zpos m)%Z in
      binary_normalize prec emax
        (if s then (if exact then - q else - (q + 1)) else q) 0 s
  | _ => x
  end.

(** [int(x)]: [inf] and [nan] raise. *)
Definition int_of_float (x : float) : result Z :=
  match x with
  | S754_zero _ => Ok 0
  | S754_finite s m e =>
      let a := match e with
               | Zneg p => Z.shiftr (Zpos m) (Zpos p)
               | _ => Z.shiftl (Zpos m) e
               end in
      Ok (if s then - a else a)
  | _ => Raise
  end.

Definition one : float := float_of_Z 1.
Definition half : float := SFdiv prec emax one (float_of_Z 2).

(** [x % y] on floats, as CPython computes it. *)
Definition float_mod (x y : float) : result float :=
  if is_zero y then Raise
  else
    let m := fmod x y in
    Ok (if is_zero m then zero_like y
        else if xorb (is_negative y) (is_negative m) then SFadd prec emax m y
        else m).

(** [x // y] on floats, as CPython computes it. *)
Definition float_floordiv (x y : float) : result float :=
  if is_zero y then Raise
  else
    let m := fmod x y in
    let div := SFdiv prec emax (SFsub prec emax x m) y in
    let div :=
      if negb (is_zero m) && xorb (is_negative y) (is_negative m)
      then SFsub prec emax div one
      else div in
    Ok (if is_zero div then zero_like (SFdiv prec emax x y)
        else
          let fl := floor div in
          if SFltb half (SFsub prec emax div fl) then SFadd prec emax fl one else fl).

(** *** [repr(x)]: the shortest decimal that reads back as [x] *)

Definition pow10 (k : Z) : Q :=
  match k with
  | Zneg p => Qmake 1 (10 ^ p)%positive
  | _ => inject_Z (10 ^ k)
  end.

Definition ndigits (z : Z) : Z := Z.of_nat (String.length (str_of_Z z)).

(** The [p] with [10^p <= q < 10^(p+1)], for [q > 0]. *)
Definition log10_floor (q : Q) : Z :=
  let n := Qnum q in
  let d := Zpos (Qden q) in
  if (d <=? n)%Z then ndigits (n / d) - 1
  else
    let j := ndigits d - ndigits n in
    if (d <=? n * 10 ^ j)%Z then - j else - (j + 1).

(** The decimals that read back as a positive finite [x] lie between the
    midpoints to its neighbours; the midpoints count when the mantissa of
    [x] is even. *)
Definition reads_back (x : float) (q : Q) : bool :=
  let v := Q_of_float x in
  let below := Q_of_float (SFpred prec emax x) in
  let lo := ((v + below) / 2)%Q in
  let hi :=
    match SFsucc prec emax x with
    | S754_finite _ _ _ as above => ((v + Q_of_float above) / 2)%Q
    | _ => (v + (v - below) / 2)%Q
    end in
  let even := match x with S754_finite _ m _ => Z.even (Zpos m) | _ => false end in
  if even then Qle_bool lo q && Qle_bool q hi
  else negb (Qle_bool q lo) && negb (Qle_bool hi q).

(** The best decimal with [n] digits, [d * 10^k], if one reads back. *)
Definition shortest_at (x : float) (n : Z) : option (Z * Z) :=
  let v := Q_of_float x in
  let k := log10_floor v - (n - 1) in
  let d := Qfloor (v / pow10 k) in
  let lo := (inject_Z d * pow10 k)%Q in
  let hi := (inject_Z (d + 1) * pow10 k)%Q in
  match reads_back x lo, reads_back x hi with
  | true, true =>
      match Qcompare (v - lo) (hi - v) with
      | Lt => Some (d, k)
      | Gt => Some (d + 1, k)
      | Eq => Some (if Z.even d then d else d + 1, k)
      end
  | true, false => Some (d, k)
  | false, true => Some (d + 1, k)
  | false, false => None
  end.

Fixpoint shortest (x : float) (fuel : nat) (n : Z) : Z * Z :=
  match fuel with
  | O => (0, 0)
  | S fuel =>
      match shortest_at x n with
      | Some dk => dk
      | None => shortest x fuel (n + 1)
      end
  end.

Fixpoint strip_zeros (fuel : nat) (d k : Z) : Z * Z :=
  match fuel with
  | O => (d, k)
  | S fuel => if (d mod 10 =? 0)%Z then strip_zeros fuel (d / 10) (k + 1) else (d, k)
  end.

Fixpoint zeros (n : nat) : string :=
  match n with
  | O => ""
  | S n => "0" ++ zeros n
  end.

(** Python's layout of the digits: exponent notation below 1e-4 and from
    1e16 on. *)
Definition repr_layout (digits : string) (decpt : Z) : string :=
  let len := Z.of_nat (String.length digits) in
  if (decpt <=? -4)%Z || (16 <? decpt)%Z then
    let e := decpt - 1 in
    substring 0 1 digits
    ++ (if (1 <? len)%Z then "." ++ substring 1 (String.length digits) digits else "")
    ++ "e" ++ (if (e <? 0)%Z then "-" else "+") ++ zero_pad 2 (str_of_Z (Z.abs e))
  else if (decpt <=? 0)%Z then "0." ++ zeros (Z.to_nat (- decpt)) ++ digits
  else if (len <=? decpt)%Z then digits ++ zeros (Z.to_nat (decpt - len)) ++ ".0"
  else substring 0 (Z.to_nat decpt) digits
       ++ "." ++ substring (Z.to_nat decpt) (String.length digits) digits.

Definition repr_float (x : float) : string :=
  match x with
  | S754_nan => "nan"
  | S754_infinity s => if s then "-inf" else "inf"
  | S754_zero s => if s then "-0.0" else "0.0"
  | S754_finite s m e =>
      let '(d, k) := shortest (S754_finite false m e) 17 1 in
      let '(d, k) := strip_zeros 17 d k in
      let digits := str_of_Z d in
      (if s then "-" else "")
      ++ repr_layout digits (k + Z.of_nat (String.length digits))
  end.

(** *** Dicts: insertion-ordered association lists *)

Definition dict (V : Type) : Type := list (string * V).

Section Dict.
Context {V : Type}.

(** [d.get(k)] / [d[k]] *)
Fixpoint get (k : string) (d : dict V) : option V :=
  match d with
  | [] => None
  | (k', v) :: rest => if String.eqb k k' then Some v else get k rest
  end.

(** [k in d] *)
Definition mem (k : string) (d : dict V) : bool :=
  match get k d with Some _ => true | None => false end.

(** [d.get(k, dflt)] *)
Definition get_default (k : string) (dflt : V) (d : dict V) : V :=
  match get k d with Some v => v | None => dflt end.

(** [d[k] = v]: overwrite in place, or append a new key. *)
Fixpoint set (k : string) (v : V) (d : dict V) : dict V :=
  match d with
  | [] => [(k, v)]
  | (k', v') :: rest =>
      if String.eqb k k' then (k', v) :: rest else (k', v') :: set k v rest
  end.

(** [del d[k]] (used to compare snapshots, not by the program) *)
Fixpoint remove (k : string) (d : dict V) : dict V :=
  match d with
  | [] => []
  | (k', v') :: rest =>
      if String.eqb k k' then rest else (k', v') :: remove k rest
  end.

Definition keys (d : dict V) : list string := map fst d.

(** [bool(d)] *)
Definition nonempty (d : dict V) : bool :=
  match d with [] => false | _ :: _ => true end.
End Dict.

(** *** Attribute access on provider objects

    An attribute is absent ([AttributeError], [hasattr] is [False]),
    raises some other exception when read, or holds a value. *)

Inductive attr (A : Type) : Type :=
| Absent
| Broken
| Present (a : A).
Arguments Absent {A}.
Arguments Broken {A}.
Arguments Present {A} a.

(** [hasattr(obj, name)]: only [AttributeError] is turned into [False]. *)
Definition hasattr {A} (a : attr A) : result bool :=
  match a with
  | Absent => Ok false
  | Broken => Raise
  | Present _ => Ok true
  end.

(** [obj.name] *)
Definition getattr {A} (a : attr A) : result A :=
  match a with
  | Absent => Raise
  | Broken => Raise
  | Present v => Ok v
  end.

(** *** Operations that need a string: [len(v)], [v.startswith(p)],
    [v[:n]], [v[n:]] raise on [None] and on integers. *)

Definition len (v : value) : result nat :=
  match v with
  | Str s => Ok (strlen s)
  | _ => Raise
  end.

Definition value_startswith (v : value) (p : string) : result bool :=
  match v with
  | Str s => Ok (startswith s p)
  | _ => Raise
  end.

Definition value_slice_to (n : nat) (v : value) : result value :=
  match v with
  | Str s => Ok (Str (slice_to n s))
  | _ => Raise
  end.

Definition value_slice_from (n : nat) (v : value) : result value :=
  match v with
  | Str s => Ok (Str (slice_from n s))
  | _ => Raise
  end.

End Py.

Declare Scope py_scope.
Delimit Scope py_scope with py.
Notation "x <- m ;; k" := (Py.bind m (fun x => k))
  (at level 61, m at next level, right associativity) : py_scope.

(* ================================================================== *)
(** ** The telemetry provider ([rhapi])                                *)
(* ================================================================== *)

(** What a reading holds under ['value'] and under ['units']: [None], an
    int, a float or a string. *)
Inductive Measure : Type :=
| MNone
| MInt (z : Z)
| MFloat (x : Py.float)
| MStr (s : string).

(** One quantity of a sensor, [readings[key]]: a dict, of which the views
    read ['value'] and ['units'] ([None] where the key is missing), or a
    value that is no dict. *)
Inductive Reading : Type :=
| ReadingDict (value units : option Measure)
| NotDict.

(** What [getReadings()] returns: a dict quantity name -> reading. *)
Definition Readings : Type := Py.dict Reading.

(** A sensor object: [getReadings] may be missing, may raise when called,
    or returns [None] or a dict. *)
Record Sensor : Type :=
  { getReadings : Py.attr (Py.result (option Readings)) }.

Record SensorInterface : Type :=
  { sensors_dict : Py.attr (Py.dict Sensor) }.

(** One entry of [results['by_race_time']]. *)
Definition PilotResult : Type := Py.dict Py.value.

(** [race.results]: a dict leaderboard name -> list of pilot results. *)
Definition Results : Type := Py.dict (list PilotResult).

Record RaceInterface : Type :=
  { status : Py.attr Py.value;
    results : Py.attr (option Results) }.

Record RHAPI : Type :=
  { sensors : Py.attr (option SensorInterface);
    race : Py.attr (option RaceInterface) }.

(** The snapshot built by [get_voltage_data]: sensor name -> readings. *)
Definition VoltageData : Type := Py.dict Readings.

(* ================================================================== *)
(** ** Telemetry adapter                                               *)
(* ================================================================== *)

(** [any('voltage' in str(key).lower() for key in readings.keys())] *)
Definition any_voltage_key (readings : Readings) : bool :=
  existsb (fun key => Py.contains "voltage" (Py.lower key)) (Py.keys readings).

(** The body of the per-sensor [try] in [get_voltage_data]: the readings
    to store under the sensor's name, if any. *)
Definition read_sensor (sensor_obj : Sensor) : Py.result (option Readings) :=
  (has <- Py.hasattr (getReadings sensor_obj) ;;
   if has then
     call <- Py.getattr (getReadings sensor_obj) ;;
     readings <- call ;;
     match readings with
     | Some r =>
         if Py.nonempty r && any_voltage_key r then Py.Ok (Some r)
         else Py.Ok None
     | None => Py.Ok None
     end
   else Py.Ok None)%py.

(** The [for sensor_name, sensor_obj in sensors_dict.items()] loop. *)
Fixpoint collect_voltage (items : Py.dict Sensor) (voltage_data : VoltageData)
  : VoltageData :=
  match items with
  | [] => voltage_data
  | (sensor_name, sensor_obj) :: rest =>
      match Py.try_except (read_sensor sensor_obj) (Py.Ok None) with
      | Py.Ok (Some readings) =>
          collect_voltage rest (Py.set sensor_name readings voltage_data)
      | _ => collect_voltage rest voltage_data
      end
  end.

Definition get_voltage_data (rhapi : RHAPI) : Py.result (option VoltageData) :=
  Py.try_except
    (has <- Py.hasattr (sensors rhapi) ;;
     if negb has then Py.Ok None
     else
       s <- Py.getattr (sensors rhapi) ;;
       match s with
       | None => Py.Ok None
       | Some si =>
           sd <- Py.getattr (sensors_dict si) ;;
           if negb (Py.nonempty sd) then Py.Ok None
           else
             let voltage_data := collect_voltage sd [] in
             Py.Ok (if Py.nonempty voltage_data then Some voltage_data else None)
       end)%py
    (Py.Ok None).

Definition get_race_status (rhapi : RHAPI) : Py.result (option string) :=
  Py.try_except
    (has <- Py.hasattr (race rhapi) ;;
     if has then
       r <- Py.getattr (race rhapi) ;;
       match r with
       | Some ri =>
           race_status <- Py.getattr (status ri) ;;
           if Py.truthy race_status && negb (Py.eq_int race_status 0) then
             if Py.eq_int race_status 1 then Py.Ok (Some "Race: Staging")
             else if Py.eq_int race_status 2 then Py.Ok (Some "Race: Running")
             else if Py.eq_int race_status 3 then Py.Ok (Some "Race: Finished")
             else Py.Ok None
           else Py.Ok None
       | None => Py.Ok None
       end
     else Py.Ok None)%py
    (Py.Ok None).

Definition is_race_active (rhapi : RHAPI) : Py.result bool :=
  Py.try_except
    (has <- Py.hasattr (race rhapi) ;;
     if has then
       r <- Py.getattr (race rhapi) ;;
       match r with
       | Some ri =>
           race_status <- Py.getattr (status ri) ;;
           Py.Ok (Py.eq_int race_status 1 || Py.eq_int race_status 2)
       | None => Py.Ok false
       end
     else Py.Ok false)%py
    (Py.Ok false).


(* ================================================================== *)
(** ** Formatting a reading                                            *)
(* ================================================================== *)

(** [reading['value']] and [reading['units']] *)
Definition reading_value (reading : Reading) : Py.result Measure :=
  match reading with
  | ReadingDict (Some value) _ => Py.Ok value
  | _ => Py.Raise
  end.

Definition reading_units (reading : Reading) : Py.result Measure :=
  match reading with
  | ReadingDict _ (Some units) => Py.Ok units
  | _ => Py.Raise
  end.

(** [str(m)], as [f"{units}"] prints it *)
Definition measure_str (m : Measure) : string :=
  match m with
  | MNone => "None"
  | MInt z => Py.str_of_Z z
  | MFloat x => Py.repr_float x
  | MStr s => s
  end.

(** [f"{value:.Nf}"]: an int is converted to a float first; [None] and
    strings raise. *)
Definition format_measure (digits : nat) (value : Measure) : Py.result string :=
  match value with
  | MInt z => (x <- Py.float_of_int z ;; Py.Ok (Py.format_float digits x))%py
  | MFloat x => Py.Ok (Py.format_float digits x)
  | MNone | MStr _ => Py.Raise
  end.

(** The three steps the views take on a reading (lines 324-328, 335-337
    and 387-389): [value = reading['value']], [units = reading['units']],
    [f"{value:.Nf}{units}"]. *)
Definition format_reading (digits : nat) (reading : Reading) : Py.result string :=
  (value <- reading_value reading ;;
   units <- reading_units reading ;;
   text <- format_measure digits value ;;
   Py.Ok (text ++ measure_str units))%py.

(* ================================================================== *)
(** ** Render surface                                                  *)
(* ================================================================== *)

(** [draw.text((x, y), s, ...)] and [draw.line([(x1, y1), (x2, y2)], ...)];
    font and fill are the same on every call and are left out. *)
Inductive draw_cmd : Type :=
| Text (x y : Z) (s : string)
| Line (x1 y1 x2 y2 : Z).

Definition Frame : Type := list draw_cmd.

(** The canvas of one [with canvas(self.display) as draw:] block, together
    with the function-local [y_pos], which an [except] handler reads as the
    interrupted body left it. *)
Record Canvas : Type := { drawn : Frame; y_pos : Z }.

Definition Draw (A : Type) : Type := Canvas -> Canvas * Py.result A.

Definition dret {A} (a : A) : Draw A := fun c => (c, Py.Ok a).

Definition dbind {A B} (m : Draw A) (k : A -> Draw B) : Draw B :=
  fun c =>
    match m c with
    | (c', Py.Ok a) => k a c'
    | (c', Py.Raise) => (c', Py.Raise)
    end.

(** A computation that draws nothing (telemetry queries, attribute reads). *)
Definition lift {A} (r : Py.result A) : Draw A := fun c => (c, r).

(** [try: body  except Exception: handler] inside a canvas block: what the
    body drew and its [y_pos] stay. *)
Definition draw_try {A} (body handler : Draw A) : Draw A :=
  fun c =>
    match body c with
    | (c', Py.Ok a) => (c', Py.Ok a)
    | (c', Py.Raise) => handler c'
    end.

Declare Scope draw_scope.
Delimit Scope draw_scope with draw.
Notation "x <- m ;; k" := (dbind m (fun x => k))
  (at level 61, m at next level, right associativity) : draw_scope.
Notation "m ;; k" := (dbind m (fun _ => k))
  (at level 61, right associativity) : draw_scope.

Definition draw_text (x y : Z) (s : string) : Draw unit :=
  fun c => ({| drawn := (drawn c ++ [Text x y s])%list; y_pos := y_pos c |}, Py.Ok tt).

Definition draw_line (x1 y1 x2 y2 : Z) : Draw unit :=
  fun c => ({| drawn := (drawn c ++ [Line x1 y1 x2 y2])%list; y_pos := y_pos c |}, Py.Ok tt).

(** [draw.text((x, y_pos + dy), s, ...)] *)
Definition draw_text_y (x dy : Z) (s : string) : Draw unit :=
  fun c => draw_text x (y_pos c + dy) s c.

(** [y_pos = y] and [y_pos += dy] *)
Definition set_y (y : Z) : Draw unit :=
  fun c => ({| drawn := drawn c; y_pos := y |}, Py.Ok tt).
Definition add_y (dy : Z) : Draw unit :=
  fun c => ({| drawn := drawn c; y_pos := y_pos c + dy |}, Py.Ok tt).
Definition get_y : Draw Z := fun c => (c, Py.Ok (y_pos c)).

(** [with canvas(self.display) as draw: body].  The image is sent to the
    panel only when the body ends without an exception; sending can itself
    fail ([panel_fails]). *)
Definition with_canvas (panel_fails : bool) (body : Draw unit) : Py.result Frame :=
  match body {| drawn := []; y_pos := 0 |} with
  | (c, Py.Ok _) => if panel_fails then Py.Raise else Py.Ok (drawn c)
  | (_, Py.Raise) => Py.Raise
  end.

(* ================================================================== *)
(** ** Controller state and environment                                *)
(* ================================================================== *)

Definition width : Z := 128.
Definition height : Z := 64.

(** The fields of [self].  [display] and [display_thread] say whether the
    attribute holds an object ([True]) or [None]. *)
Record OLEDDisplay : Type :=
  { display : bool;
    display_enabled : bool;
    show_race_info : bool;
    last_lap_info : option (Py.dict Py.value);
    race_info_timeout : Q;
    voltage_monitor_start_time : Q;
    burn_in_protection_active : bool;
    display_thread : bool;
    thread_running : bool }.

(** What one call of [update_display] reads from outside [self].  The
    provider is read by [is_race_active] (line 113), by [get_race_status]
    (line 252 or 305), for the race results (lines 261-263), by
    [get_voltage_data] (line 132) and by the sensor diagnostic (lines
    355-356); the host may change it in between. *)
Record Env : Type :=
  { rhapi_active : RHAPI;
    rhapi_status : RHAPI;
    rhapi_results : RHAPI;
    rhapi_sensors : RHAPI;
    rhapi_diag : RHAPI;
    (** [time.time()] at lines 110, 116, 125 and 128 *)
    t_check : Q;
    t_race : Q;
    t_reset : Q;
    t_idle : Q;
    (** [time.strftime("%H:%M:%S")] and [time.strftime("%H:%M")] *)
    clock_hms : string;
    clock_hm : string;
    (** the k-th [random.randint(a, b)] of the call *)
    randint : nat -> Z -> Z -> Z;
    (** sending the frame to the panel raises *)
    panel_fails : bool }.

Inductive DisplayMode : Type :=
| VoltageMonitor
| RaceStanding
| LapNotice
| BurnInGuard.

(** What a view did to the panel. *)
Inductive ViewResult : Type :=
| Skipped                (* returned before opening a canvas *)
| Flushed (f : Frame)    (* the frame was sent to the panel *)
| Failed.                (* an exception was caught and logged; no frame *)

(** What one tick did: which view ran, and its result. *)
Inductive TickOutcome : Type :=
| NotEnabled
| Selected (mode : DisplayMode) (r : ViewResult)
| Aborted.

Definition Qlt_bool (a b : Q) : bool := negb (Qle_bool b a).

Definition view_result (r : Py.result Frame) : ViewResult :=
  match r with
  | Py.Ok f => Flushed f
  | Py.Raise => Failed
  end.

(** [bool(self.last_lap_info)] *)
Definition lap_info_truthy (info : option (Py.dict Py.value)) : bool :=
  match info with
  | Some d => Py.nonempty d
  | None => false
  end.

(** [d[k]] *)
Definition getitem {V} (k : string) (d : Py.dict V) : Py.result V :=
  match Py.get k d with
  | Some v => Py.Ok v
  | None => Py.Raise
  end.

Definition set_voltage_monitor_start_time (t : Q) (self : OLEDDisplay) : OLEDDisplay :=
  {| display := display self;
     display_enabled := display_enabled self;
     show_race_info := show_race_info self;
     last_lap_info := last_lap_info self;
     race_info_timeout := race_info_timeout self;
     voltage_monitor_start_time := t;
     burn_in_protection_active := burn_in_protection_active self;
     display_thread := display_thread self;
     thread_running := thread_running self |}.

Definition set_burn_in_protection_active (b : bool) (self : OLEDDisplay) : OLEDDisplay :=
  {| display := display self;
     display_enabled := display_enabled self;
     show_race_info := show_race_info self;
     last_lap_info := last_lap_info self;
     race_info_timeout := race_info_timeout self;
     voltage_monitor_start_time := voltage_monitor_start_time self;
     burn_in_protection_active := b;
     display_thread := display_thread self;
     thread_running := thread_running self |}.

(** [self.show_race_info = False; self.last_lap_info = None] *)
Definition reset_race_info (self : OLEDDisplay) : OLEDDisplay :=
  {| display := display self;
     display_enabled := display_enabled self;
     show_race_info := false;
     last_lap_info := None;
     race_info_timeout := race_info_timeout self;
     voltage_monitor_start_time := voltage_monitor_start_time self;
     burn_in_protection_active := burn_in_protection_active self;
     display_thread := display_thread self;
     thread_running := thread_running self |}.

Definition set_thread (thread running : bool) (self : OLEDDisplay) : OLEDDisplay :=
  {| display := display self;
     display_enabled := display_enabled self;
     show_race_info := show_race_info self;
     last_lap_info := last_lap_info self;
     race_info_timeout := race_info_timeout self;
     voltage_monitor_start_time := voltage_monitor_start_time self;
     burn_in_protection_active := burn_in_protection_active self;
     display_thread := thread;
     thread_running := running |}.

Definition set_display (handle enabled : bool) (self : OLEDDisplay) : OLEDDisplay :=
  {| display := handle;
     display_enabled := enabled;
     show_race_info := show_race_info self;
     last_lap_info := last_lap_info self;
     race_info_timeout := race_info_timeout self;
     voltage_monitor_start_time := voltage_monitor_start_time self;
     burn_in_protection_active := burn_in_protection_active self;
     display_thread := display_thread self;
     thread_running := thread_running self |}.

(** [OLEDDisplay.__init__]; [now] is its [time.time()]. *)
Definition OLEDDisplay_init (now : Q) : OLEDDisplay :=
  {| display := false;
     display_enabled := false;
     show_race_info := false;
     last_lap_info := None;
     race_info_timeout := 0;
     voltage_monitor_start_time := now;
     burn_in_protection_active := false;
     display_thread := false;
     thread_running := false |}.

(* ================================================================== *)
(** ** Views                                                           *)
(* ================================================================== *)

(** *** [display_race_info]: the lap-completion notice *)

Definition lap_notice_body (info : Py.dict Py.value) : Draw unit :=
  (draw_text 5 0 "LAP COMPLETED" ;;
   draw_line 0 13 width 13 ;;
   set_y 18 ;;
   let line_height := 12 in
   let pilot_name := Py.get_default "pilot_name" (Py.Str "Unknown") info in
   draw_text_y 5 0 ("Pilot: " ++ Py.str pilot_name) ;;
   add_y line_height ;;
   let lap_number := Py.get_default "lap_number" (Py.Int 0) info in
   draw_text_y 5 0 ("Lap: " ++ Py.str lap_number) ;;
   add_y line_height ;;
   let lap_time := Py.get_default "lap_time" (Py.Str "N/A") info in
   draw_text_y 5 0 ("Time: " ++ Py.str lap_time) ;;
   add_y line_height ;;
   if Py.mem "position" info then
     position <- lift (getitem "position" info) ;;
     draw_text_y 5 0 ("Position: " ++ Py.str position)
   else dret tt)%draw.

Definition display_race_info (env : Env) (self : OLEDDisplay) : ViewResult :=
  if negb (display_enabled self) || negb (lap_info_truthy (last_lap_info self))
  then Skipped
  else
    match last_lap_info self with
    | Some info => view_result (with_canvas (panel_fails env) (lap_notice_body info))
    | None => Skipped
    end.

(** *** [display_race_status]: standings during an active race *)

(** The text of one standings line (lines 272-286). *)
Definition pilot_line (i : nat) (pilot_result : PilotResult) : Py.result string :=
  (let position := (Z.of_nat i + 1)%Z in
   let pilot_name :=
     Py.get_default "callsign"
       (Py.get_default "name"
          (Py.Str ("Pilot " ++ Py.str (Py.get_default "pilot_id" (Py.Str "?") pilot_result)))
          pilot_result)
       pilot_result in
   let fastest_lap := Py.get_default "fastest_lap" (Py.Str "N/A") pilot_result in
   n <- Py.len pilot_name ;;
   pilot_name <- (if (6 <? n)%nat then Py.value_slice_to 6 pilot_name
                  else Py.Ok pilot_name) ;;
   fastest_lap <-
     (if Py.truthy fastest_lap && negb (Py.value_eqb fastest_lap (Py.Str "N/A"))
      then
        sw <- Py.value_startswith fastest_lap "0:" ;;
        if sw then Py.value_slice_from 2 fastest_lap else Py.Ok fastest_lap
      else Py.Ok fastest_lap) ;;
   Py.Ok (Py.str_of_Z position ++ "." ++ Py.str pilot_name ++ " " ++ Py.str fastest_lap))%py.

(** [for i, pilot_result in enumerate(standings)] *)
Fixpoint draw_standings (i : nat) (standings : list PilotResult) : Draw unit :=
  match standings with
  | [] => dret tt
  | pilot_result :: rest =>
      if (4 <=? i)%nat then dret tt
      else
        (line_text <- lift (pilot_line i pilot_result) ;;
         draw_text_y 5 0 line_text ;;
         add_y 10 ;;
         draw_standings (S i) rest)%draw
  end.

(** [x or dflt] for an optional string *)
Definition or_string (x : option string) (dflt : string) : string :=
  match x with
  | Some s => if String.eqb s "" then dflt else s
  | None => dflt
  end.

Definition draw_waiting : Draw unit :=
  (draw_text_y 5 0 "Waiting for" ;;
   draw_text_y 5 10 "race data...")%draw.

Definition race_status_body (env : Env) : Draw unit :=
  (race_status <- lift (get_race_status (rhapi_status env)) ;;
   draw_text 5 0 (or_string race_status "Race Active") ;;
   draw_line 0 13 width 13 ;;
   set_y 16 ;;
   let line_height := 10 in
   draw_try
     (has <- lift (Py.hasattr (race (rhapi_results env))) ;;
      r <- (if has then lift (Py.getattr (race (rhapi_results env))) else dret None) ;;
      match r with
      | Some ri =>
          res <- lift (Py.getattr (results ri)) ;;
          match res with
          | Some res =>
              if Py.nonempty res && Py.mem "by_race_time" res then
                by_race_time <- lift (getitem "by_race_time" res) ;;
                draw_standings 0 (firstn 4 by_race_time)
              else draw_waiting
          | None => draw_waiting
          end
      | None => dret tt
      end)
     (draw_text_y 5 0 "Race in progress" ;;
      draw_text_y 5 line_height "Monitoring laps..."))%draw.

Definition display_race_status (env : Env) (self : OLEDDisplay) : ViewResult :=
  if negb (display_enabled self) then Skipped
  else view_result (with_canvas (panel_fails env) (race_status_body env)).

(** *** [display_normal_voltage_monitor] *)

(** [for sensor_name, readings in voltage_data.items()]; [sensor_count] only
    feeds a log line and is left out. *)
Fixpoint draw_sensors (items : VoltageData) : Draw unit :=
  match items with
  | [] => dret tt
  | (sensor_name, readings) :: rest =>
      if Py.mem "voltage" readings then
        (let line_height := 12 in
         voltage <- lift (getitem "voltage" readings) ;;
         text <- lift (format_reading 2 voltage) ;;
         draw_text_y 5 0 (sensor_name ++ ": " ++ text) ;;
         add_y line_height ;;
         (if Py.mem "current" readings then
            current <- lift (getitem "current" readings) ;;
            text <- lift (format_reading 1 current) ;;
            draw_text_y 5 0 ("  I: " ++ text) ;;
            add_y line_height
          else dret tt) ;;
         add_y 2 ;;
         y <- get_y ;;
         if (height - 20 <? y)%Z then dret tt else draw_sensors rest)%draw
      else draw_sensors rest
  end.

(** [for name in sensor_names[:2]] *)
Fixpoint draw_sensor_names (names : list string) : Draw unit :=
  match names with
  | [] => dret tt
  | name :: rest =>
      (draw_text_y 5 0 ("  " ++ name) ;;
       add_y 12 ;;
       draw_sensor_names rest)%draw
  end.

(** The [else] branch of [if voltage_data:] (lines 348-372). *)
Definition draw_no_voltage (rhapi : RHAPI) : Draw unit :=
  (let line_height := 12 in
   draw_text_y 5 0 "No voltage sensors" ;;
   add_y (line_height + 2) ;;
   draw_try
     (has <- lift (Py.hasattr (sensors rhapi)) ;;
      available <-
        (if has then
           s <- lift (Py.getattr (sensors rhapi)) ;;
           match s with
           | Some si => sd <- lift (Py.getattr (sensors_dict si)) ;; dret (Py.nonempty sd)
           | None => lift Py.Raise
           end
         else dret false) ;;
      if (available : bool) then
        s <- lift (Py.getattr (sensors rhapi)) ;;
        match s with
        | Some si =>
            sd <- lift (Py.getattr (sensors_dict si)) ;;
            let sensor_names := Py.keys sd in
            match sensor_names with
            | _ :: _ =>
                draw_text_y 5 0 ("Sensors: " ++ Py.str_of_Z (Z.of_nat (List.length sensor_names))) ;;
                add_y line_height ;;
                draw_sensor_names (firstn 2 sensor_names)
            | [] => draw_text_y 5 0 "No sensors found"
            end
        | None => lift Py.Raise
        end
      else
        draw_text_y 5 0 "Sensor system" ;;
        draw_text_y 5 line_height "not available")
     (draw_text_y 5 0 "Sensor error"))%draw.

Definition display_normal_voltage_monitor (env : Env)
    (voltage_data : option VoltageData) : Draw unit :=
  (race_status <- lift (get_race_status (rhapi_status env)) ;;
   draw_text 5 0 (or_string race_status "Voltage Monitor") ;;
   draw_line 0 15 width 15 ;;
   set_y 20 ;;
   match voltage_data with
   | Some vd => if Py.nonempty vd then draw_sensors vd else draw_no_voltage (rhapi_diag env)
   | None => draw_no_voltage (rhapi_diag env)
   end ;;
   draw_text 5 (height - 12) (clock_hms env))%draw.

(** *** [display_burn_in_protection] *)

(** The loop that picks the primary voltage reading (lines 385-390). *)
Fixpoint primary_voltage (items : VoltageData) (voltage_text : string)
  : Py.result string :=
  match items with
  | [] => Py.Ok voltage_text
  | (_, readings) :: rest =>
      match Py.get "voltage" readings with
      | Some voltage => format_reading 1 voltage
      | None => primary_voltage rest voltage_text
      end
  end.

Definition burn_in_voltage_text (voltage_data : option VoltageData)
  : Py.result string :=
  match voltage_data with
  | Some vd => primary_voltage vd "No Data"
  | None => Py.Ok "No Data"
  end.

Definition display_burn_in_protection (env : Env)
    (voltage_data : option VoltageData) : Draw unit :=
  (voltage_text <- lift (burn_in_voltage_text voltage_data) ;;
   let current_time := clock_hm env in
   let margin := 10%Z in
   let max_x := (width - 50)%Z in
   let max_y := (height - 20)%Z in
   let voltage_x := randint env 0%nat margin max_x in
   let voltage_y := randint env 1%nat margin (max_y / 2)%Z in
   let time_x := randint env 2%nat margin max_x in
   let time_y := randint env 3%nat (max_y / 2 + 10)%Z max_y in
   draw_text voltage_x voltage_y voltage_text ;;
   draw_text time_x time_y current_time)%draw.

(* ================================================================== *)
(** ** Display state controller                                        *)
(* ================================================================== *)

(** The voltage part of a tick (lines 127-142), run after the idle branch
    updated [self]. *)
Definition voltage_view (env : Env) (self : OLEDDisplay) : Py.result Frame :=
  (voltage_data <- get_voltage_data (rhapi_sensors env) ;;
   with_canvas (panel_fails env)
     (if burn_in_protection_active self
      then display_burn_in_protection env voltage_data
      else display_normal_voltage_monitor env voltage_data))%py.

Definition update_display (env : Env) (self : OLEDDisplay) : OLEDDisplay * TickOutcome :=
  if negb (display_enabled self) then (self, NotEnabled)
  else if show_race_info self && Qlt_bool (t_check env) (race_info_timeout self) then
    (self, Selected LapNotice (display_race_info env self))
  else
    match is_race_active (rhapi_active env) with
    | Py.Ok true =>
        let self := set_voltage_monitor_start_time (t_race env) self in
        (self, Selected RaceStanding (display_race_status env self))
    | Py.Ok false =>
        let self := reset_race_info self in
        let self :=
          if Qeq_bool (voltage_monitor_start_time self) 0
          then set_voltage_monitor_start_time (t_reset env) self
          else self in
        let voltage_monitor_duration := (t_idle env - voltage_monitor_start_time self)%Q in
        let self :=
          set_burn_in_protection_active (Qlt_bool 60 voltage_monitor_duration) self in
        (self,
         Selected (if burn_in_protection_active self then BurnInGuard else VoltageMonitor)
           (view_result (voltage_view env self)))
    | Py.Raise => (self, Aborted)
    end.

(** [update_display] with the event thread at work.  The display thread
    and the event handlers share [self] without a lock: [event] is what a
    handler stores in [self] while the tick is under way, after the test of
    line 110 and before lines 121-122 (the query of line 113 lies in
    between).  In the two branches that return before, the handler writes
    after the tick has read [self]. *)
Definition update_display_during (event : OLEDDisplay -> OLEDDisplay)
    (env : Env) (self : OLEDDisplay) : OLEDDisplay * TickOutcome :=
  if negb (display_enabled self) then (event self, NotEnabled)
  else if show_race_info self && Qlt_bool (t_check env) (race_info_timeout self) then
    (event self, Selected LapNotice (display_race_info env self))
  else
    let self := event self in
    match is_race_active (rhapi_active env) with
    | Py.Ok true =>
        let self := set_voltage_monitor_start_time (t_race env) self in
        (self, Selected RaceStanding (display_race_status env self))
    | Py.Ok false =>
        let self := reset_race_info self in
        let self :=
          if Qeq_bool (voltage_monitor_start_time self) 0
          then set_voltage_monitor_start_time (t_reset env) self
          else self in
        let voltage_monitor_duration := (t_idle env - voltage_monitor_start_time self)%Q in
        let self :=
          set_burn_in_protection_active (Qlt_bool 60 voltage_monitor_duration) self in
        (self,
         Selected (if burn_in_protection_active self then BurnInGuard else VoltageMonitor)
           (view_result (voltage_view env self)))
    | Py.Raise => (self, Aborted)
    end.

(** The frames of successive [update_display] calls, as [_display_loop]
    issues them. *)
Fixpoint run_ticks (envs : list Env) (self : OLEDDisplay)
  : list TickOutcome * OLEDDisplay :=
  match envs with
  | [] => ([], self)
  | env :: rest =>
      let (self1, out) := update_display env self in
      let (outs, self2) := run_ticks rest self1 in
      (out :: outs, self2)
  end.

(** [show_lap_completion(pilot_name, lap_number, lap_time, position=None)];
    [position = None] is a call without the argument; [now] is its
    [time.time()]. *)
Definition show_lap_completion (now : Q) (pilot_name lap_number lap_time : Py.value)
    (position : option Py.value) (self : OLEDDisplay) : OLEDDisplay :=
  let position := match position with Some p => p | None => Py.None_ end in
  {| display := display self;
     display_enabled := display_enabled self;
     show_race_info := true;
     last_lap_info :=
       Some [("pilot_name", pilot_name);
             ("lap_number", lap_number);
             ("lap_time", lap_time);
             ("position", position)];
     race_info_timeout := (now + 5)%Q;
     voltage_monitor_start_time := voltage_monitor_start_time self;
     burn_in_protection_active := burn_in_protection_active self;
     display_thread := display_thread self;
     thread_running := thread_running self |}.

(* ================================================================== *)
(** ** Lifecycle                                                       *)
(* ================================================================== *)

(** How the hardware answers [initialize_display]. *)
Inductive Hardware : Type :=
| HwReady          (* panel created and cleared *)
| HwNoPanel        (* [i2c(...)] or [sh1106(...)] raises *)
| HwClearFails.    (* the panel is created, [display.clear()] raises *)

Definition initialize_display (hw : Hardware) (self : OLEDDisplay) : OLEDDisplay * bool :=
  match hw with
  | HwReady => (set_display true true self, true)
  | HwNoPanel => (set_display (display self) false self, false)
  | HwClearFails => (set_display true false self, false)
  end.

(** What the thread and the panel do during shutdown. *)
Record ShutdownEnv : Type :=
  { thread_is_alive : bool;   (* [self.display_thread.is_alive()] *)
    clear_fails : bool }.     (* [self.display.clear()] raises *)

(** Operations issued on the thread and on the panel. *)
Inductive DeviceOp : Type :=
| ThreadStart
| ThreadJoin
| PanelClear.

Definition start_display_thread (alive : bool) (self : OLEDDisplay)
  : OLEDDisplay * list DeviceOp :=
  if display_thread self && alive then (self, [])
  else (set_thread true true self, [ThreadStart]).

Definition stop_display_thread (e : ShutdownEnv) (self : OLEDDisplay)
  : OLEDDisplay * list DeviceOp :=
  let self := set_thread (display_thread self) false self in
  (self, if display_thread self && thread_is_alive e then [ThreadJoin] else []).

(** [cleanup]: the new [self], the operations issued, and how the call
    returns. *)
Definition cleanup (e : ShutdownEnv) (self : OLEDDisplay)
  : OLEDDisplay * list DeviceOp * Py.result unit :=
  let (self, ops) := stop_display_thread e self in
  if display self then
    (self, (ops ++ [PanelClear])%list,
     Py.try_except (if clear_fails e then Py.Raise else Py.Ok tt) (Py.Ok tt))
  else (self, ops, Py.try_except (Py.Ok tt) (Py.Ok tt)).

(** States the controller can be in: built by [__init__] and changed only
    by the methods of the class. *)
Inductive reachable : OLEDDisplay -> Prop :=
| reach_init (now : Q) :
    reachable (OLEDDisplay_init now)
| reach_initialize_display (hw : Hardware) (self : OLEDDisplay) :
    reachable self -> reachable (fst (initialize_display hw self))
| reach_start_display_thread (alive : bool) (self : OLEDDisplay) :
    reachable self -> reachable (fst (start_display_thread alive self))
| reach_update_display (env : Env) (self : OLEDDisplay) :
    reachable self -> reachable (fst (update_display env self))
| reach_show_lap_completion (now : Q) (pilot_name lap_number lap_time : Py.value)
    (position : option Py.value) (self : OLEDDisplay) :
    reachable self ->
    reachable (show_lap_completion now pilot_name lap_number lap_time position self)
| reach_cleanup (e : ShutdownEnv) (self : OLEDDisplay) :
    reachable self -> reachable (fst (fst (cleanup e self))).

(* ================================================================== *)
(** ** The plugin around the controller ([__init__.py])                *)
(* ================================================================== *)

Module Plugin.

(** The module-level [start_display_thread()]: the thread is started only
    for an enabled display. *)
Definition start_display_thread (alive : bool) (oled_display : OLEDDisplay)
  : OLEDDisplay :=
  if display_enabled oled_display
  then fst (start_display_thread alive oled_display)
  else oled_display.

(** [initialize(rhapi)]: create the display, initialise the hardware and,
    on success, start the thread. *)
Definition initialize (now : Q) (hw : Hardware) : OLEDDisplay * bool :=
  let (oled_display, ok) := initialize_display hw (OLEDDisplay_init now) in
  if ok then (start_display_thread false oled_display, true)
  else (oled_display, false).

(** [lap_recorded_handler(args)] ends in
    [oled_display.show_lap_completion(pilot_name, lap_number, lap_time)];
    how the three values are read from [args] is left out. *)
Definition lap_recorded_handler (now : Q) (pilot_name lap_number lap_time : Py.value)
    (oled_display : OLEDDisplay) : OLEDDisplay :=
  show_lap_completion now pilot_name lap_number lap_time None oled_display.

(** [shutdown_handler(args)] *)
Definition shutdown_handler (e : ShutdownEnv) (oled_display : OLEDDisplay)
  : OLEDDisplay :=
  fst (fst (cleanup e oled_display)).

End Plugin.

(** States of the display under the plugin.  [update_display] is run by the
    display thread only, so a tick needs a thread. *)
Inductive plugin_reachable : OLEDDisplay -> Prop :=
| plugin_initialize (now : Q) (hw : Hardware) :
    plugin_reachable (fst (Plugin.initialize now hw))
| plugin_startup (alive : bool) (self : OLEDDisplay) :
    plugin_reachable self ->
    plugin_reachable (Plugin.start_display_thread alive self)
| plugin_tick (env : Env) (self : OLEDDisplay) :
    plugin_reachable self ->
    display_thread self = true ->
    plugin_reachable (fst (update_display env self))
| plugin_lap_recorded (now : Q) (pilot_name lap_number lap_time : Py.value)
    (self : OLEDDisplay) :
    plugin_reachable self ->
    plugin_reachable (Plugin.lap_recorded_handler now pilot_name lap_number lap_time self)
| plugin_shutdown (e : ShutdownEnv) (self : OLEDDisplay) :
    plugin_reachable self ->
    plugin_reachable (Plugin.shutdown_handler e self).

(* ================================================================== *)
(** ** The specification's vocabulary                                  *)
(* ================================================================== *)

(** A lap notice is pending at a tick: one was injected and the clock read
    by the tick is before its expiry. *)
Definition lap_pending (env : Env) (self : OLEDDisplay) : Prop :=
  show_race_info self = true /\ (t_check env < race_info_timeout self)%Q.

(** The race status is Staging (1) or Racing (2). *)
Definition staging_or_racing (rhapi : RHAPI) : Prop :=
  exists ri v,
    race rhapi = Py.Present (Some ri) /\
    status ri = Py.Present v /\
    (v = Py.Int 1 \/ v = Py.Int 2).

(** The mode a tick selected, if any. *)
Definition selected_mode (out : TickOutcome) : option DisplayMode :=
  match out with
  | Selected mode _ => Some mode
  | _ => None
  end.

(** What a tick sent to the panel, if anything. *)
Definition flushed_frame (out : TickOutcome) : option Frame :=
  match out with
  | Selected _ (Flushed f) => Some f
  | _ => None
  end.

(** The lap notice as the specification lays it out: header, separator,
    pilot, lap number, lap time and position. *)
Definition lap_notice_frame (pilot_name lap_number lap_time position : Py.value)
  : Frame :=
  [ Text 5 0 "LAP COMPLETED";
    Line 0 13 128 13;
    Text 5 18 ("Pilot: " ++ Py.str pilot_name);
    Text 5 30 ("Lap: " ++ Py.str lap_number);
    Text 5 42 ("Time: " ++ Py.str lap_time);
    Text 5 54 ("Position: " ++ Py.str position) ].

(** A sensor contributes a voltage reading: [getReadings()] returns a dict
    with some key that contains "voltage", whatever the case. *)
Definition has_voltage_key (readings : Readings) : Prop :=
  exists key, In key (Py.keys readings) /\
              Py.contains "voltage" (Py.lower key) = true.

Definition contributes_voltage (sensor_obj : Sensor) : Prop :=
  exists readings,
    getReadings sensor_obj = Py.Present (Py.Ok (Some readings)) /\
    has_voltage_key readings.

(** The sensor subsystem cannot be read: [rhapi.sensors] or its
    [sensors_dict] is missing, [None], or raises. *)
Definition sensors_unavailable (rhapi : RHAPI) : Prop :=
  sensors rhapi = Py.Absent \/ sensors rhapi = Py.Broken \/
  sensors rhapi = Py.Present None \/
  exists si, sensors rhapi = Py.Present (Some si) /\
             (sensors_dict si = Py.Absent \/ sensors_dict si = Py.Broken).

(** The race provider cannot be read. *)
Definition race_unavailable (rhapi : RHAPI) : Prop :=
  race rhapi = Py.Absent \/ race rhapi = Py.Broken \/
  race rhapi = Py.Present None \/
  exists ri, race rhapi = Py.Present (Some ri) /\
             (status ri = Py.Absent \/ status ri = Py.Broken).

(** The standings line of the specification: [<rank>.<name> <best-lap>],
    the name cut to 6 characters, a leading "0:" dropped from the lap. *)
Definition truncate_name (name : string) : string :=
  if (6 <? Py.strlen name)%nat then Py.slice_to 6 name else name.

Definition strip_minute (lap : string) : string :=
  if String.prefix "0:" lap then Py.slice_from 2 lap else lap.

Definition standing_line (rank : Z) (name lap : string) : string :=
  Py.str_of_Z rank ++ "." ++ truncate_name name ++ " " ++ strip_minute lap.

(** The name and best lap a pilot result is shown with. *)
Definition display_name (pilot_result : PilotResult) : Py.value :=
  match Py.get "callsign" pilot_result with
  | Some v => v
  | None =>
      match Py.get "name" pilot_result with
      | Some v => v
      | None =>
          Py.Str ("Pilot " ++ Py.str (Py.get_default "pilot_id" (Py.Str "?") pilot_result))
      end
  end.

Definition best_lap (pilot_result : PilotResult) : Py.value :=
  Py.get_default "fastest_lap" (Py.Str "N/A") pilot_result.

(** Name and best lap are strings. *)
Definition printable (pilot_result : PilotResult) : Prop :=
  (exists name, display_name pilot_result = Py.Str name) /\
  (exists lap, best_lap pilot_result = Py.Str lap).

Definition value_string (v : Py.value) : string :=
  match v with
  | Py.Str s => s
  | _ => ""
  end.

(** Standings lines from rank [rank] at height [y], 10 pixels apart. *)
Fixpoint standing_lines (rank y : Z) (standings : list PilotResult) : Frame :=
  match standings with
  | [] => []
  | p :: rest =>
      Text 5 y (standing_line rank (value_string (display_name p))
                                   (value_string (best_lap p)))
      :: standing_lines (rank + 1) (y + 10) rest
  end.

Definition race_header (rhapi : RHAPI) : Frame :=
  match get_race_status rhapi with
  | Py.Ok status_text => [Text 5 0 (or_string status_text "Race Active"); Line 0 13 128 13]
  | Py.Raise => []
  end.

Definition waiting_placeholder : Frame :=
  [Text 5 16 "Waiting for"; Text 5 26 "race data..."].

(* ================================================================== *)
(** ** Sample provider states and controller states                    *)
(* ================================================================== *)

(** The float nearest to [n / d], as Python reads a decimal literal. *)
Definition decimal (n d : Z) : Py.float :=
  SFdiv Py.prec Py.emax (Py.float_of_Z n) (Py.float_of_Z d).

(** A reading as a sensor reports it: a float and its unit. *)
Definition reading (x : Py.float) (units : string) : Reading :=
  ReadingDict (Some (MFloat x)) (Some (MStr units)).

Definition battery_readings : Readings :=
  [("voltage", reading (decimal 74 10) "V");
   ("current", reading (decimal 125 100) "A")].

Definition battery : Sensor :=
  {| getReadings := Py.Present (Py.Ok (Some battery_readings)) |}.

(** A sensor whose only key mentions voltage without being ['voltage']. *)
Definition bus_readings : Readings :=
  [("Bus Voltage", reading (Py.float_of_Z 5) "V")].

Definition bus_sensor : Sensor :=
  {| getReadings := Py.Present (Py.Ok (Some bus_readings)) |}.

Definition provider (sd : Py.dict Sensor) (race_status : Z) (res : option Results)
  : RHAPI :=
  {| sensors := Py.Present (Some {| sensors_dict := Py.Present sd |});
     race := Py.Present (Some {| status := Py.Present (Py.Int race_status);
                                 results := Py.Present res |}) |}.

Definition no_provider : RHAPI := {| sensors := Py.Absent; race := Py.Absent |}.

(** A tick during which the provider does not change, whose clock reads
    are all [now], on a working panel. *)
Definition tick_env (api : RHAPI) (now : Q) : Env :=
  {| rhapi_active := api;
     rhapi_status := api;
     rhapi_results := api;
     rhapi_sensors := api;
     rhapi_diag := api;
     t_check := now; t_race := now; t_reset := now; t_idle := now;
     clock_hms := "12:00:00";
     clock_hm := "12:00";
     randint := fun _ a _ => a;
     panel_fails := false |}.

(** Created at time 100, panel initialised. *)
Definition ready_display : OLEDDisplay :=
  fst (initialize_display HwReady (OLEDDisplay_init 100)).

(** The same under the plugin, which also starts the thread. *)
Definition plugin_display : OLEDDisplay := fst (Plugin.initialize 100 HwReady).

(** The lap event of the specification's example, reported to the plugin
    at time 200. *)
Definition plugin_red5_notice : OLEDDisplay :=
  Plugin.lap_recorded_handler 200 (Py.Str "Red5") (Py.Int 3) (Py.Str "0:24.531")
    plugin_display.

(** While a lap notice is flagged there is lap information to show. *)
Definition lap_info_inv (self : OLEDDisplay) : Prop :=
  show_race_info self = true -> lap_info_truthy (last_lap_info self) = true.





(** A tick at time 202 while the race is running, and one without a race. *)
Definition racing_env : Env := tick_env (provider [] 2 None) 202.
Definition idle_env_202 : Env := tick_env no_provider 202.

(** [position=None] of [show_lap_completion] *)
Definition position_or_none (position : option Py.value) : Py.value :=
  match position with
  | Some p => p
  | None => Py.None_
  end.

(** A lap event injected at [T] is shown by exactly the ticks that read a
    clock before [T + 5]. *)
Definition lap_window (T : Q) (pilot_name lap_number lap_time : Py.value)
    (position : option Py.value) (self : OLEDDisplay) (envs : list Env) : Prop :=
  let s0 := show_lap_completion T pilot_name lap_number lap_time position self in
  let notice :=
    lap_notice_frame pilot_name lap_number lap_time (position_or_none position) in
  List.length (fst (run_ticks envs s0)) = List.length envs /\
  forall i env out,
    nth_error envs i = Some env ->
    nth_error (fst (run_ticks envs s0)) i = Some out ->
    ((T <= t_check env)%Q -> (t_check env < T + 5)%Q ->
     selected_mode out = Some LapNotice /\
     (panel_fails env = false -> flushed_frame out = Some notice)) /\
    ((T + 5 <= t_check env)%Q -> selected_mode out <> Some LapNotice).

(** Three idle ticks, at 201, 203 and 206. *)
Definition three_ticks : list Env :=
  [tick_env no_provider 201; tick_env no_provider 203; tick_env no_provider 206].

(** The wall clock set back between two ticks: the first reads 206, the
    second 203. *)
Definition clock_set_back : list Env :=
  [tick_env no_provider 206; tick_env no_provider 203].

(** An idle tick: the display is enabled, no lap notice is pending and the
    race is neither Staging nor Racing. *)
Definition idle_tick (env : Env) (self : OLEDDisplay) : Prop :=
  display_enabled self = true /\
  ~ lap_pending env self /\
  ~ staging_or_racing (rhapi_active env).

(** The idle duration a tick compares with the burn-in threshold: its clock
    read of line 128 minus the idle-start timestamp it leaves in [self]. *)
Definition idle_duration (env : Env) (self : OLEDDisplay) : Q :=
  (t_idle env - voltage_monitor_start_time (fst (update_display env self)))%Q.

(** The burn-in rule with the threshold included: guard from 60 seconds on. *)
Definition burn_in_from_60 (env : Env) (self : OLEDDisplay) : Prop :=
  let out := snd (update_display env self) in
  (selected_mode out = Some BurnInGuard <-> (60 <= idle_duration env self)%Q) /\
  (selected_mode out = Some VoltageMonitor <-> ~ (60 <= idle_duration env self)%Q).

(** The burn-in rule of the code: guard only above 60 seconds. *)
Definition burn_in_above_60 (env : Env) (self : OLEDDisplay) : Prop :=
  let self' := fst (update_display env self) in
  let out := snd (update_display env self) in
  (selected_mode out = Some BurnInGuard <-> (60 < idle_duration env self)%Q) /\
  (selected_mode out = Some VoltageMonitor <-> (idle_duration env self <= 60)%Q) /\
  (~ (voltage_monitor_start_time self == 0)%Q ->
   voltage_monitor_start_time self' = voltage_monitor_start_time self).

(** The clock reads of one tick. *)
Definition clock_reads (env : Env) : list Q :=
  [t_check env; t_race env; t_reset env; t_idle env].

(** The idle timer is reset by a tick that leaves an idle view ([prev] is
    the outcome of the tick before) for the lap notice or the standings. *)
Definition idle_timer_reset_on_leaving (prev : TickOutcome) (env : Env)
    (self : OLEDDisplay) : Prop :=
  let self' := fst (update_display env self) in
  let out := snd (update_display env self) in
  (selected_mode prev = Some VoltageMonitor \/ selected_mode prev = Some BurnInGuard) ->
  (selected_mode out = Some LapNotice \/ selected_mode out = Some RaceStanding) ->
  exists now, In now (clock_reads env) /\ (voltage_monitor_start_time self' == now)%Q.

(** What the code does with the idle timer. *)
Definition idle_timer_tracking (env : Env) (self : OLEDDisplay) : Prop :=
  let self' := fst (update_display env self) in
  let out := snd (update_display env self) in
  (selected_mode out = Some RaceStanding ->
   voltage_monitor_start_time self' = t_race env) /\
  (selected_mode out = Some LapNotice ->
   voltage_monitor_start_time self' = voltage_monitor_start_time self) /\
  (selected_mode out = Some VoltageMonitor \/ selected_mode out = Some BurnInGuard ->
   burn_in_protection_active self'
   = Qlt_bool 60 (t_idle env - voltage_monitor_start_time self') /\
   (selected_mode out = Some BurnInGuard <-> burn_in_protection_active self' = true)).

(** Idle since 100; ticks at 110 and 160; a lap event at 111 and the tick
    at 112 that shows it. *)
Definition idle_env_110 : Env := tick_env no_provider 110.
Definition idle_env_160 : Env := tick_env no_provider 160.
Definition idle_env_165 : Env := tick_env no_provider 165.
Definition after_idle_tick : OLEDDisplay := fst (update_display idle_env_110 ready_display).
Definition lap_after_idle : OLEDDisplay :=
  show_lap_completion 111 (Py.Str "Red5") (Py.Int 3) (Py.Str "0:24.531") None
    after_idle_tick.
Definition lap_env_112 : Env := tick_env no_provider 112.

(** The state an idle tick leaves behind. *)
Definition after_idle (env : Env) (self : OLEDDisplay) : OLEDDisplay :=
  let self := reset_race_info self in
  let self :=
    if Qeq_bool (voltage_monitor_start_time self) 0
    then set_voltage_monitor_start_time (t_reset env) self
    else self in
  set_burn_in_protection_active
    (Qlt_bool 60 (t_idle env - voltage_monitor_start_time self)) self.

(** The sensor subsystem is there but registers no sensor. *)
Definition empty_sensor_system : RHAPI :=
  {| sensors := Py.Present (Some {| sensors_dict := Py.Present [] |});
     race := Py.Absent |}.

(** The frame both an absent and an empty sensor subsystem produce. *)
Definition not_available_frame : Frame :=
  [ Text 5 0 "Voltage Monitor";
    Line 0 15 128 15;
    Text 5 20 "No voltage sensors";
    Text 5 34 "Sensor system";
    Text 5 46 "not available";
    Text 5 52 "12:00:00" ].

(** A second [cleanup] right after a first one does nothing. *)
Definition second_cleanup_is_noop (e1 e2 : ShutdownEnv) (self : OLEDDisplay) : Prop :=
  let '(s1, _, _) := cleanup e1 self in
  let '(_, ops2, r2) := cleanup e2 s1 in
  ops2 = [] /\ r2 = Py.Ok tt.

(** What a second [cleanup] does: [self] stays, the call returns, the
    thread is joined if it is still alive and the panel is cleared again. *)
Definition second_cleanup_effect (e1 e2 : ShutdownEnv) (self : OLEDDisplay) : Prop :=
  let '(s1, _, _) := cleanup e1 self in
  let '(s2, ops2, r2) := cleanup e2 s1 in
  s2 = s1 /\
  r2 = Py.Ok tt /\
  ops2 = ((if display_thread self && thread_is_alive e2 then [ThreadJoin] else [])
          ++ (if display self then [PanelClear] else []))%list.

(** A display with its panel initialised and its thread started. *)
Definition running_display : OLEDDisplay :=
  fst (start_display_thread false ready_display).

(** The thread is alive at the first [cleanup] and has ended at the second. *)
Definition first_shutdown : ShutdownEnv :=
  {| thread_is_alive := true; clear_fails := false |}.
Definition second_shutdown : ShutdownEnv :=
  {| thread_is_alive := false; clear_fails := false |}.

(** The standings view of a provider whose race results can be read. *)
Definition standings_view (env : Env) (self : OLEDDisplay) : Prop :=
  forall ri,
    race (rhapi_results env) = Py.Present (Some ri) ->
    (forall res standings,
        results ri = Py.Present (Some res) ->
        Py.get "by_race_time" res = Some standings ->
        Forall printable (firstn 4 standings) ->
        display_race_status env self
        = Flushed (race_header (rhapi_status env)
                   ++ standing_lines 1 16 (firstn 4 standings))%list /\
        (List.length (standing_lines 1 16 (firstn 4 standings)) <= 4)%nat) /\
    (results ri = Py.Present None \/
     (exists res, results ri = Py.Present (Some res) /\
                  Py.get "by_race_time" res = None) ->
     display_race_status env self
     = Flushed (race_header (rhapi_status env) ++ waiting_placeholder)%list).

(** The lap notice prints the pilot name in full. *)
Definition lap_notice_name_in_full (env : Env) (self : OLEDDisplay) : Prop :=
  forall now name lap_number lap_time position,
  exists rest,
    display_race_info env
      (show_lap_completion now (Py.Str name) lap_number lap_time position self)
    = Flushed ([Text 5 0 "LAP COMPLETED"; Line 0 13 128 13;
                Text 5 18 ("Pilot: " ++ name)] ++ rest)%list.

(** The cut of a name, in characters: a name of at most 6 characters is
    kept, a longer one gives its first 6 characters. *)
Definition name_cut_to_six (name : string) : Prop :=
  ((Py.strlen name <= 6)%nat -> truncate_name name = name) /\
  ((6 < Py.strlen name)%nat ->
   Py.strlen (truncate_name name) = 6%nat /\
   exists rest, name = truncate_name name ++ rest).

(** The cut of a lap time: a leading "0:" goes, anything else stays. *)
Definition minute_prefix_dropped (lap : string) : Prop :=
  (forall rest, lap = "0:" ++ rest -> strip_minute lap = rest) /\
  (String.prefix "0:" lap = false -> strip_minute lap = lap).

(** The waiting placeholder is drawn whenever the standings list is empty. *)
Definition waiting_without_standings (env : Env) (self : OLEDDisplay) : Prop :=
  forall ri res,
    race (rhapi_results env) = Py.Present (Some ri) ->
    results ri = Py.Present (Some res) ->
    Py.get "by_race_time" res = Some [] ->
    exists f, display_race_status env self = Flushed f /\ incl waiting_placeholder f.

(** A race in progress whose leaderboard is still empty. *)
Definition empty_leaderboard_env : Env :=
  tick_env (provider [] 2 (Some [("by_race_time", [])])) 110.

(** A race in progress with five pilots on the leaderboard. *)
Definition five_pilots : list PilotResult :=
  [ [("callsign", Py.Str "Müller12"); ("fastest_lap", Py.Str "0:24.531")];
    [("name", Py.Str "Bob"); ("fastest_lap", Py.Str "1:02.000")];
    [("pilot_id", Py.Int 7)];
    [("callsign", Py.Str "Red5"); ("fastest_lap", Py.Str "0:31.100")];
    [("callsign", Py.Str "Late"); ("fastest_lap", Py.Str "0:45.000")] ].

Definition five_pilots_env : Env :=
  tick_env (provider [] 2 (Some [("by_race_time", five_pilots)])) 110.

(** A sensor that is in the snapshot without being drawn: dropping it from
    the snapshot changes neither what the sensor loop of the voltage
    monitor draws nor the primary reading of the burn-in guard. *)
Definition in_snapshot_not_rendered (rhapi : RHAPI) (name : string)
    (readings : Readings) : Prop :=
  exists vd,
    get_voltage_data rhapi = Py.Ok (Some vd) /\
    Py.get name vd = Some readings /\
    (forall c, draw_sensors vd c = draw_sensors (Py.remove name vd) c) /\
    (forall env c,
        Py.nonempty (Py.remove name vd) = true ->
        display_normal_voltage_monitor env (Some vd) c
        = display_normal_voltage_monitor env (Some (Py.remove name vd)) c) /\
    (forall env c,
        display_burn_in_protection env (Some vd) c
        = display_burn_in_protection env (Some (Py.remove name vd)) c).

(** A battery sensor and a sensor that only has a "Bus Voltage" key. *)
Definition two_sensors : Py.dict Sensor := [("Battery", battery); ("Bus", bus_sensor)].

(* ================================================================== *)
(** ** Further vocabulary for the views and the lifecycle              *)
(* ================================================================== *)

(** What a sensor adds to the snapshot when its name is new. *)
Definition snapshot_entry (item : string * Sensor) : VoltageData :=
  match Py.try_except (read_sensor (snd item)) (Py.Ok None) with
  | Py.Ok (Some readings) => [(fst item, readings)]
  | _ => []
  end.

(** The contributing sensors of a sensors dict, in its order. *)
Definition snapshot_of (items : Py.dict Sensor) : VoltageData :=
  flat_map snapshot_entry items.

(** A text command at column 5 whose row lies in a band. *)
Definition text_between (lo hi : Z) (cmd : draw_cmd) : Prop :=
  exists y s, cmd = Text 5 y s /\ lo <= y <= hi.

(** [random.randint(a, b)] answers within its bounds. *)
Definition randint_in_bounds (env : Env) : Prop :=
  forall k a b, a <= b -> a <= randint env k a b <= b.

(** A sensor without [getReadings] between two that contribute. *)
Definition three_sensors : Py.dict Sensor :=
  [("Bus", bus_sensor); ("Mute", {| getReadings := Py.Absent |}); ("Battery", battery)].

(** A value that [f"{value:.Nf}"] formats: a float, or an int within the
    range of the floats. *)
Definition number (value : Measure) : Prop :=
  match value with
  | MFloat _ => True
  | MInt z => exists x, Py.float_of_int z = Py.Ok x
  | MNone | MStr _ => False
  end.

(** A reading the views can format: a dict with a number under ['value']
    and something under ['units']. *)
Definition well_formed (reading : Reading) : Prop :=
  exists value units,
    reading = ReadingDict (Some value) (Some units) /\ number value.

(** Readings the sensor loop can draw: their ['voltage'] entry, if there
    is one, is well formed, and then so is their ['current'] entry. *)
Definition renderable (readings : Readings) : Prop :=
  forall voltage,
    Py.get "voltage" readings = Some voltage ->
    well_formed voltage /\
    forall current, Py.get "current" readings = Some current -> well_formed current.

Definition snapshot_renderable (vd : VoltageData) : Prop :=
  forall name readings, In (name, readings) vd -> renderable readings.

(** What the provider lets [get_voltage_data] collect is renderable. *)
Definition sensors_renderable (rhapi : RHAPI) : Prop :=
  forall vd, get_voltage_data rhapi = Py.Ok (Some vd) -> snapshot_renderable vd.

(** The loop body for a sensor with a ['voltage'] reading (lines 324-341):
    the canvas it leaves behind and whether it raised. *)
Definition after_sensor (sensor_name : string) (readings : Readings)
    (voltage : Reading) (c : Canvas) : Canvas * Py.result unit :=
  match format_reading 2 voltage with
  | Py.Raise => (c, Py.Raise)
  | Py.Ok text =>
      let line := Text 5 (y_pos c) (sensor_name ++ ": " ++ text) in
      match Py.get "current" readings with
      | None =>
          ({| drawn := (drawn c ++ [line])%list; y_pos := y_pos c + 14 |}, Py.Ok tt)
      | Some current =>
          match format_reading 1 current with
          | Py.Raise =>
              ({| drawn := (drawn c ++ [line])%list; y_pos := y_pos c + 12 |},
               Py.Raise)
          | Py.Ok text' =>
              ({| drawn := (drawn c ++ [line; Text 5 (y_pos c + 12) ("  I: " ++ text')])%list;
                  y_pos := y_pos c + 26 |}, Py.Ok tt)
          end
      end
  end.

(** A sensor whose voltage reading has no number. *)
Definition mute_readings : Readings :=
  [("voltage", ReadingDict (Some MNone) (Some (MStr "V")))].

Definition mute_snapshot : VoltageData :=
  [("Battery", [("voltage", reading (decimal 74 10) "V")]); ("Mute", mute_readings)].

(** A provider whose only sensor reports that reading. *)
Definition mute_provider : RHAPI :=
  provider [("Mute", {| getReadings := Py.Present (Py.Ok (Some mute_readings)) |})]
    0 None.

(** No command of the frame prints the given text. *)
Definition never_prints (text : string) (f : Frame) : Prop :=
  forall x y, ~ In (Text x y text) f.

(** The header texts [get_race_status] can produce. *)
Definition race_status_text (v : Py.value) : option string :=
  match v with
  | Py.Int 1 => Some "Race: Staging"
  | Py.Int 2 => Some "Race: Running"
  | Py.Int 3 => Some "Race: Finished"
  | _ => None
  end.

(** The status text of a provider, read as [get_race_status] reads it. *)
Definition provider_status_text (rhapi : RHAPI) : option string :=
  match race rhapi with
  | Py.Present (Some ri) =>
      match status ri with
      | Py.Present v => race_status_text v
      | _ => None
      end
  | _ => None
  end.

(** The shape of a voltage-monitor frame: header, separator, a short body
    between rows 20 and 58, and the clock at row 52. *)
Definition voltage_monitor_shape (env : Env) (f : Frame) : Prop :=
  exists body,
    f = (Text 5 0 (or_string (provider_status_text (rhapi_status env)) "Voltage Monitor")
         :: Line 0 15 128 15
         :: body ++ [Text 5 52 (clock_hms env)])%list /\
    (List.length body <= 4)%nat /\
    Forall (text_between 20 58) body.

(** A race that is over, with a battery on the sensor bus. *)
Definition finished_env : Env := tick_env (provider two_sensors 3 None) 110.

(** A race that is running at the mode check and over when the view reads
    the status. *)
Definition race_ending_env : Env :=
  {| rhapi_active := provider [] 2 None;
     rhapi_status := provider [] 3 None;
     rhapi_results := provider [] 3 None;
     rhapi_sensors := provider [] 3 None;
     rhapi_diag := provider [] 3 None;
     t_check := 110; t_race := 110; t_reset := 110; t_idle := 110;
     clock_hms := "12:00:00"; clock_hm := "12:00";
     randint := fun _ a _ => a;
     panel_fails := false |}.

(** The shape of a standings frame: header, separator and a short body
    between rows 16 and 56. *)
Definition standings_shape (rhapi : RHAPI) (f : Frame) : Prop :=
  exists body,
    f = (Text 5 0 (or_string (provider_status_text rhapi) "Race Active")
         :: Line 0 13 128 13 :: body)%list /\
    (List.length body <= 5)%nat /\
    Forall (text_between 16 56) body.

(** The burn-in guard: two texts, the reading in the upper band and the
    clock in the lower band, both inside the margins. *)
Definition burn_in_shape (env : Env) (voltage_text : string) (f : Frame) : Prop :=
  exists vx vy tx ty,
    f = [Text vx vy voltage_text; Text tx ty (clock_hm env)] /\
    10 <= vx <= 78 /\ 10 <= vy <= 22 /\
    10 <= tx <= 78 /\ 32 <= ty <= 44.

(** A tick whose random source always answers with the upper bound. *)
Definition upper_random_env : Env :=
  {| rhapi_active := provider two_sensors 0 None;
     rhapi_status := provider two_sensors 0 None;
     rhapi_results := provider two_sensors 0 None;
     rhapi_sensors := provider two_sensors 0 None;
     rhapi_diag := provider two_sensors 0 None;
     t_check := 165; t_race := 165; t_reset := 165; t_idle := 165;
     clock_hms := "12:00:00"; clock_hm := "12:00";
     randint := fun _ _ b => b;
     panel_fails := false |}.

(** The first sensor of a snapshot with a ['voltage'] reading decides the
    text of the burn-in guard: its reading with one decimal and the unit,
    or an exception when that reading is not well formed. *)
Definition primary_reading_rule (vd : VoltageData) : Prop :=
  ((forall name r, In (name, r) vd -> ~ In "voltage" (Py.keys r)) ->
   burn_in_voltage_text (Some vd) = Py.Ok "No Data") /\
  (forall pre name r voltage post,
      vd = (pre ++ (name, r) :: post)%list ->
      (forall name' r', In (name', r') pre -> ~ In "voltage" (Py.keys r')) ->
      Py.get "voltage" r = Some voltage ->
      (forall x units,
          voltage = ReadingDict (Some (MFloat x)) (Some units) ->
          burn_in_voltage_text (Some vd)
          = Py.Ok (Py.format_float 1 x ++ measure_str units)) /\
      (well_formed voltage -> exists text, burn_in_voltage_text (Some vd) = Py.Ok text) /\
      (~ well_formed voltage -> burn_in_voltage_text (Some vd) = Py.Raise)).

(** What [update_display] leaves alone. *)
Definition same_hardware_fields (s s' : OLEDDisplay) : Prop :=
  display s' = display s /\
  display_enabled s' = display_enabled s /\
  race_info_timeout s' = race_info_timeout s /\
  display_thread s' = display_thread s /\
  thread_running s' = thread_running s.

(** A pilot result without callsign and name. *)
Definition anonymous_pilot : PilotResult :=
  [("pilot_id", Py.Int 12345); ("fastest_lap", Py.Str "0:31.100")].

(** A race tick at 130 and an idle tick at 185 and 195. *)
Definition race_env_130 : Env := tick_env (provider [] 2 None) 130.
Definition idle_env_185 : Env := tick_env no_provider 185.
Definition idle_env_195 : Env := tick_env no_provider 195.

(** [_display_loop]: one element of [envs] per iteration that the thread
    gets to run; the loop ends when [thread_running] is found [False].
    The sleeps between iterations are not modelled. *)
Fixpoint _display_loop (envs : list Env) (self : OLEDDisplay)
  : list TickOutcome * OLEDDisplay :=
  match envs with
  | [] => ([], self)
  | env :: rest =>
      if thread_running self then
        let (self1, out) := update_display env self in
        let (outs, self2) := _display_loop rest self1 in
        (out :: outs, self2)
      else ([], self)
  end.

(** An idle tick at 206. *)
Definition idle_env_206 : Env := tick_env no_provider 206.

(** [test_sensor_access(rhapi)] of the plugin: can the sensor subsystem be
    read?  The log lines with the number and the names of the sensors are
    left out. *)
Definition test_sensor_access (rhapi : RHAPI) : Py.result bool :=
  Py.try_except
    (has <- Py.hasattr (sensors rhapi) ;;
     s <- (if has then Py.getattr (sensors rhapi) else Py.Ok None) ;;
     match s with
     | Some si =>
         sd <- Py.getattr (sensors_dict si) ;;
         Py.Ok true
     | None => Py.Ok false
     end)%py
    (Py.Ok false).

(** What [Plugin.initialize] leaves behind. *)
Definition initialize_outcome (now : Q) (hw : Hardware) : Prop :=
  let s := fst (Plugin.initialize now hw) in
  let ok := snd (Plugin.initialize now hw) in
  (ok = true <-> hw = HwReady) /\
  (ok = true ->
   display s = true /\ display_enabled s = true /\
   display_thread s = true /\ thread_running s = true) /\
  (ok = false ->
   display_enabled s = false /\ display_thread s = false /\
   forall alive env,
     Plugin.start_display_thread alive s = s /\
     update_display env s = (s, NotEnabled)).

(* ================================================================== *)
(** ** The lap-recorded handler of the plugin ([__init__.py])          *)
(* ================================================================== *)

Module Handler.

(** What the event holds as raw lap time, [lap_time]: [None], a number of
    milliseconds as an int or a float, or a string. *)
Inductive Raw : Type :=
| RawNone
| RawInt (z : Z)
| RawFloat (x : Py.float)
| RawStr (s : string).

(** The [lap] entry of the event arguments: an object with attributes, a
    dict, or some other truthy value.  Of a dict the key ['lap_time'] is
    kept apart from the keys whose values are only printed ([None]: the
    key is missing). *)
Inductive LapData : Type :=
| LapObject (lap_number lap_time_formatted : Py.attr Py.value) (lap_time : Py.attr Raw)
| LapDict (d : Py.dict Py.value) (lap_time : option Raw)
| LapOther.

(** The keys of [args] the handler reads; [None] is a missing key (for
    [lap] also a falsy value). *)
Record LapArgs : Type :=
  { arg_pilot_id : option Py.value;
    arg_lap : option LapData;
    arg_lap_number : option Py.value;
    arg_lap_time_formatted : option Py.value }.

(** A pilot of the database, the database and the attributes of
    [plugin_rhapi] the handler reads; [util] holds
    [format_time_to_str]. *)
Record Pilot : Type :=
  { callsign : Py.attr Py.value;
    name : Py.attr Py.value }.

Record Database : Type :=
  { pilot_by_id : Py.value -> Py.result (option Pilot) }.

Record PluginAPI : Type :=
  { util : Py.attr (Raw -> Py.result Py.value);
    db : Py.attr (option Database) }.

(** [bool(lap_data)] *)
Definition lap_truthy (lap_data : LapData) : bool :=
  match lap_data with
  | LapDict d lap_time =>
      Py.nonempty d || match lap_time with Some _ => true | None => false end
  | _ => true
  end.

(** [getattr(obj, name, default)] *)
Definition getattr_default {A} (a : Py.attr A) (dflt : A) : Py.result A :=
  match a with
  | Py.Absent => Py.Ok dflt
  | Py.Broken => Py.Raise
  | Py.Present v => Py.Ok v
  end.

(** [args.get(key, default)] for a key that may be missing *)
Definition arg_default {A} (a : option A) (dflt : A) : A :=
  match a with
  | Some v => v
  | None => dflt
  end.

(** [str(lap_time_raw)] *)
Definition raw_str (lap_time_raw : Raw) : string :=
  match lap_time_raw with
  | RawNone => "None"
  | RawInt z => Py.str_of_Z z
  | RawFloat x => Py.repr_float x
  | RawStr s => s
  end.

(** [lap_time_raw and isinstance(lap_time_raw, (int, float)) and
    lap_time_raw > 0] *)
Definition raw_positive (lap_time_raw : Raw) : bool :=
  match lap_time_raw with
  | RawInt z => negb (z =? 0)%Z && (0 <? z)%Z
  | RawFloat x => negb (Py.is_zero x) && SFltb (S754_zero false) x
  | RawNone | RawStr _ => false
  end.

(** The fallback formatting of lines 115-118, in float arithmetic; the
    conversion of an int that is too large and [int()] of a quotient that
    is not finite raise. *)
Definition fallback_lap_time (lap_time_raw : Raw) : Py.result string :=
  (raw <- match lap_time_raw with
          | RawInt z => Py.float_of_int z
          | RawFloat x => Py.Ok x
          | RawNone | RawStr _ => Py.Raise
          end ;;
   lap_time_sec <- Py.float_div raw (Py.float_of_Z 1000) ;;
   quotient <- Py.float_floordiv lap_time_sec (Py.float_of_Z 60) ;;
   minutes <- Py.int_of_float quotient ;;
   seconds <- Py.float_mod lap_time_sec (Py.float_of_Z 60) ;;
   Py.Ok (Py.str_of_Z minutes ++ ":" ++ Py.format_float_width 6 3 seconds))%py.

(** Lines 107-121: a raw lap time replaces a missing formatted one. *)
Definition format_raw_lap_time (api : PluginAPI) (lap_time : Py.value)
    (lap_time_raw : Raw) : Py.result Py.value :=
  if Py.value_eqb lap_time (Py.Str "N/A") && raw_positive lap_time_raw then
    Py.try_except
      (has <- Py.hasattr (util api) ;;
       if has then
         format_time_to_str <- Py.getattr (util api) ;;
         format_time_to_str lap_time_raw
       else
         text <- fallback_lap_time lap_time_raw ;;
         Py.Ok (Py.Str text))%py
      (Py.Ok (Py.Str (raw_str lap_time_raw ++ "ms")))
  else Py.Ok lap_time.

(** Lines 88-125: the lap number and the lap time to show. *)
Definition lap_fields (api : PluginAPI) (args : LapArgs)
  : Py.result (Py.value * Py.value) :=
  match arg_lap args with
  | Some lap_data =>
      if lap_truthy lap_data then
        match lap_data with
        | LapObject number formatted raw =>
            (has <- Py.hasattr number ;;
             if has then
               lap_number <- Py.getattr number ;;
               lap_time <- getattr_default formatted (Py.Str "N/A") ;;
               lap_time_raw <- getattr_default raw RawNone ;;
               lap_time <- format_raw_lap_time api lap_time lap_time_raw ;;
               Py.Ok (lap_number, lap_time)
             else Py.Ok (Py.Int 0, Py.Str "N/A"))%py
        | LapDict d raw =>
            (lap_time <-
               format_raw_lap_time api
                 (Py.get_default "lap_time_formatted" (Py.Str "N/A") d)
                 (arg_default raw RawNone) ;;
             Py.Ok (Py.get_default "lap_number" (Py.Int 0) d, lap_time))%py
        | LapOther => Py.Ok (Py.Int 0, Py.Str "N/A")
        end
      else
        Py.Ok (arg_default (arg_lap_number args) (Py.Int 0),
               arg_default (arg_lap_time_formatted args) (Py.Str "N/A"))
  | None =>
      Py.Ok (arg_default (arg_lap_number args) (Py.Int 0),
             arg_default (arg_lap_time_formatted args) (Py.Str "N/A"))
  end.

(** Lines 127-136: the pilot name to show. *)
Definition resolve_pilot_name (api : PluginAPI) (pilot_id : Py.value)
  : Py.result Py.value :=
  (has <- (if Py.truthy pilot_id then Py.hasattr (db api) else Py.Ok false) ;;
   database <- (if has then Py.getattr (db api) else Py.Ok None) ;;
   match database with
   | Some database =>
       Py.try_except
         (pilot <- pilot_by_id database pilot_id ;;
          match pilot with
          | Some pilot =>
              c <- Py.getattr (callsign pilot) ;;
              if Py.truthy c then Py.Ok c
              else
                n <- Py.getattr (name pilot) ;;
                if Py.truthy n then Py.Ok n
                else Py.Ok (Py.Str ("Pilot " ++ Py.str pilot_id))
          | None => Py.Ok (Py.Str "Unknown")
          end)
         (Py.Ok (Py.Str ("Pilot " ++ Py.str pilot_id)))
   | None => Py.Ok (Py.Str "Unknown")
   end)%py.

(** [lap_recorded_handler(args)]: [oled_display] is the module's global
    ([None] before [initialize]), [args = None] an empty or missing
    argument dict, [now] the [time.time()] of [show_lap_completion]. *)
Definition lap_recorded_handler (api : PluginAPI) (now : Q)
    (oled_display : option OLEDDisplay) (args : option LapArgs)
  : option OLEDDisplay :=
  match oled_display, args with
  | Some display_obj, Some args =>
      match
        (fields <- lap_fields api args ;;
         pilot_name <-
           resolve_pilot_name api (arg_default (arg_pilot_id args) Py.None_) ;;
         Py.Ok (show_lap_completion now pilot_name (fst fields) (snd fields) None
                  display_obj))%py
      with
      | Py.Ok shown => Some shown
      | Py.Raise => Some display_obj
      end
  | _, _ => oled_display
  end.

End Handler.

(** Sample inputs of the handler: a database that knows pilot 7 by its
    callsign, no [util]; a lap dict with a raw time only. *)
Definition sample_database : Handler.Database :=
  {| Handler.pilot_by_id := fun pilot_id =>
       if Py.eq_int pilot_id 7
       then Py.Ok (Some {| Handler.callsign := Py.Present (Py.Str "Red5");
                           Handler.name := Py.Present (Py.Str "Luke") |})
       else Py.Ok None |}.

Definition sample_api : Handler.PluginAPI :=
  {| Handler.util := Py.Absent; Handler.db := Py.Present (Some sample_database) |}.

Definition raw_lap_args : Handler.LapArgs :=
  {| Handler.arg_pilot_id := Some (Py.Int 7);
     Handler.arg_lap :=
       Some (Handler.LapDict [("lap_number", Py.Int 3)] (Some (Handler.RawInt 84531)));
     Handler.arg_lap_number := None;
     Handler.arg_lap_time_formatted := None |}.

Definition bare_args : Handler.LapArgs :=
  {| Handler.arg_pilot_id := None;
     Handler.arg_lap := None;
     Handler.arg_lap_number := None;
     Handler.arg_lap_time_formatted := None |}.

(** Reading the event raises: an attribute of the [lap] object or the
    [db] attribute of the provider raises something other than
    [AttributeError]. *)
Definition event_unreadable (api : Handler.PluginAPI) (args : Handler.LapArgs) : Prop :=
  (exists number formatted raw,
      Handler.arg_lap args = Some (Handler.LapObject number formatted raw) /\
      (number = Py.Broken \/
       (exists v, number = Py.Present v) /\
       (formatted = Py.Broken \/ raw = Py.Broken))) \/
  (Py.truthy (Handler.arg_default (Handler.arg_pilot_id args) Py.None_) = true /\
   Handler.db api = Py.Broken).

(** What the handler does to the display it is given. *)
Definition handler_effect (api : Handler.PluginAPI) (now : Q) (env : Env)
    (display_obj : OLEDDisplay) (args : Handler.LapArgs) : Prop :=
  (event_unreadable api args ->
   Handler.lap_recorded_handler api now (Some display_obj) (Some args)
   = Some display_obj) /\
  (~ event_unreadable api args ->
   exists pilot_name lap_number lap_time,
     Handler.lap_recorded_handler api now (Some display_obj) (Some args)
     = Some (show_lap_completion now pilot_name lap_number lap_time None display_obj) /\
     Py.truthy pilot_name = true /\
     (display_enabled display_obj = true -> panel_fails env = false ->
      display_race_info env
        (show_lap_completion now pilot_name lap_number lap_time None display_obj)
      = Flushed (lap_notice_frame pilot_name lap_number lap_time Py.None_))).

(** An event whose [lap] object raises when its formatted time is read. *)
Definition broken_lap_args : Handler.LapArgs :=
  {| Handler.arg_pilot_id := Some (Py.Int 7);
     Handler.arg_lap :=
       Some (Handler.LapObject (Py.Present (Py.Int 3)) Py.Broken Py.Absent);
     Handler.arg_lap_number := None;
     Handler.arg_lap_time_formatted := None |}.

(** An event with a [lap] dict. *)
Definition dict_args (pilot_id : option Py.value) (d : Py.dict Py.value)
    (lap_time : option Handler.Raw) : Handler.LapArgs :=
  {| Handler.arg_pilot_id := pilot_id;
     Handler.arg_lap := Some (Handler.LapDict d lap_time);
     Handler.arg_lap_number := None;
     Handler.arg_lap_time_formatted := None |}.

(** The text of a raw lap time when no [util] formats it: the fallback
    formatting, or ["<raw>ms"] when that raises. *)
Definition fallback_text (lap_time_raw : Handler.Raw) : string :=
  match Handler.fallback_lap_time lap_time_raw with
  | Py.Ok text => text
  | Py.Raise => Handler.raw_str lap_time_raw ++ "ms"
  end.

(** How the handler formats a positive raw lap time, an int or a float, of
    a [lap] dict without a formatted time. *)
Definition raw_time_rule (api : Handler.PluginAPI) (pilot_id : option Py.value)
    (d : Py.dict Py.value) (lap_time_raw : Handler.Raw) : Prop :=
  let shown := Handler.lap_fields api (dict_args pilot_id d (Some lap_time_raw)) in
  let lap_number := Py.get_default "lap_number" (Py.Int 0) d in
  (Handler.util api = Py.Absent ->
   shown = Py.Ok (lap_number, Py.Str (fallback_text lap_time_raw))) /\
  (forall f v, Handler.util api = Py.Present f -> f lap_time_raw = Py.Ok v ->
               shown = Py.Ok (lap_number, v)) /\
  (Handler.util api = Py.Broken \/
   (exists f, Handler.util api = Py.Present f /\ f lap_time_raw = Py.Raise) ->
   shown = Py.Ok (lap_number, Py.Str (Handler.raw_str lap_time_raw ++ "ms"))).

Definition broken_util_api : Handler.PluginAPI :=
  {| Handler.util := Py.Broken; Handler.db := Py.Absent |}.

Definition formatted_lap_dict : Py.dict Py.value :=
  [("lap_number", Py.Int 3); ("lap_time_formatted", Py.Str "0:24.531")].

Definition raw_lap_dict : Py.dict Py.value := [("lap_number", Py.Int 3)].

(** The float 59999.6, a raw lap time just below one minute. *)
Definition raw_59999_6 : Py.float :=
  SFdiv Py.prec Py.emax (Py.float_of_Z 599996) (Py.float_of_Z 10).

(** The first truthy value among callsign and name, else "Pilot <id>". *)
Definition preferred_name (c n pilot_id : Py.value) : Py.value :=
  if Py.truthy c then c
  else if Py.truthy n then n
  else Py.Str ("Pilot " ++ Py.str pilot_id).

(** A pilot whose callsign is empty. *)
Definition nameless_database : Handler.Database :=
  {| Handler.pilot_by_id := fun _ =>
       Py.Ok (Some {| Handler.callsign := Py.Present (Py.Str "");
                      Handler.name := Py.Present (Py.Str "Luke") |}) |}.

(** A lap event stored during a tick is lost: the tick leaves no notice
    behind, and none of the following ticks selects the lap notice. *)
Definition event_lost (event : OLEDDisplay -> OLEDDisplay) (env : Env)
    (self : OLEDDisplay) (envs : list Env) : Prop :=
  let after := fst (update_display_during event env self) in
  show_race_info after = false /\
  last_lap_info after = None /\
  forall out, In out (fst (run_ticks envs after)) ->
              selected_mode out <> Some LapNotice.

(** An idle tick that reads its clock at 200. *)
Definition idle_env_200 : Env := tick_env no_provider 200.

(** After two lap events only the second one is pending. *)
Definition second_notice_only (T2 : Q) (p2 l2 t2 : Py.value) (pos2 : option Py.value)
    (envs : list Env) (after_both : OLEDDisplay) : Prop :=
  forall i env out,
    nth_error envs i = Some env ->
    nth_error (fst (run_ticks envs after_both)) i = Some out ->
    panel_fails env = false ->
    ((t_check env < T2 + 5)%Q ->
     out = Selected LapNotice
             (Flushed (lap_notice_frame p2 l2 t2 (position_or_none pos2)))) /\
    ((T2 + 5 <= t_check env)%Q -> selected_mode out <> Some LapNotice).

(* ================================================================== *)
(** ** Facts about the Python layer                                    *)
(* ================================================================== *)

Lemma Qlt_bool_true (a b : Q) : Qlt_bool a b = true <-> (a < b)%Q.
Proof.
  unfold Qlt_bool. rewrite negb_true_iff. split.
  - intros H. apply Qnot_le_lt. intros Hle.
    apply Qle_bool_iff in Hle. congruence.
  - intros H. destruct (Qle_bool b a) eqn:E; [|reflexivity].
    apply Qle_bool_iff in E. exfalso. apply (Qlt_not_le _ _ H E).
Qed.

Lemma Qlt_bool_false (a b : Q) : Qlt_bool a b = false <-> (b <= a)%Q.
Proof.
  unfold Qlt_bool. rewrite negb_false_iff. apply Qle_bool_iff.
Qed.

(** A slice and the rest of the string give the string back. *)
Lemma slice_split_from (s : string) :
  forall pending n,
    Py.slice_to_from pending n s ++ Py.slice_from_from pending n s = s.
Proof.
  induction s as [|c t IH]; intros pending n; [reflexivity|].
  cbn [Py.slice_to_from Py.slice_from_from].
  destruct pending as [|pending']; destruct (Py.is_continuation c);
    try (destruct n as [|n']; [reflexivity|]);
    cbn [append]; now rewrite IH.
Qed.

Lemma slice_split (n : nat) (s : string) : Py.slice_to n s ++ Py.slice_from n s = s.
Proof. apply slice_split_from. Qed.

(** [len(s[:n]) = min(n, len(s))] *)
Lemma strlen_slice_to_from (s : string) :
  forall pending n,
    Py.strlen_from pending (Py.slice_to_from pending n s)
    = Nat.min n (Py.strlen_from pending s).
Proof.
  induction s as [|c t IH]; intros pending n.
  - cbn [Py.slice_to_from Py.strlen_from]. now rewrite Nat.min_0_r.
  - cbn [Py.slice_to_from Py.strlen_from].
    destruct pending as [|pending']; destruct (Py.is_continuation c) eqn:E;
      try (destruct n as [|n']; [reflexivity|]);
      cbn [Py.strlen_from]; rewrite ?E, IH; reflexivity.
Qed.

Lemma strlen_slice_to (n : nat) (s : string) :
  Py.strlen (Py.slice_to n s) = Nat.min n (Py.strlen s).
Proof. apply strlen_slice_to_from. Qed.

(** [("0:" + rest)[2:] = rest] *)
Lemma slice_from_minute (rest : string) : Py.slice_from 2 ("0:" ++ rest) = rest.
Proof. destruct rest; reflexivity. Qed.

Lemma get_set_same {V} (k : string) (v : V) (d : Py.dict V) :
  Py.get k (Py.set k v d) = Some v.
Proof.
  induction d as [|[k' v'] rest IH]; simpl.
  - now rewrite String.eqb_refl.
  - destruct (String.eqb k k') eqn:E; simpl; rewrite E; auto.
Qed.

Lemma get_set_other {V} (k k0 : string) (v : V) (d : Py.dict V) :
  k0 <> k -> Py.get k0 (Py.set k v d) = Py.get k0 d.
Proof.
  intros Hne. induction d as [|[k' v'] rest IH]; simpl.
  - destruct (String.eqb k0 k) eqn:E; [apply String.eqb_eq in E; contradiction | reflexivity].
  - destruct (String.eqb k k') eqn:E; simpl.
    + apply String.eqb_eq in E. subst k'.
      apply String.eqb_neq in Hne. now rewrite Hne.
    + destruct (String.eqb k0 k'); auto.
Qed.

Lemma get_in_keys {V} (k : string) (d : Py.dict V) :
  Py.get k d <> None <-> In k (Py.keys d).
Proof.
  induction d as [|[k' v'] rest IH]; simpl.
  - tauto.
  - destruct (String.eqb k k') eqn:E.
    + apply String.eqb_eq in E. subst. split; [auto | congruence].
    + apply String.eqb_neq in E. rewrite IH. split; [auto | intros [H|H]; congruence].
Qed.

Lemma mem_false_iff {V} (k : string) (d : Py.dict V) :
  Py.mem k d = false <-> ~ In k (Py.keys d).
Proof.
  unfold Py.mem. rewrite <- get_in_keys.
  destruct (Py.get k d); split; intros H; try congruence; try tauto.
  exfalso. apply H. congruence.
Qed.

Lemma any_voltage_key_iff (readings : Readings) :
  any_voltage_key readings = true <-> has_voltage_key readings.
Proof.
  unfold any_voltage_key, has_voltage_key. apply existsb_exists.
Qed.

Lemma get_some_nonempty {V} (k : string) (v : V) (d : Py.dict V) :
  Py.get k d = Some v -> Py.nonempty d = true.
Proof. destruct d; simpl; [discriminate | reflexivity]. Qed.

(* ================================================================== *)
(** ** Telemetry adapter: the queries never raise                      *)
(* ================================================================== *)

Lemma try_except_total {A} (body : Py.result A) (a : A) :
  exists v, Py.try_except body (Py.Ok a) = Py.Ok v.
Proof. destruct body; simpl; eauto. Qed.

Lemma get_voltage_data_total (rhapi : RHAPI) :
  exists v, get_voltage_data rhapi = Py.Ok v.
Proof. apply try_except_total. Qed.

Lemma get_race_status_total (rhapi : RHAPI) :
  exists v, get_race_status rhapi = Py.Ok v.
Proof. apply try_except_total. Qed.

Lemma is_race_active_total (rhapi : RHAPI) :
  exists b, is_race_active rhapi = Py.Ok b.
Proof. apply try_except_total. Qed.

(** A sensor that contributes no voltage reading adds nothing to the
    snapshot. *)
Lemma read_sensor_none (sensor_obj : Sensor) :
  ~ contributes_voltage sensor_obj ->
  Py.try_except (read_sensor sensor_obj) (Py.Ok None) = Py.Ok None.
Proof.
  intros Hno. unfold read_sensor, contributes_voltage in *.
  destruct (getReadings sensor_obj) as [| |[[r|]|]] eqn:E; simpl; try reflexivity.
  destruct (Py.nonempty r && any_voltage_key r) eqn:C; [|reflexivity].
  apply andb_true_iff in C. destruct C as [_ C].
  apply any_voltage_key_iff in C. exfalso. apply Hno. eauto.
Qed.

Lemma read_sensor_some (sensor_obj : Sensor) (readings : Readings) :
  getReadings sensor_obj = Py.Present (Py.Ok (Some readings)) ->
  has_voltage_key readings ->
  Py.try_except (read_sensor sensor_obj) (Py.Ok None) = Py.Ok (Some readings).
Proof.
  intros E H. unfold read_sensor. rewrite E. simpl.
  assert (Hany : any_voltage_key readings = true) by now apply any_voltage_key_iff.
  rewrite Hany.
  destruct readings as [|x rest]; [|reflexivity].
  destruct H as [key [[] _]].
Qed.

Lemma collect_voltage_none (items : Py.dict Sensor) (acc : VoltageData) :
  (forall name s, In (name, s) items -> ~ contributes_voltage s) ->
  collect_voltage items acc = acc.
Proof.
  revert acc. induction items as [|[name s] rest IH]; intros acc H; simpl.
  - reflexivity.
  - rewrite (read_sensor_none s) by (apply (H name); now left).
    apply IH. intros n s' Hin. apply (H n). now right.
Qed.

(** C6.  Whatever the state of the provider, [get_voltage_data] and
    [get_race_status] return a value and never propagate an exception;
    they return [None] when the provider is absent, is [None] or raises,
    and [get_voltage_data] returns [None] whenever no sensor contributes a
    voltage reading. *)
Theorem telemetry_queries_never_raise (rhapi : RHAPI) :
  (exists v, get_voltage_data rhapi = Py.Ok v) /\
  (exists v, get_race_status rhapi = Py.Ok v) /\
  (sensors_unavailable rhapi -> get_voltage_data rhapi = Py.Ok None) /\
  (race_unavailable rhapi -> get_race_status rhapi = Py.Ok None) /\
  ((forall si sd name s,
       sensors rhapi = Py.Present (Some si) ->
       sensors_dict si = Py.Present sd ->
       In (name, s) sd -> ~ contributes_voltage s) ->
   get_voltage_data rhapi = Py.Ok None).
Proof.
  split; [apply get_voltage_data_total|].
  split; [apply get_race_status_total|].
  split; [|split].
  - unfold sensors_unavailable, get_voltage_data.
    intros [H|[H|[H|[si [H [H'|H']]]]]]; rewrite H; simpl; try reflexivity;
      rewrite H'; reflexivity.
  - unfold race_unavailable, get_race_status.
    intros [H|[H|[H|[ri [H [H'|H']]]]]]; rewrite H; simpl; try reflexivity;
      rewrite H'; reflexivity.
  - intros Hno. unfold get_voltage_data.
    destruct (sensors rhapi) as [| |[si|]] eqn:Es; simpl; try reflexivity.
    destruct (sensors_dict si) as [| |sd] eqn:Ed; simpl; try reflexivity.
    destruct (Py.nonempty sd); simpl; [|reflexivity].
    rewrite collect_voltage_none; [reflexivity|].
    intros name s Hin. exact (Hno si sd name s eq_refl Ed Hin).
Qed.

(** Without a provider both queries return [None]. *)
Lemma telemetry_queries_never_raise_witness :
  sensors_unavailable no_provider /\
  race_unavailable no_provider /\
  get_voltage_data no_provider = Py.Ok None /\
  get_race_status no_provider = Py.Ok None.
Proof.
  assert (Hs : sensors_unavailable no_provider) by (left; reflexivity).
  assert (Hr : race_unavailable no_provider) by (left; reflexivity).
  destruct (telemetry_queries_never_raise no_provider) as (_ & _ & Hv & Hrace & _).
  exact (conj Hs (conj Hr (conj (Hv Hs) (Hrace Hr)))).
Defined.

(* ================================================================== *)
(** ** Mode selection                                                  *)
(* ================================================================== *)

Lemma eq_int_iff (v : Py.value) (k : Z) : Py.eq_int v k = true <-> v = Py.Int k.
Proof.
  destruct v; simpl; split; intros H; try discriminate.
  - apply Z.eqb_eq in H. now subst.
  - injection H as ->. apply Z.eqb_refl.
Qed.

Lemma is_race_active_true_iff (rhapi : RHAPI) :
  is_race_active rhapi = Py.Ok true <-> staging_or_racing rhapi.
Proof.
  unfold is_race_active, staging_or_racing. split.
  - destruct (race rhapi) as [| |[ri|]]; simpl; try discriminate.
    destruct (status ri) as [| |v] eqn:Es; simpl; try discriminate.
    intros H. injection H as H. apply orb_true_iff in H.
    exists ri, v. rewrite !eq_int_iff in H. auto.
  - intros (ri & v & Hr & Hs & Hv). rewrite Hr. simpl. rewrite Hs. simpl.
    destruct Hv as [-> | ->]; reflexivity.
Qed.

Lemma is_race_active_false (rhapi : RHAPI) :
  ~ staging_or_racing rhapi -> is_race_active rhapi = Py.Ok false.
Proof.
  intros H. destruct (is_race_active_total rhapi) as [[|] Hb]; [|exact Hb].
  apply is_race_active_true_iff in Hb. contradiction.
Qed.

Lemma lap_pending_iff (env : Env) (self : OLEDDisplay) :
  show_race_info self && Qlt_bool (t_check env) (race_info_timeout self) = true
  <-> lap_pending env self.
Proof.
  unfold lap_pending. rewrite andb_true_iff, Qlt_bool_true. tauto.
Qed.

Lemma lap_pending_false (env : Env) (self : OLEDDisplay) :
  ~ lap_pending env self ->
  show_race_info self && Qlt_bool (t_check env) (race_info_timeout self) = false.
Proof.
  intros H. apply not_true_is_false. now rewrite lap_pending_iff.
Qed.

(** Every method keeps [lap_info_inv]. *)
Lemma update_display_lap_info_inv (env : Env) (self : OLEDDisplay) :
  lap_info_inv self -> lap_info_inv (fst (update_display env self)).
Proof.
  unfold update_display, lap_info_inv. intros H.
  destruct (negb (display_enabled self)); [exact H|].
  destruct (show_race_info self && _); [exact H|].
  destruct (is_race_active (rhapi_active env)) as [[|]|]; simpl; try exact H.
  destruct (Qeq_bool _ _); simpl; discriminate.
Qed.

Lemma reachable_lap_info_inv (self : OLEDDisplay) :
  reachable self -> lap_info_inv self.
Proof.
  induction 1 as [now | hw s _ IH | alive s _ IH | env s _ IH
                 | now p l t pos s _ IH | e s _ IH].
  - discriminate.
  - destruct hw; exact IH.
  - unfold start_display_thread. destruct (display_thread s && alive); exact IH.
  - now apply update_display_lap_info_inv.
  - intros _. reflexivity.
  - unfold cleanup, stop_display_thread. simpl.
    destruct (display s); exact IH.
Qed.


Lemma plugin_reachable_reachable (self : OLEDDisplay) :
  plugin_reachable self -> reachable self.
Proof.
  induction 1 as [now hw | alive s _ IH | env s _ IH Hth
                 | now p l t s _ IH | e s _ IH].
  - unfold Plugin.initialize.
    pose proof (reach_initialize_display hw _ (reach_init now)) as Hinit.
    destruct (initialize_display hw (OLEDDisplay_init now)) as [s [|]]; simpl in *.
    + unfold Plugin.start_display_thread.
      destruct (display_enabled s); [|exact Hinit].
      now apply reach_start_display_thread.
    + exact Hinit.
  - unfold Plugin.start_display_thread.
    destruct (display_enabled s); [|exact IH].
    now apply reach_start_display_thread.
  - now apply reach_update_display.
  - now apply reach_show_lap_completion.
  - now apply reach_cleanup.
Qed.



(* ================================================================== *)
(** ** The lap notice and its time-to-live                             *)
(* ================================================================== *)

Lemma run_ticks_cons (env : Env) (rest : list Env) (self : OLEDDisplay) :
  run_ticks (env :: rest) self =
  (snd (update_display env self) :: fst (run_ticks rest (fst (update_display env self))),
   snd (run_ticks rest (fst (update_display env self)))).
Proof.
  simpl. destruct (update_display env self) as [s1 out]. simpl.
  destruct (run_ticks rest s1). reflexivity.
Qed.

Lemma run_ticks_length (envs : list Env) (self : OLEDDisplay) :
  List.length (fst (run_ticks envs self)) = List.length envs.
Proof.
  revert self. induction envs as [|env rest IH]; intros self.
  - reflexivity.
  - rewrite run_ticks_cons. simpl. now rewrite IH.
Qed.

(** What the canvas holds after the notice of a lap event was drawn. *)
Lemma lap_notice_body_frame (pilot_name lap_number lap_time position : Py.value) :
  with_canvas false
    (lap_notice_body [("pilot_name", pilot_name); ("lap_number", lap_number);
                      ("lap_time", lap_time); ("position", position)])
  = Py.Ok (lap_notice_frame pilot_name lap_number lap_time position).
Proof. reflexivity. Qed.

(** A pending notice is drawn and leaves [self] as it is. *)
Lemma update_display_lap_notice (env : Env) (self : OLEDDisplay)
    (info : Py.dict Py.value) :
  display_enabled self = true ->
  show_race_info self = true ->
  last_lap_info self = Some info ->
  Py.nonempty info = true ->
  (t_check env < race_info_timeout self)%Q ->
  update_display env self =
  (self, Selected LapNotice
           (view_result (with_canvas (panel_fails env) (lap_notice_body info)))).
Proof.
  intros Hen Hshow Hinfo Hne Hlt. unfold update_display.
  apply Qlt_bool_true in Hlt. rewrite Hen, Hshow, Hlt. simpl.
  unfold display_race_info. rewrite Hen, Hinfo. simpl. rewrite Hne. reflexivity.
Qed.

(** Once the clock reached the expiry the notice is not selected. *)
Lemma update_display_expired (env : Env) (self : OLEDDisplay) :
  (race_info_timeout self <= t_check env)%Q ->
  selected_mode (snd (update_display env self)) <> Some LapNotice.
Proof.
  intros Hle. apply Qlt_bool_false in Hle. unfold update_display.
  destruct (negb (display_enabled self)); [discriminate|].
  rewrite Hle, andb_false_r.
  destruct (is_race_active (rhapi_active env)) as [[|]|]; simpl; try discriminate.
  destruct (Qlt_bool 60 _); discriminate.
Qed.

(** A tick never moves the expiry. *)
Lemma update_display_timeout (env : Env) (self : OLEDDisplay) :
  race_info_timeout (fst (update_display env self)) = race_info_timeout self.
Proof.
  unfold update_display.
  destruct (negb (display_enabled self)); [reflexivity|].
  destruct (show_race_info self && _); [reflexivity|].
  destruct (is_race_active (rhapi_active env)) as [[|]|]; simpl; try reflexivity.
  destruct (Qeq_bool _ _); reflexivity.
Qed.

Lemma ticks_after_expiry (X : Q) (envs : list Env) :
  forall (self : OLEDDisplay) (i : nat) (env : Env) (out : TickOutcome),
    race_info_timeout self = X ->
    nth_error envs i = Some env ->
    nth_error (fst (run_ticks envs self)) i = Some out ->
    (X <= t_check env)%Q ->
    selected_mode out <> Some LapNotice.
Proof.
  induction envs as [|e rest IH]; intros self i env out HX Hi Ho Hle.
  - destruct i; discriminate.
  - rewrite run_ticks_cons in Ho. destruct i as [|i]; simpl in Hi, Ho.
    + injection Hi as ->. injection Ho as <-.
      apply update_display_expired. now rewrite HX.
    + apply (IH (fst (update_display e self)) i env out); auto.
      now rewrite update_display_timeout.
Qed.

Lemma ticks_in_window (X : Q) (info : Py.dict Py.value) (envs : list Env) :
  forall (self : OLEDDisplay) (i : nat) (env : Env) (out : TickOutcome),
    display_enabled self = true ->
    show_race_info self = true ->
    last_lap_info self = Some info ->
    Py.nonempty info = true ->
    race_info_timeout self = X ->
    StronglySorted Qle (map t_check envs) ->
    nth_error envs i = Some env ->
    nth_error (fst (run_ticks envs self)) i = Some out ->
    (t_check env < X)%Q ->
    out = Selected LapNotice
            (view_result (with_canvas (panel_fails env) (lap_notice_body info))).
Proof.
  induction envs as [|e rest IH];
    intros self i env out Hen Hshow Hinfo Hne HX Hsorted Hi Ho Hlt.
  - destruct i; discriminate.
  - rewrite run_ticks_cons in Ho. simpl in Hsorted.
    apply StronglySorted_inv in Hsorted. destruct Hsorted as [Hrest Hhead].
    assert (He : (t_check e < race_info_timeout self)%Q).
    { rewrite HX. destruct i as [|i]; simpl in Hi.
      - now injection Hi as ->.
      - apply nth_error_In in Hi.
        rewrite Forall_forall in Hhead.
        apply Qle_lt_trans with (t_check env); [|exact Hlt].
        apply Hhead. now apply in_map. }
    rewrite (update_display_lap_notice e self info Hen Hshow Hinfo Hne He) in Ho.
    destruct i as [|i]; simpl in Hi, Ho.
    + injection Hi as ->. now injection Ho as <-.
    + apply (IH self i env out); auto.
Qed.

(** C2, as stated, fails: [time.time()] is the wall clock and can be set
    back.  After a lap event at 200, a tick that reads 206 drops the event
    (lines 121-122), and the next tick, which reads 203 and so falls in
    [[200, 205)], shows the burn-in guard of a display idle since 100. *)
Lemma lap_window_clock_set_back :
  display_enabled ready_display = true /\
  nth_error
    (map selected_mode
       (fst (run_ticks clock_set_back
               (show_lap_completion 200 (Py.Str "Red5") (Py.Int 3)
                  (Py.Str "0:24.531") None ready_display)))) 1
  = Some (Some BurnInGuard) /\
  ~ lap_window 200 (Py.Str "Red5") (Py.Int 3) (Py.Str "0:24.531") None
      ready_display clock_set_back.
Proof.
  split; [reflexivity|]. split; [reflexivity|].
  intros [_ H].
  destruct (H 1%nat (tick_env no_provider 203) _ eq_refl eq_refl) as [Hin _].
  assert (H1 : (200 <= t_check (tick_env no_provider 203))%Q)
    by (unfold Qle; simpl; lia).
  assert (H2 : (t_check (tick_env no_provider 203) < 200 + 5)%Q)
    by (unfold Qlt; simpl; lia).
  destruct (Hin H1 H2) as [Hmode _]. discriminate Hmode.
Qed.

(** C2, amended.  On an enabled display whose ticks read a clock that never
    goes back, and with the event stored between two ticks: after
    [show_lap_completion] at time [T], every later tick that reads a clock
    in [[T, T+5)] selects the lap notice and, on a working panel, shows
    that lap's notice; no tick at or after [T+5] selects it, however the
    ticks fall in the window. *)
Theorem lap_notice_window (T : Q) (pilot_name lap_number lap_time : Py.value)
    (position : option Py.value) (self : OLEDDisplay) (envs : list Env) :
  display_enabled self = true ->
  StronglySorted Qle (map t_check envs) ->
  lap_window T pilot_name lap_number lap_time position self envs.
Proof.
  intros Hen Hsorted. unfold lap_window.
  split; [apply run_ticks_length|].
  intros i env out Hi Ho. split.
  - intros _ Hlt.
    pose proof (ticks_in_window (T + 5)%Q _ envs
                  (show_lap_completion T pilot_name lap_number lap_time position self)
                  i env out Hen eq_refl eq_refl eq_refl eq_refl Hsorted Hi Ho Hlt) as ->.
    split; [reflexivity|].
    intros Hpanel. rewrite Hpanel.
    destruct position; reflexivity.
  - intros Hle.
    apply (ticks_after_expiry (T + 5)%Q envs
             (show_lap_completion T pilot_name lap_number lap_time position self)
             i env out eq_refl Hi Ho Hle).
Qed.

Lemma three_ticks_sorted : StronglySorted Qle (map t_check three_ticks).
Proof.
  repeat constructor; unfold Qle; simpl; lia.
Qed.

(** A lap event at 200 and ticks at 201, 203 and 206. *)
Lemma lap_notice_window_witness :
  display_enabled ready_display = true /\
  StronglySorted Qle (map t_check three_ticks) /\
  lap_window 200 (Py.Str "Red5") (Py.Int 3) (Py.Str "0:24.531") None
    ready_display three_ticks.
Proof.
  split; [reflexivity|]. split; [exact three_ticks_sorted|].
  apply (lap_notice_window 200 (Py.Str "Red5") (Py.Int 3) (Py.Str "0:24.531") None
           ready_display three_ticks eq_refl three_ticks_sorted).
Defined.

(* ================================================================== *)
(** ** Burn-in evaluation and the idle timer                           *)
(* ================================================================== *)

Lemma update_display_idle (env : Env) (self : OLEDDisplay) :
  idle_tick env self ->
  update_display env self =
  (after_idle env self,
   Selected (if burn_in_protection_active (after_idle env self)
             then BurnInGuard else VoltageMonitor)
     (view_result (voltage_view env (after_idle env self)))).
Proof.
  intros (Hen & Hno & Hrace).
  apply lap_pending_false in Hno. apply is_race_active_false in Hrace.
  unfold update_display. rewrite Hen, Hno, Hrace. reflexivity.
Qed.

Lemma after_idle_burn_in (env : Env) (self : OLEDDisplay) :
  burn_in_protection_active (after_idle env self)
  = Qlt_bool 60 (t_idle env - voltage_monitor_start_time (after_idle env self)).
Proof. reflexivity. Qed.

(** Run the canvas operations of a view. *)
Ltac draw_steps :=
  cbv beta iota delta
    [dbind dret lift draw_try draw_text draw_text_y draw_line set_y add_y get_y
     Py.bind Py.hasattr Py.getattr];
  simpl.

(** Goals about the mode of a tick whose branch is known. *)
Ltac mode_cases :=
  simpl; repeat split; intros;
  repeat match goal with
         | H : _ \/ _ |- _ => destruct H
         end;
  try discriminate; try reflexivity; try congruence.

(** C3, as stated, fails: idle for exactly 60 seconds the tick still shows
    the voltage monitor. *)
Lemma burn_in_from_60_counterexample :
  idle_tick idle_env_160 ready_display /\
  ~ burn_in_from_60 idle_env_160 ready_display.
Proof.
  split.
  - split; [reflexivity|]. split.
    + intros [H _]. discriminate H.
    + intros (ri & v & H & _). discriminate H.
  - intros [[_ Hguard] _].
    assert (Hd : (60 <= idle_duration idle_env_160 ready_display)%Q)
      by (vm_compute; discriminate).
    specialize (Hguard Hd). vm_compute in Hguard. discriminate Hguard.
Qed.

(** C3, amended.  On an idle tick the controller selects the burn-in guard
    exactly when the idle duration, the clock minus the idle-start
    timestamp, is greater than 60 seconds, and the voltage monitor
    otherwise; the timestamp is the stored one unless that was 0. *)
Theorem burn_in_threshold (env : Env) (self : OLEDDisplay) :
  idle_tick env self -> burn_in_above_60 env self.
Proof.
  intros Hidle. unfold burn_in_above_60, idle_duration.
  rewrite (update_display_idle env self Hidle). cbn [fst snd selected_mode].
  rewrite after_idle_burn_in.
  set (d := (t_idle env - voltage_monitor_start_time (after_idle env self))%Q).
  split; [|split].
  - rewrite <- Qlt_bool_true. destruct (Qlt_bool 60 d); simpl; split; congruence.
  - rewrite <- Qlt_bool_false. destruct (Qlt_bool 60 d); simpl; split; congruence.
  - intros Hnz. unfold after_idle. simpl.
    destruct (Qeq_bool (voltage_monitor_start_time self) 0) eqn:E; [|reflexivity].
    apply Qeq_bool_iff in E. contradiction.
Qed.

(** Idle for 65 seconds: the burn-in guard. *)
Lemma burn_in_threshold_witness :
  idle_tick idle_env_165 ready_display /\
  burn_in_above_60 idle_env_165 ready_display /\
  selected_mode (snd (update_display idle_env_165 ready_display)) = Some BurnInGuard.
Proof.
  assert (Hidle : idle_tick idle_env_165 ready_display).
  { split; [reflexivity|]. split.
    - intros [H _]. discriminate H.
    - intros (ri & v & H & _). discriminate H. }
  split; [exact Hidle|]. split.
  - exact (burn_in_threshold idle_env_165 ready_display Hidle).
  - reflexivity.
Defined.

(** C4, as stated, fails: the tick that leaves the voltage monitor for the
    lap notice keeps the idle-start timestamp of time 100. *)
Lemma idle_timer_reset_counterexample :
  ~ idle_timer_reset_on_leaving
      (snd (update_display idle_env_110 ready_display)) lap_env_112 lap_after_idle.
Proof.
  unfold idle_timer_reset_on_leaving. intros H.
  destruct (H (or_introl eq_refl) (or_introl eq_refl)) as (now & Hin & Heq).
  vm_compute in Hin.
  destruct Hin as [<-|[<-|[<-|[<-|[]]]]]; vm_compute in Heq; discriminate Heq.
Qed.

(** C4, amended.  A tick that selects the race standings sets the
    idle-start timestamp to the current time; a tick that selects the lap
    notice leaves it as it was; on an idle tick the duration compared with
    the burn-in threshold is the clock minus that timestamp. *)
Theorem idle_timer_rules (env : Env) (self : OLEDDisplay) :
  idle_timer_tracking env self.
Proof.
  unfold idle_timer_tracking, update_display.
  destruct (negb (display_enabled self)); [mode_cases|].
  destruct (show_race_info self && _); [mode_cases|].
  destruct (is_race_active (rhapi_active env)) as [[|]|]; cbn [fst snd]; [mode_cases| |mode_cases].
  cbn [burn_in_protection_active set_burn_in_protection_active
       voltage_monitor_start_time].
  destruct (Qlt_bool 60 _); mode_cases.
Qed.

(** A tick during a race moves the idle-start timestamp to its clock read. *)
Lemma idle_timer_rules_witness :
  selected_mode (snd (update_display racing_env ready_display)) = Some RaceStanding /\
  voltage_monitor_start_time (fst (update_display racing_env ready_display)) = 202%Q.
Proof.
  split; [reflexivity|].
  exact (proj1 (idle_timer_rules racing_env ready_display) eq_refl).
Defined.

(* ================================================================== *)
(** ** The voltage monitor without sensors                             *)
(* ================================================================== *)

(** With no snapshot the body starts with the "No voltage sensors" line,
    whatever the provider does, and the view does not raise. *)
Lemma no_voltage_never_blank (env : Env) :
  exists f,
    with_canvas false (display_normal_voltage_monitor env None) = Py.Ok f /\
    In (Text 5 20 "No voltage sensors") f /\
    In (Text 5 (height - 12) (clock_hms env)) f.
Proof.
  unfold display_normal_voltage_monitor, with_canvas, draw_no_voltage.
  destruct (get_race_status_total (rhapi_status env)) as [st ->].
  destruct (sensors (rhapi_diag env)) as [| |[si|]]; draw_steps;
    try (eexists; split; [reflexivity | simpl; tauto]).
  destruct (sensors_dict si) as [| |[|[n1 s1] [|[n2 s2] rest]]]; draw_steps;
    eexists; (split; [reflexivity | simpl; tauto]).
Qed.

(** The "No sensors found" line cannot be reached: an empty [sensors_dict]
    is falsy and takes the "not available" branch. *)
Lemma draw_no_voltage_empty_is_absent (r : Py.attr (option RaceInterface)) (c : Canvas) :
  draw_no_voltage
    {| sensors := Py.Present (Some {| sensors_dict := Py.Present [] |}); race := r |} c
  = draw_no_voltage {| sensors := Py.Absent; race := r |} c.
Proof. reflexivity. Qed.

(** C5, at the failing input.  On a voltage-monitor tick without voltage
    sensors the frame is not blank and nothing is raised, but a sensor
    subsystem that is present with no sensors gets the very frame of an
    absent one: "Sensor system / not available". *)
Theorem empty_sensor_system_shown_as_absent :
  get_voltage_data empty_sensor_system = Py.Ok None /\
  get_voltage_data no_provider = Py.Ok None /\
  snd (update_display (tick_env empty_sensor_system 110) ready_display)
  = Selected VoltageMonitor (Flushed not_available_frame) /\
  snd (update_display (tick_env no_provider 110) ready_display)
  = Selected VoltageMonitor (Flushed not_available_frame).
Proof. repeat split. Qed.

(* ================================================================== *)
(** ** The lap notice view                                             *)
(* ================================================================== *)

(** The notice of every lap event has a position line: the key is always
    stored, with [None] when no position was given. *)
Lemma lap_notice_after_injection (env : Env) (now : Q)
    (pilot_name lap_number lap_time : Py.value) (position : option Py.value)
    (self : OLEDDisplay) :
  display_enabled self = true ->
  panel_fails env = false ->
  display_race_info env
    (show_lap_completion now pilot_name lap_number lap_time position self)
  = Flushed (lap_notice_frame pilot_name lap_number lap_time (position_or_none position)).
Proof.
  intros Hen Hpanel. unfold display_race_info. simpl. rewrite Hen, Hpanel.
  destruct position; reflexivity.
Qed.

(** C8, at the failing input.  The lap event as the plugin's handler
    reports it, without a position, is shown with header, pilot, lap and
    time, without a clock, and with the line "Position: None". *)
Theorem lap_notice_without_position :
  last_lap_info plugin_red5_notice
  = Some [("pilot_name", Py.Str "Red5"); ("lap_number", Py.Int 3);
          ("lap_time", Py.Str "0:24.531"); ("position", Py.None_)] /\
  snd (update_display idle_env_202 plugin_red5_notice)
  = Selected LapNotice
      (Flushed [ Text 5 0 "LAP COMPLETED";
                 Line 0 13 128 13;
                 Text 5 18 "Pilot: Red5";
                 Text 5 30 "Lap: 3";
                 Text 5 42 "Time: 0:24.531";
                 Text 5 54 "Position: None" ]).
Proof. split; reflexivity. Qed.

(* ================================================================== *)
(** ** Shutdown                                                        *)
(* ================================================================== *)

(** C9, as stated, fails: with a panel handle the second [cleanup] clears
    the panel once more. *)
Lemma second_cleanup_counterexample :
  ~ second_cleanup_is_noop first_shutdown second_shutdown running_display.
Proof.
  unfold second_cleanup_is_noop. simpl. intros [H _]. discriminate H.
Qed.

(** C9, amended.  A second [cleanup] right after the first leaves the
    controller state as it is and returns without an exception; it joins
    the thread again if that is still alive and clears the panel again if
    there is a panel handle. *)
Theorem second_cleanup_keeps_state (e1 e2 : ShutdownEnv) (self : OLEDDisplay) :
  second_cleanup_effect e1 e2 self.
Proof.
  destruct self as [d en sh info tmo start burn th run].
  unfold second_cleanup_effect, cleanup, stop_display_thread. simpl.
  destruct d; simpl.
  - split; [reflexivity|]. split; [destruct (clear_fails e2); reflexivity|].
    reflexivity.
  - split; [reflexivity|]. split; [reflexivity|].
    destruct (th && thread_is_alive e2); reflexivity.
Qed.

(* ================================================================== *)
(** ** The race standings view                                         *)
(* ================================================================== *)

Lemma display_name_get_default (p : PilotResult) :
  Py.get_default "callsign"
    (Py.get_default "name"
       (Py.Str ("Pilot " ++ Py.str (Py.get_default "pilot_id" (Py.Str "?") p))) p) p
  = display_name p.
Proof. reflexivity. Qed.

(** An empty lap time and "N/A" carry no "0:" prefix. *)
Lemma no_prefix_when_unset (lap : string) :
  negb (String.eqb lap "") && negb (String.eqb lap "N/A") = false ->
  String.prefix "0:" lap = false.
Proof.
  intros H. apply andb_false_iff in H.
  destruct H as [H|H]; apply negb_false_iff, String.eqb_eq in H; subst; reflexivity.
Qed.

(** The line the code prints for a pilot is the line of the specification. *)
Lemma pilot_line_printable (i : nat) (p : PilotResult) (name lap : string) :
  display_name p = Py.Str name ->
  best_lap p = Py.Str lap ->
  pilot_line i p = Py.Ok (standing_line (Z.of_nat i + 1) name lap).
Proof.
  intros Hn Hl. unfold pilot_line. rewrite display_name_get_default.
  fold (best_lap p). rewrite Hn, Hl.
  cbn [Py.len Py.bind Py.truthy Py.value_eqb Py.value_slice_to
       Py.value_startswith Py.value_slice_from].
  unfold standing_line, truncate_name, strip_minute, Py.startswith.
  destruct (negb (String.eqb lap "") && negb (String.eqb lap "N/A")) eqn:G.
  - destruct (6 <? Py.strlen name)%nat; cbn [Py.bind Py.str];
      destruct (String.prefix "0:" lap); reflexivity.
  - rewrite (no_prefix_when_unset lap G).
    destruct (6 <? Py.strlen name)%nat; reflexivity.
Qed.

Lemma standing_lines_length (l : list PilotResult) :
  forall rank y, List.length (standing_lines rank y l) = List.length l.
Proof.
  induction l as [|p rest IH]; intros rank y; simpl; [reflexivity|].
  now rewrite IH.
Qed.

Lemma draw_standings_printable (l : list PilotResult) :
  forall (i : nat) (c : Canvas),
    (i + List.length l <= 4)%nat ->
    Forall printable l ->
    draw_standings i l c =
    ({| drawn := (drawn c ++ standing_lines (Z.of_nat i + 1) (y_pos c) l)%list;
        y_pos := y_pos c + 10 * Z.of_nat (List.length l) |}, Py.Ok tt).
Proof.
  induction l as [|p rest IH]; intros i c Hlen Hall.
  - destruct c as [d y]. simpl. unfold dret.
    now rewrite app_nil_r, Z.add_0_r.
  - inversion Hall as [|p' rest' [[name Hn] [lap Hl]] Hrest]; subst.
    simpl in Hlen.
    assert (Hi : (4 <=? i)%nat = false) by (apply Nat.leb_gt; lia).
    cbn [draw_standings]. rewrite Hi.
    rewrite (pilot_line_printable i p name lap Hn Hl).
    cbv beta iota delta [dbind lift draw_text_y draw_text add_y].
    assert (Hlen' : (S i + List.length rest <= 4)%nat). { clear - Hlen. lia. }
    rewrite (IH (S i) _ Hlen' Hrest).
    cbn [drawn y_pos standing_lines value_string List.length].
    rewrite Hn, Hl. cbn [value_string].
    rewrite <- app_assoc. cbn [app].
    replace (y_pos c + 0) with (y_pos c) by lia.
    replace (Z.of_nat (S i) + 1) with (Z.of_nat i + 1 + 1) by lia.
    replace (y_pos c + 10 + 10 * Z.of_nat (List.length rest))
      with (y_pos c + 10 * Z.of_nat (S (List.length rest))) by lia.
    reflexivity.
Qed.

Lemma race_status_body_standings (env : Env) (ri : RaceInterface)
    (res : Results) (standings : list PilotResult) :
  race (rhapi_results env) = Py.Present (Some ri) ->
  results ri = Py.Present (Some res) ->
  Py.get "by_race_time" res = Some standings ->
  Forall printable (firstn 4 standings) ->
  with_canvas false (race_status_body env)
  = Py.Ok (race_header (rhapi_status env)
           ++ standing_lines 1 16 (firstn 4 standings))%list.
Proof.
  intros Hrace Hres Hget Hall.
  unfold with_canvas, race_status_body, race_header.
  destruct (get_race_status_total (rhapi_status env)) as [st ->].
  rewrite Hrace.
  cbv beta iota delta
    [dbind dret lift draw_try draw_text draw_line set_y Py.hasattr Py.getattr].
  rewrite Hres. cbv beta iota.
  rewrite (get_some_nonempty _ _ _ Hget).
  unfold Py.mem, getitem. rewrite Hget. cbv beta iota. cbn [andb].
  rewrite (draw_standings_printable (firstn 4 standings) 0 _
             (firstn_le_length 4 standings) Hall).
  reflexivity.
Qed.

Lemma race_status_body_waiting (env : Env) (ri : RaceInterface) :
  race (rhapi_results env) = Py.Present (Some ri) ->
  results ri = Py.Present None \/
  (exists res, results ri = Py.Present (Some res) /\ Py.get "by_race_time" res = None) ->
  with_canvas false (race_status_body env)
  = Py.Ok (race_header (rhapi_status env) ++ waiting_placeholder)%list.
Proof.
  intros Hrace Hres.
  unfold with_canvas, race_status_body, race_header.
  destruct (get_race_status_total (rhapi_status env)) as [st ->].
  rewrite Hrace.
  cbv beta iota delta
    [dbind dret lift draw_try draw_text draw_line set_y Py.hasattr Py.getattr].
  destruct Hres as [-> | (res & -> & Hget)]; cbv beta iota.
  - reflexivity.
  - unfold Py.mem. rewrite Hget. rewrite andb_false_r. reflexivity.
Qed.

(** C7, as stated, fails: with an empty standings list the view shows the
    header alone, not the waiting placeholder. *)
Lemma waiting_without_standings_counterexample :
  ~ waiting_without_standings empty_leaderboard_env ready_display.
Proof.
  intros H.
  destruct (H _ _ eq_refl eq_refl eq_refl) as (f & Hf & Hincl).
  vm_compute in Hf. injection Hf as <-.
  specialize (Hincl (Text 5 16 "Waiting for") (or_introl eq_refl)).
  simpl in Hincl. destruct Hincl as [Hc|[Hc|[]]]; discriminate Hc.
Qed.

(** C7, amended.  The standings view draws, under the status header, at
    most 4 lines [<rank>.<name> <best-lap>] for the first 4 standings, the
    name cut to its first 6 characters (code points, not bytes) and a
    leading "0:" removed from the lap; the lap notice prints the name in
    full.  The two-line waiting placeholder is drawn when the provider has
    no results or no [by_race_time] entry. *)
Theorem race_standing_view (env : Env) (self : OLEDDisplay) :
  display_enabled self = true ->
  panel_fails env = false ->
  standings_view env self /\
  lap_notice_name_in_full env self /\
  (forall name, name_cut_to_six name) /\
  (forall lap, minute_prefix_dropped lap).
Proof.
  intros Hen Hpanel. split; [|split; [|split]].
  4: { intros lap. unfold minute_prefix_dropped, strip_minute. split.
       - intros rest ->.
         assert (Hp : String.prefix "0:" ("0:" ++ rest) = true)
           by (destruct rest; reflexivity).
         rewrite Hp. apply slice_from_minute.
       - now intros ->. }
  3: { intros name. unfold name_cut_to_six, truncate_name. split.
       - intros Hle. apply Nat.leb_le in Hle.
         unfold Nat.ltb. simpl Nat.leb.
         destruct (Py.strlen name) as [|[|[|[|[|[|[|k]]]]]]] eqn:E;
           try reflexivity; discriminate Hle.
       - intros Hlt. pose proof Hlt as Hb. apply Nat.ltb_lt in Hb. rewrite Hb.
         split.
         + rewrite strlen_slice_to. apply Nat.min_l. lia.
         + exists (Py.slice_from 6 name). symmetry. apply slice_split. }
  - intros ri Hrace. unfold display_race_status. rewrite Hen, Hpanel. simpl negb.
    cbv iota. split.
    + intros res standings Hres Hget Hall.
      rewrite (race_status_body_standings _ ri res standings Hrace Hres Hget Hall).
      split; [reflexivity|].
      rewrite standing_lines_length. apply firstn_le_length.
    + intros Hres. now rewrite (race_status_body_waiting _ ri Hrace Hres).
  - intros now name lap_number lap_time position.
    unfold display_race_info. simpl. rewrite Hen, Hpanel. simpl.
    eexists. reflexivity.
Qed.

(** Five pilots on the leaderboard: four lines. *)
Lemma race_standing_view_witness :
  display_enabled ready_display = true /\
  panel_fails five_pilots_env = false /\
  display_race_status five_pilots_env ready_display
  = Flushed [ Text 5 0 "Race: Running"; Line 0 13 128 13;
              Text 5 16 "1.Müller 24.531";
              Text 5 26 "2.Bob 1:02.000";
              Text 5 36 "3.Pilot  N/A";
              Text 5 46 "4.Red5 31.100" ].
Proof.
  split; [reflexivity|]. split; [reflexivity|].
  destruct (race_standing_view five_pilots_env ready_display eq_refl eq_refl)
    as [Hview _].
  destruct (Hview _ eq_refl) as [Hstand _].
  refine (proj1 (Hstand _ five_pilots eq_refl eq_refl _)).
  repeat constructor; eexists; reflexivity.
Defined.

(* ================================================================== *)
(** ** Sensors that are collected but never drawn                      *)
(* ================================================================== *)

Lemma collect_voltage_other (name : string) (items : Py.dict Sensor) :
  forall acc : VoltageData,
    ~ In name (Py.keys items) ->
    Py.get name (collect_voltage items acc) = Py.get name acc.
Proof.
  induction items as [|[k s] rest IH]; intros acc Hnot; simpl.
  - reflexivity.
  - simpl in Hnot.
    assert (Hk : name <> k) by (intros ->; apply Hnot; now left).
    assert (Hrest : ~ In name (Py.keys rest)) by (intros H; apply Hnot; now right).
    destruct (Py.try_except (read_sensor s) (Py.Ok None)) as [[r|]|];
      rewrite (IH _ Hrest); [apply get_set_other; exact Hk | reflexivity | reflexivity].
Qed.

(** A contributing sensor under a unique name is in the snapshot with its
    readings. *)
Lemma collect_voltage_contains (name : string) (sensor : Sensor)
    (readings : Readings) (items : Py.dict Sensor) :
  forall acc : VoltageData,
    NoDup (Py.keys items) ->
    In (name, sensor) items ->
    getReadings sensor = Py.Present (Py.Ok (Some readings)) ->
    has_voltage_key readings ->
    Py.get name (collect_voltage items acc) = Some readings.
Proof.
  induction items as [|[k s] rest IH]; intros acc Hnodup Hin Hread Hkey.
  - destruct Hin.
  - simpl in Hnodup. apply NoDup_cons_iff in Hnodup. destruct Hnodup as [Hk Hnodup].
    destruct Hin as [Heq|Hin].
    + injection Heq as -> ->. simpl.
      rewrite (read_sensor_some sensor readings Hread Hkey).
      rewrite (collect_voltage_other name rest _ Hk).
      apply get_set_same.
    + simpl.
      destruct (Py.try_except (read_sensor s) (Py.Ok None)) as [[r|]|];
        now apply IH.
Qed.

(** Two canvas programs that differ in one step agree when that step does. *)
Lemma dbind_ext {A B} (m : Draw A) (k1 k2 : A -> Draw B) (c : Canvas) :
  (forall a c', k1 a c' = k2 a c') -> dbind m k1 c = dbind m k2 c.
Proof.
  intros H. unfold dbind. destruct (m c) as [c' [a|]]; [apply H | reflexivity].
Qed.

Lemma dbind_ext_l {A B} (m1 m2 : Draw A) (k : A -> Draw B) (c : Canvas) :
  (forall c', m1 c' = m2 c') -> dbind m1 k c = dbind m2 k c.
Proof. intros H. unfold dbind. now rewrite H. Qed.

(** The sensor loop skips a sensor without a ['voltage'] key. *)
Lemma draw_sensors_remove (name : string) (readings : Readings) (vd : VoltageData) :
  Py.get name vd = Some readings ->
  Py.mem "voltage" readings = false ->
  forall c, draw_sensors vd c = draw_sensors (Py.remove name vd) c.
Proof.
  intros Hget Hmem. induction vd as [|[k r] rest IH]; intros c.
  - reflexivity.
  - simpl in Hget. cbn [Py.remove].
    destruct (String.eqb name k) eqn:E.
    + injection Hget as ->. cbn [draw_sensors]. now rewrite Hmem.
    + specialize (IH Hget). cbn [draw_sensors].
      destruct (Py.mem "voltage" r); [|apply IH].
      cbv zeta. repeat (apply dbind_ext; intros).
      destruct (height - 20 <? _)%Z; [reflexivity | apply IH].
Qed.

Lemma primary_voltage_remove (name : string) (readings : Readings) (vd : VoltageData) :
  Py.get name vd = Some readings ->
  Py.mem "voltage" readings = false ->
  forall dflt, primary_voltage vd dflt = primary_voltage (Py.remove name vd) dflt.
Proof.
  intros Hget Hmem dflt. induction vd as [|[k r] rest IH].
  - reflexivity.
  - simpl in Hget. cbn [Py.remove].
    destruct (String.eqb name k) eqn:E.
    + injection Hget as ->. cbn [primary_voltage].
      unfold Py.mem in Hmem. destruct (Py.get "voltage" readings); [discriminate|].
      reflexivity.
    + cbn [primary_voltage]. destruct (Py.get "voltage" r); [reflexivity|].
      now apply IH.
Qed.

(** C10.  A sensor whose readings have a key that contains "voltage",
    whatever the case, and no key ['voltage'] is stored in the snapshot of
    [get_voltage_data] under its name, yet the voltage monitor draws no line
    for it and the burn-in guard does not take it as primary reading: both
    views draw what they draw for the snapshot without it. *)
Theorem substring_voltage_sensor_not_rendered (rhapi : RHAPI) (si : SensorInterface)
    (sd : Py.dict Sensor) (name : string) (sensor : Sensor) (readings : Readings) :
  sensors rhapi = Py.Present (Some si) ->
  sensors_dict si = Py.Present sd ->
  NoDup (Py.keys sd) ->
  In (name, sensor) sd ->
  getReadings sensor = Py.Present (Py.Ok (Some readings)) ->
  has_voltage_key readings ->
  ~ In "voltage" (Py.keys readings) ->
  in_snapshot_not_rendered rhapi name readings.
Proof.
  intros Hs Hsd Hnodup Hin Hread Hkey Hnokey.
  apply mem_false_iff in Hnokey.
  pose proof (collect_voltage_contains name sensor readings sd [] Hnodup Hin Hread Hkey)
    as Hget.
  exists (collect_voltage sd []).
  split; [|split; [exact Hget|split; [|split]]].
  - unfold get_voltage_data. rewrite Hs. simpl. rewrite Hsd. simpl.
    destruct sd as [|x rest]; [destruct Hin|]. cbn [Py.nonempty negb].
    now rewrite (get_some_nonempty _ _ _ Hget).
  - apply (draw_sensors_remove name readings _ Hget Hnokey).
  - intros env c Hne. unfold display_normal_voltage_monitor.
    rewrite Hne, (get_some_nonempty _ _ _ Hget).
    repeat (apply dbind_ext; intros).
    apply dbind_ext_l. apply (draw_sensors_remove name readings _ Hget Hnokey).
  - intros env c. unfold display_burn_in_protection, burn_in_voltage_text.
    now rewrite (primary_voltage_remove name readings _ Hget Hnokey).
Qed.

(** The "Bus Voltage" sensor next to a battery. *)
Lemma substring_voltage_sensor_not_rendered_witness :
  has_voltage_key bus_readings /\
  ~ In "voltage" (Py.keys bus_readings) /\
  in_snapshot_not_rendered (provider two_sensors 0 None) "Bus" bus_readings.
Proof.
  assert (Hkey : has_voltage_key bus_readings)
    by (exists "Bus Voltage"; split; [left; reflexivity | reflexivity]).
  assert (Hno : ~ In "voltage" (Py.keys bus_readings))
    by (simpl; intros [H|[]]; discriminate H).
  split; [exact Hkey|]. split; [exact Hno|].
  apply (substring_voltage_sensor_not_rendered
           (provider two_sensors 0 None)
           {| sensors_dict := Py.Present two_sensors |}
           two_sensors "Bus" bus_sensor bus_readings eq_refl eq_refl).
  - repeat constructor; simpl; intuition discriminate.
  - right. left. reflexivity.
  - reflexivity.
  - exact Hkey.
  - exact Hno.
Defined.

(* ================================================================== *)
(** ** The examples of the specification                               *)
(* ================================================================== *)

(** Idle for 10 seconds with a 7.4 V battery: the voltage monitor. *)
Example voltage_monitor_battery :
  snd (update_display (tick_env (provider two_sensors 0 None) 110) ready_display)
  = Selected VoltageMonitor
      (Flushed [ Text 5 0 "Voltage Monitor"; Line 0 15 128 15;
                 Text 5 20 "Battery: 7.40V"; Text 5 32 "  I: 1.2A";
                 Text 5 52 "12:00:00" ]).
Proof. reflexivity. Qed.

(** Idle for 65 seconds: the burn-in guard, two short strings. *)
Example burn_in_guard_battery :
  snd (update_display (tick_env (provider two_sensors 0 None) 165) ready_display)
  = Selected BurnInGuard (Flushed [Text 10 10 "7.4V"; Text 10 32 "12:00"]).
Proof. reflexivity. Qed.

(** Only the "Bus Voltage" sensor: it is in the snapshot, the monitor shows
    the header and the clock. *)
Example voltage_monitor_bus_only :
  get_voltage_data (provider [("Bus", bus_sensor)] 0 None)
  = Py.Ok (Some [("Bus", bus_readings)]) /\
  snd (update_display (tick_env (provider [("Bus", bus_sensor)] 0 None) 110)
         ready_display)
  = Selected VoltageMonitor
      (Flushed [Text 5 0 "Voltage Monitor"; Line 0 15 128 15; Text 5 52 "12:00:00"]).
Proof. split; reflexivity. Qed.

(** A pilot whose callsign is [None]: the standings loop stops with the
    fallback text, after the lines already drawn. *)
Example standings_with_unprintable_pilot :
  display_race_status
    (tick_env (provider [] 1
                 (Some [("by_race_time",
                         [ [("callsign", Py.Str "Maverick1")];
                           [("callsign", Py.None_)] ])])) 110)
    ready_display
  = Flushed [ Text 5 0 "Race: Staging"; Line 0 13 128 13;
              Text 5 16 "1.Maveri N/A";
              Text 5 26 "Race in progress"; Text 5 36 "Monitoring laps..." ].
Proof. reflexivity. Qed.

(** A panel that fails to take the frame: the error is caught. *)
Example panel_failure_is_caught :
  snd (update_display
         {| rhapi_active := no_provider;
            rhapi_status := no_provider;
            rhapi_results := no_provider;
            rhapi_sensors := no_provider;
            rhapi_diag := no_provider;
            t_check := 110; t_race := 110; t_reset := 110; t_idle := 110;
            clock_hms := "12:00:00"; clock_hm := "12:00";
            randint := fun _ a _ => a;
            panel_fails := true |}
         ready_display)
  = Selected VoltageMonitor Failed.
Proof. reflexivity. Qed.

(* ================================================================== *)
(** ** More on the telemetry adapter                                   *)
(* ================================================================== *)

Lemma get_set_inv {V} (k k0 : string) (v r : V) (d : Py.dict V) :
  Py.get k0 (Py.set k v d) = Some r ->
  (k0 = k /\ r = v) \/ Py.get k0 d = Some r.
Proof.
  destruct (String.eqb k0 k) eqn:E.
  - apply String.eqb_eq in E. subst k0. rewrite get_set_same.
    intros H. injection H as <-. now left.
  - apply String.eqb_neq in E. rewrite (get_set_other k k0 v d E). now right.
Qed.

Lemma read_sensor_inv (sensor_obj : Sensor) (readings : Readings) :
  Py.try_except (read_sensor sensor_obj) (Py.Ok None) = Py.Ok (Some readings) ->
  getReadings sensor_obj = Py.Present (Py.Ok (Some readings)) /\
  has_voltage_key readings.
Proof.
  unfold read_sensor.
  destruct (getReadings sensor_obj) as [| |[[r|]|]]; simpl; try discriminate.
  destruct (Py.nonempty r && any_voltage_key r) eqn:C; simpl; [|discriminate].
  intros H. injection H as <-.
  apply andb_true_iff in C. destruct C as [_ C].
  apply any_voltage_key_iff in C. auto.
Qed.

Lemma collect_voltage_sound (items : Py.dict Sensor) :
  forall (acc : VoltageData) (name : string) (readings : Readings),
    Py.get name (collect_voltage items acc) = Some readings ->
    Py.get name acc = Some readings \/
    exists s, In (name, s) items /\
              getReadings s = Py.Present (Py.Ok (Some readings)) /\
              has_voltage_key readings.
Proof.
  induction items as [|[k s] rest IH]; intros acc name readings H; simpl in H.
  - now left.
  - destruct (Py.try_except (read_sensor s) (Py.Ok None)) as [[r|]|] eqn:E.
    + destruct (IH _ _ _ H) as [Hacc | (s' & Hin & Hs')].
      * destruct (get_set_inv _ _ _ _ _ Hacc) as [[-> ->] | Hold]; [|now left].
        right. exists s. split; [now left|]. now apply read_sensor_inv.
      * right. exists s'. split; [now right | exact Hs'].
    + destruct (IH _ _ _ H) as [Hacc | (s' & Hin & Hs')]; [now left|].
      right. exists s'. split; [now right | exact Hs'].
    + destruct (IH _ _ _ H) as [Hacc | (s' & Hin & Hs')]; [now left|].
      right. exists s'. split; [now right | exact Hs'].
Qed.

(** X1.  A snapshot returned by [get_voltage_data] is never empty, and
    each of its entries is a sensor of the provider's [sensors_dict] whose
    [getReadings()] returned exactly those readings, with a key that
    contains "voltage". *)
Theorem snapshot_sound (rhapi : RHAPI) (vd : VoltageData) :
  get_voltage_data rhapi = Py.Ok (Some vd) ->
  vd <> [] /\
  exists si sd,
    sensors rhapi = Py.Present (Some si) /\
    sensors_dict si = Py.Present sd /\
    forall name readings,
      Py.get name vd = Some readings ->
      exists s, In (name, s) sd /\
                getReadings s = Py.Present (Py.Ok (Some readings)) /\
                has_voltage_key readings.
Proof.
  unfold get_voltage_data.
  destruct (sensors rhapi) as [| |[si|]] eqn:Es; simpl; try discriminate.
  destruct (sensors_dict si) as [| |sd] eqn:Ed; simpl; try discriminate.
  destruct (Py.nonempty sd); simpl; [|discriminate].
  destruct (collect_voltage sd []) as [|x rest] eqn:E; simpl; [discriminate|].
  intros H. injection H as <-. split; [discriminate|].
  exists si, sd. split; [reflexivity|]. split; [exact Ed|].
  intros name readings Hget. rewrite <- E in Hget.
  destruct (collect_voltage_sound sd [] name readings Hget) as [Hacc|Hs];
    [discriminate Hacc | exact Hs].
Qed.

(** The snapshot of a provider with a battery and a bus sensor. *)
Lemma snapshot_sound_witness :
  get_voltage_data (provider two_sensors 0 None)
  = Py.Ok (Some [("Battery", battery_readings); ("Bus", bus_readings)]) /\
  [("Battery", battery_readings); ("Bus", bus_readings)] <> [].
Proof.
  split; [reflexivity|].
  exact (proj1 (snapshot_sound (provider two_sensors 0 None) _ eq_refl)).
Defined.

Lemma set_fresh {V} (k : string) (v : V) (d : Py.dict V) :
  ~ In k (Py.keys d) -> Py.set k v d = (d ++ [(k, v)])%list.
Proof.
  induction d as [|[k' v'] rest IH]; intros Hnot; simpl.
  - reflexivity.
  - simpl in Hnot.
    destruct (String.eqb k k') eqn:E.
    + apply String.eqb_eq in E. subst. exfalso. apply Hnot. now left.
    + rewrite IH; [reflexivity|]. intros H. apply Hnot. now right.
Qed.

Lemma collect_voltage_snapshot (items : Py.dict Sensor) :
  forall acc : VoltageData,
    NoDup (Py.keys items) ->
    (forall k, In k (Py.keys items) -> ~ In k (Py.keys acc)) ->
    collect_voltage items acc = (acc ++ snapshot_of items)%list.
Proof.
  induction items as [|[k s] rest IH]; intros acc Hnodup Hfresh; simpl.
  - now rewrite app_nil_r.
  - simpl in Hnodup. apply NoDup_cons_iff in Hnodup. destruct Hnodup as [Hk Hnodup].
    unfold snapshot_entry. simpl.
    destruct (Py.try_except (read_sensor s) (Py.Ok None)) as [[r|]|] eqn:E.
    + rewrite IH; auto.
      * rewrite set_fresh by (apply Hfresh; now left).
        now rewrite <- app_assoc.
      * intros k' Hin.
        rewrite set_fresh by (apply Hfresh; now left).
        unfold Py.keys. rewrite map_app, in_app_iff. simpl.
        intros [H|[H|[]]].
        -- apply (Hfresh k'); [now right | exact H].
        -- subst k'. contradiction.
    + apply IH; auto. intros k' Hin. apply Hfresh. now right.
    + apply IH; auto. intros k' Hin. apply Hfresh. now right.
Qed.

(** X2.  When the sensor names are distinct, the snapshot lists the
    contributing sensors in the order of [sensors_dict], each once;
    [get_voltage_data] returns it, or [None] when it is empty. *)
Theorem snapshot_in_provider_order (rhapi : RHAPI) (si : SensorInterface)
    (sd : Py.dict Sensor) :
  sensors rhapi = Py.Present (Some si) ->
  sensors_dict si = Py.Present sd ->
  NoDup (Py.keys sd) ->
  get_voltage_data rhapi
  = Py.Ok (if Py.nonempty (snapshot_of sd) then Some (snapshot_of sd) else None).
Proof.
  intros Hs Hsd Hnodup. unfold get_voltage_data. rewrite Hs. simpl. rewrite Hsd. simpl.
  rewrite (collect_voltage_snapshot sd [] Hnodup) by (intros k _ []).
  simpl. destruct sd as [|x rest]; reflexivity.
Qed.

(** A sensor without [getReadings] between two that contribute. *)
Lemma snapshot_in_provider_order_witness :
  NoDup (Py.keys three_sensors) /\
  get_voltage_data (provider three_sensors 0 None)
  = Py.Ok (Some [("Bus", bus_readings); ("Battery", battery_readings)]).
Proof.
  assert (Hnd : NoDup (Py.keys three_sensors))
    by (repeat constructor; simpl; intuition discriminate).
  split; [exact Hnd|].
  exact (snapshot_in_provider_order (provider three_sensors 0 None)
           {| sensors_dict := Py.Present three_sensors |} three_sensors
           eq_refl eq_refl Hnd).
Defined.

(* ================================================================== *)
(** ** The sensor loop of the voltage monitor                          *)
(* ================================================================== *)

(** A reading is formatted exactly when it is well formed. *)
Lemma format_reading_well_formed (digits : nat) (reading : Reading) :
  well_formed reading -> exists text, format_reading digits reading = Py.Ok text.
Proof.
  intros (value & units & -> & Hnum). unfold format_reading. simpl.
  destruct value as [|z|x|s]; simpl in *; try contradiction.
  - destruct Hnum as [x ->]. simpl. eauto.
  - eauto.
Qed.

Lemma format_reading_ill_formed (digits : nat) (reading : Reading) :
  ~ well_formed reading -> format_reading digits reading = Py.Raise.
Proof.
  intros Hill. unfold format_reading.
  destruct reading as [[value|] [units|]|]; simpl; try reflexivity.
  destruct value as [|z|x|s]; simpl; try reflexivity.
  - destruct (Py.float_of_int z) as [x|] eqn:E; [|reflexivity].
    exfalso. apply Hill. exists (MInt z), units. split; [reflexivity|].
    simpl. eauto.
  - exfalso. apply Hill. exists (MFloat x), units. split; [reflexivity | exact I].
Qed.

Lemma draw_sensors_skip (sensor_name : string) (readings : Readings)
    (rest : VoltageData) (c : Canvas) :
  Py.get "voltage" readings = None ->
  draw_sensors ((sensor_name, readings) :: rest) c = draw_sensors rest c.
Proof.
  intros H. cbn [draw_sensors]. unfold Py.mem. now rewrite H.
Qed.

Lemma draw_sensors_step (sensor_name : string) (readings : Readings)
    (voltage : Reading) (rest : VoltageData) (c : Canvas) :
  Py.get "voltage" readings = Some voltage ->
  draw_sensors ((sensor_name, readings) :: rest) c =
  match after_sensor sensor_name readings voltage c with
  | (c', Py.Ok _) => if (44 <? y_pos c')%Z then (c', Py.Ok tt) else draw_sensors rest c'
  | (c', Py.Raise) => (c', Py.Raise)
  end.
Proof.
  intros H. cbn [draw_sensors]. unfold Py.mem, getitem, after_sensor. rewrite H.
  destruct c as [d y].
  cbv beta iota zeta delta [dbind lift].
  destruct (format_reading 2 voltage) as [text|]; [|reflexivity].
  destruct (Py.get "current" readings) as [current|].
  - cbv beta iota zeta delta [dbind lift draw_text draw_text_y add_y drawn y_pos].
    destruct (format_reading 1 current) as [text'|].
    + cbv beta iota zeta delta [dbind dret draw_text draw_text_y add_y get_y drawn y_pos height].
      rewrite <- app_assoc. cbn [app].
      replace (y + 0) with y by lia.
      replace (y + 12 + 0) with (y + 12) by lia.
      replace (y + 12 + 12 + 2) with (y + 26) by lia.
      change (64 - 20) with 44.
      destruct (44 <? y + 26)%Z; reflexivity.
    + replace (y + 0) with y by lia. reflexivity.
  - cbv beta iota zeta delta [dbind dret draw_text draw_text_y add_y get_y drawn y_pos height].
    replace (y + 0) with y by lia.
    replace (y + 12 + 2) with (y + 14) by lia.
    change (64 - 20) with 44.
    destruct (44 <? y + 14)%Z; reflexivity.
Qed.

Lemma text_between_weaken (lo hi lo' hi' : Z) (lines : Frame) :
  lo' <= lo -> hi <= hi' ->
  Forall (text_between lo hi) lines -> Forall (text_between lo' hi') lines.
Proof.
  intros Hlo Hhi H. eapply Forall_impl; [|exact H].
  intros cmd (y & s & -> & Hy). exists y, s. split; [reflexivity | lia].
Qed.

(** The loop body draws one or two lines and moves the cursor by 14 or 26
    rows, unless a reading that is not well formed stops it. *)
Lemma after_sensor_lines (sensor_name : string) (readings : Readings)
    (voltage : Reading) (c : Canvas) :
  exists lines,
    drawn (fst (after_sensor sensor_name readings voltage c)) = (drawn c ++ lines)%list /\
    (List.length lines <= 2)%nat /\
    Forall (text_between (y_pos c) (y_pos c + 12)) lines /\
    (snd (after_sensor sensor_name readings voltage c) = Py.Ok tt ->
     (List.length lines = 1%nat /\
      y_pos (fst (after_sensor sensor_name readings voltage c)) = y_pos c + 14) \/
     (List.length lines = 2%nat /\
      y_pos (fst (after_sensor sensor_name readings voltage c)) = y_pos c + 26)) /\
    (well_formed voltage ->
     (forall current, Py.get "current" readings = Some current -> well_formed current) ->
     snd (after_sensor sensor_name readings voltage c) = Py.Ok tt).
Proof.
  unfold after_sensor.
  destruct (format_reading 2 voltage) as [text|] eqn:Ev.
  - destruct (Py.get "current" readings) as [current|].
    + destruct (format_reading 1 current) as [text'|] eqn:Ec; cbn [fst snd drawn y_pos].
      * eexists. split; [reflexivity|]. split; [simpl; lia|].
        split; [repeat constructor; eexists; eexists; (split; [reflexivity | lia])|].
        split; [intros _; right; split; reflexivity | reflexivity].
      * eexists. split; [reflexivity|]. split; [simpl; lia|].
        split; [repeat constructor; eexists; eexists; (split; [reflexivity | lia])|].
        split; [discriminate|].
        intros _ Hcur.
        destruct (format_reading_well_formed 1 current (Hcur _ eq_refl)) as [t Ht].
        congruence.
    + cbn [fst snd drawn y_pos].
      eexists. split; [reflexivity|]. split; [simpl; lia|].
      split; [repeat constructor; eexists; eexists; (split; [reflexivity | lia])|].
      split; [intros _; left; split; reflexivity | reflexivity].
  - cbn [fst snd]. exists []. rewrite app_nil_r. split; [reflexivity|].
    split; [simpl; lia|]. split; [constructor|]. split; [discriminate|].
    intros Hv _. destruct (format_reading_well_formed 2 voltage Hv) as [t Ht].
    congruence.
Qed.

Lemma snapshot_renderable_tail (name : string) (readings : Readings)
    (rest : VoltageData) :
  snapshot_renderable ((name, readings) :: rest) ->
  renderable readings /\ snapshot_renderable rest.
Proof.
  intros H. split.
  - apply (H name). now left.
  - intros n r Hin. apply (H n). now right.
Qed.

(** Started at row 31 or below, the loop draws one sensor and stops. *)
Lemma draw_sensors_last (vd : VoltageData) :
  forall c : Canvas,
    31 <= y_pos c ->
    exists lines y' r,
      draw_sensors vd c = ({| drawn := (drawn c ++ lines)%list; y_pos := y' |}, r) /\
      (List.length lines <= 2)%nat /\
      Forall (text_between (y_pos c) (y_pos c + 12)) lines /\
      (snapshot_renderable vd -> r = Py.Ok tt).
Proof.
  induction vd as [|[name r] rest IH]; intros c Hy.
  - exists [], (y_pos c), (Py.Ok tt). destruct c as [d y]. simpl. unfold dret.
    rewrite app_nil_r. split; [reflexivity|]. split; [lia|]. split; [constructor | auto].
  - destruct (Py.get "voltage" r) as [v|] eqn:Hv.
    + rewrite (draw_sensors_step name r v rest c Hv).
      destruct (after_sensor_lines name r v c) as (lines & Hd & Hlen & Hall & Hok & Hwf).
      destruct (after_sensor name r v c) as [c' [u|]] eqn:Ea; cbn [fst snd] in *.
      * assert (Hbreak : (44 <? y_pos c')%Z = true).
        { apply Z.ltb_lt. destruct u. destruct (Hok eq_refl) as [[_ E]|[_ E]]; lia. }
        rewrite Hbreak. exists lines, (y_pos c'), (Py.Ok tt).
        split; [rewrite <- Hd; now destruct c'|]. split; [exact Hlen|].
        split; [exact Hall | auto].
      * exists lines, (y_pos c'), Py.Raise.
        split; [rewrite <- Hd; now destruct c'|]. split; [exact Hlen|].
        split; [exact Hall|].
        intros Hr. apply snapshot_renderable_tail in Hr. destruct Hr as [Hr _].
        destruct (Hr v Hv) as [Hwv Hwc]. exact (Hwf Hwv Hwc).
    + rewrite (draw_sensors_skip name r rest c Hv).
      destruct (IH c Hy) as (lines & y' & res & Hrun & Hlen & Hall & Hok).
      exists lines, y', res. repeat split; auto.
      intros Hr. apply Hok. now apply snapshot_renderable_tail in Hr.
Qed.

(** The loop entered with the cursor at row 20, on any canvas. *)
Lemma draw_sensors_top (vd : VoltageData) (c : Canvas) :
  y_pos c = 20 ->
  exists lines y' r,
    draw_sensors vd c
    = ({| drawn := (drawn c ++ lines)%list; y_pos := y' |}, r) /\
    (List.length lines <= 3)%nat /\
    Forall (text_between 20 46) lines /\
    (snapshot_renderable vd -> r = Py.Ok tt).
Proof.
  intros Hy.
  induction vd as [|[name r] rest IH].
  - exists [], 20, (Py.Ok tt). destruct c as [d y]. cbn [y_pos] in Hy. subst y.
    simpl. unfold dret. rewrite app_nil_r.
    split; [reflexivity|]. split; [lia|]. split; [constructor | auto].
  - destruct (Py.get "voltage" r) as [v|] eqn:Hv.
    + rewrite (draw_sensors_step name r v rest c Hv).
      destruct (after_sensor_lines name r v c) as (lines & Hd & Hlen & Hall & Hok & Hwf).
      rewrite Hy in Hall, Hok.
      assert (Hall' : Forall (text_between 20 46) lines)
        by (apply (text_between_weaken 20 (20 + 12)); [lia | lia | exact Hall]).
      destruct (after_sensor name r v c) as [c' [u|]] eqn:Ea; cbn [fst snd] in *.
      * destruct u. destruct (Hok eq_refl) as [[Hone Hy']|[Htwo Hy']].
        -- assert (Hcont : (44 <? y_pos c')%Z = false) by (apply Z.ltb_ge; lia).
           rewrite Hcont.
           destruct (draw_sensors_last rest c' ltac:(lia))
             as (more & y' & res & Hrun & Hlen' & Hmore & Hres).
           exists (lines ++ more)%list, y', res.
           rewrite Hrun, Hd, app_assoc. split; [reflexivity|].
           split; [rewrite length_app; lia|]. split.
           ++ apply Forall_app. split; [exact Hall'|].
              apply (text_between_weaken (y_pos c') (y_pos c' + 12)); [lia | lia | exact Hmore].
           ++ intros Hr. apply Hres. now apply snapshot_renderable_tail in Hr.
        -- assert (Hbreak : (44 <? y_pos c')%Z = true) by (apply Z.ltb_lt; lia).
           rewrite Hbreak. exists lines, (y_pos c'), (Py.Ok tt).
           split; [rewrite <- Hd; now destruct c'|]. split; [lia|].
           split; [exact Hall' | auto].
      * exists lines, (y_pos c'), Py.Raise.
        split; [rewrite <- Hd; now destruct c'|]. split; [lia|].
        split; [exact Hall'|].
        intros Hr. apply snapshot_renderable_tail in Hr. destruct Hr as [Hr _].
        destruct (Hr v Hv) as [Hwv Hwc]. exact (Hwf Hwv Hwc).
    + rewrite (draw_sensors_skip name r rest c Hv).
      destruct IH as (lines & y' & res & Hrun & Hlen & Hall & Hok).
      exists lines, y', res. repeat split; auto.
      intros Hr. apply Hok. now apply snapshot_renderable_tail in Hr.
Qed.

(** X3.  Whatever the snapshot holds, the sensor loop of the voltage
    monitor, started at row 20, draws at most three text lines, all at
    column 5 and at rows 20 to 46, and stops: at the overflow test, at the
    end of the snapshot, or with an exception at a reading that is not
    well formed.  On a snapshot whose readings are well formed it ends
    without an exception. *)
Theorem sensor_loop_bound (vd : VoltageData) (pre : Frame) :
  exists lines y' r,
    draw_sensors vd {| drawn := pre; y_pos := 20 |}
    = ({| drawn := (pre ++ lines)%list; y_pos := y' |}, r) /\
    (List.length lines <= 3)%nat /\
    Forall (text_between 20 46) lines /\
    (snapshot_renderable vd -> r = Py.Ok tt) /\
    (r = Py.Raise -> ~ snapshot_renderable vd).
Proof.
  destruct (draw_sensors_top vd {| drawn := pre; y_pos := 20 |} eq_refl)
    as (lines & y' & r & Hrun & Hlen & Hall & Hok).
  exists lines, y', r. cbn [drawn] in Hrun.
  repeat split; auto.
  intros -> Hr. specialize (Hok Hr). discriminate Hok.
Qed.

(** A battery, then a sensor whose voltage is [None]: one line, then the
    exception. *)
Lemma sensor_loop_bound_witness :
  ~ snapshot_renderable mute_snapshot /\
  draw_sensors mute_snapshot {| drawn := []; y_pos := 20 |}
  = ({| drawn := [Text 5 20 "Battery: 7.40V"]; y_pos := 34 |}, Py.Raise).
Proof.
  assert (Hrun : draw_sensors mute_snapshot {| drawn := []; y_pos := 20 |}
                 = ({| drawn := [Text 5 20 "Battery: 7.40V"]; y_pos := 34 |}, Py.Raise))
    by reflexivity.
  split; [|exact Hrun].
  destruct (sensor_loop_bound mute_snapshot []) as (lines & y' & r & Hr & _ & _ & _ & Hno).
  apply Hno. rewrite Hrun in Hr. now injection Hr.
Defined.

(* ================================================================== *)
(** ** The frame of the voltage monitor                                *)
(* ================================================================== *)

Ltac text_rows :=
  repeat constructor;
  try (eexists; eexists; (split; [reflexivity | cbn [y_pos]; lia])).

Ltac no_such_text :=
  intros x y Hin; simpl in Hin;
  repeat match goal with
         | H : _ \/ _ |- _ => destruct H as [H|H]
         end;
  try contradiction; discriminate.

(** What the diagnostic branch draws, for every provider. *)
Lemma draw_no_voltage_lines (rhapi : RHAPI) (c : Canvas) :
  exists lines y',
    draw_no_voltage rhapi c
    = ({| drawn := (drawn c ++ Text 5 (y_pos c) "No voltage sensors" :: lines)%list;
          y_pos := y' |}, Py.Ok tt) /\
    (1 <= List.length lines <= 3)%nat /\
    Forall (text_between (y_pos c + 14) (y_pos c + 38)) lines /\
    never_prints "No sensors found" lines.
Proof.
  unfold draw_no_voltage. destruct c as [pre y0].
  destruct (sensors rhapi) as [| |[si|]]; draw_steps;
    rewrite <- ?app_assoc, ?Z.add_0_r; cbn [app];
    try (eexists; eexists; split; [reflexivity|];
         split; [simpl; lia|]; split; [text_rows | no_such_text]).
  destruct (sensors_dict si) as [| |[|[n1 s1] [|[n2 s2] rest]]]; draw_steps;
    rewrite <- ?app_assoc, ?Z.add_0_r; cbn [app];
    eexists; eexists; (split; [reflexivity|]);
    (split; [simpl; lia|]); (split; [text_rows | no_such_text]).
Qed.

(** X4.  The diagnostic of the voltage monitor, for every provider: after
    "No voltage sensors" it prints "Sensor system / not available" when the
    [sensors] attribute is missing or [sensors_dict] is empty, "Sensor
    error" when reading the subsystem raises, and otherwise the number of
    sensors with the first two names.  It never prints "No sensors
    found". *)
Theorem diagnostic_cases (rhapi : RHAPI) (pre : Frame) :
  exists lines y',
    draw_no_voltage rhapi {| drawn := pre; y_pos := 20 |}
    = ({| drawn := (pre ++ Text 5 20 "No voltage sensors" :: lines)%list;
          y_pos := y' |}, Py.Ok tt) /\
    never_prints "No sensors found" lines /\
    ((sensors rhapi = Py.Absent \/
      exists si, sensors rhapi = Py.Present (Some si) /\
                 sensors_dict si = Py.Present []) ->
     lines = [Text 5 34 "Sensor system"; Text 5 46 "not available"]) /\
    ((sensors rhapi = Py.Broken \/ sensors rhapi = Py.Present None \/
      exists si, sensors rhapi = Py.Present (Some si) /\
                 (sensors_dict si = Py.Absent \/ sensors_dict si = Py.Broken)) ->
     lines = [Text 5 34 "Sensor error"]) /\
    (forall si name s rest,
        sensors rhapi = Py.Present (Some si) ->
        sensors_dict si = Py.Present ((name, s) :: rest) ->
        lines = (Text 5 34 ("Sensors: " ++ Py.str_of_Z (Z.of_nat (S (List.length rest))))
                 :: Text 5 46 ("  " ++ name)
                 :: match rest with
                    | [] => []
                    | (name2, _) :: _ => [Text 5 58 ("  " ++ name2)]
                    end)).
Proof.
  unfold draw_no_voltage.
  destruct (sensors rhapi) as [| |[si|]] eqn:Es; draw_steps;
    rewrite <- ?app_assoc; cbn [app];
    try (eexists; eexists; split; [reflexivity|];
         split; [no_such_text|];
         repeat split; intros; try reflexivity;
         repeat match goal with
                | H : _ \/ _ |- _ => destruct H
                | H : exists _, _ |- _ => destruct H
                | H : _ /\ _ |- _ => destruct H
                end; discriminate).
  destruct (sensors_dict si) as [| |[|[n1 s1] [|[n2 s2] rest]]] eqn:Ed; draw_steps;
    rewrite <- ?app_assoc; cbn [app];
    eexists; eexists; (split; [reflexivity|]);
    (split; [no_such_text|]);
    repeat split; intros; try reflexivity;
    repeat match goal with
           | H : _ \/ _ |- _ => destruct H
           | H : exists _, _ |- _ => destruct H
           | H : _ /\ _ |- _ => destruct H
           | H : Py.Present (Some _) = Py.Present (Some _) |- _ =>
               injection H as H; subst
           end;
    try discriminate; try congruence;
    match goal with
    | Hd : sensors_dict ?i = Py.Present _, Hd' : sensors_dict ?i = Py.Present _ |- _ =>
        rewrite Hd in Hd'; injection Hd' as <- <- <-
    end;
    simpl; unfold Py.keys; rewrite ?length_map; reflexivity.
Qed.

Lemma race_status_text_other (z : Z) :
  z <> 1 -> z <> 2 -> z <> 3 -> race_status_text (Py.Int z) = None.
Proof.
  intros H1 H2 H3.
  destruct z as [|[[p|p|]|[p|p|]|]|p]; simpl; try reflexivity; congruence.
Qed.

(** [get_race_status] as a function of the provider. *)
Lemma get_race_status_text (rhapi : RHAPI) :
  get_race_status rhapi = Py.Ok (provider_status_text rhapi).
Proof.
  unfold get_race_status, provider_status_text.
  destruct (race rhapi) as [| |[ri|]]; simpl; try reflexivity.
  destruct (status ri) as [| |[|z|s]]; try reflexivity.
  - cbn [Py.hasattr Py.getattr Py.bind Py.try_except Py.truthy Py.eq_int].
    destruct (Z.eqb_spec z 0) as [->|H0]; [reflexivity|]. cbn [negb andb].
    destruct (Z.eqb_spec z 1) as [->|H1]; [reflexivity|].
    destruct (Z.eqb_spec z 2) as [->|H2]; [reflexivity|].
    destruct (Z.eqb_spec z 3) as [->|H3]; [reflexivity|].
    now rewrite race_status_text_other.
  - simpl. destruct (negb (String.eqb s "")); reflexivity.
Qed.

(** The commands of the voltage monitor, between header and clock; the
    clock is drawn unless the sensor loop raised. *)
Lemma voltage_monitor_body (env : Env) (voltage_data : option VoltageData) :
  (exists body,
      with_canvas false (display_normal_voltage_monitor env voltage_data)
      = Py.Ok (Text 5 0 (or_string (provider_status_text (rhapi_status env))
                           "Voltage Monitor")
               :: Line 0 15 128 15
               :: body ++ [Text 5 52 (clock_hms env)])%list /\
      (List.length body <= 4)%nat /\
      Forall (text_between 20 58) body) \/
  (with_canvas false (display_normal_voltage_monitor env voltage_data) = Py.Raise /\
   exists vd, voltage_data = Some vd /\ ~ snapshot_renderable vd).
Proof.
  unfold display_normal_voltage_monitor, with_canvas.
  rewrite get_race_status_text.
  cbv beta iota zeta delta [dbind lift draw_text draw_line set_y].
  cbn [drawn y_pos app].
  set (hdr := or_string (provider_status_text (rhapi_status env)) "Voltage Monitor").
  assert (Hdiag :
    exists body y',
      draw_no_voltage (rhapi_diag env)
        {| drawn := [Text 5 0 hdr; Line 0 15 width 15]; y_pos := 20 |}
      = ({| drawn := (Text 5 0 hdr :: Line 0 15 128 15 :: body)%list; y_pos := y' |},
         Py.Ok tt) /\
      (List.length body <= 4)%nat /\ Forall (text_between 20 58) body).
  { destruct (draw_no_voltage_lines (rhapi_diag env)
                {| drawn := [Text 5 0 hdr; Line 0 15 width 15]; y_pos := 20 |})
      as (lines & y' & Hrun & Hlen & Hall & _).
    exists (Text 5 20 "No voltage sensors" :: lines), y'.
    split; [exact Hrun|]. split; [simpl; lia|].
    constructor.
    - exists 20, "No voltage sensors". split; [reflexivity | lia].
    - apply (text_between_weaken (20 + 14) (20 + 38)); [lia | lia | exact Hall]. }
  assert (Hno : forall m : Draw unit,
             m = draw_no_voltage (rhapi_diag env) ->
             exists body,
               match
                 (let (c', r) := m {| drawn := [Text 5 0 hdr; Line 0 15 width 15];
                                     y_pos := 20 |} in
                  match r with
                  | Py.Ok _ =>
                      ({| drawn := (drawn c' ++ [Text 5 (height - 12) (clock_hms env)])%list;
                          y_pos := y_pos c' |}, Py.Ok tt)
                  | Py.Raise => (c', Py.Raise)
                  end)
               with
               | (c, Py.Ok _) => Py.Ok (drawn c)
               | (_, Py.Raise) => Py.Raise
               end
               = Py.Ok (Text 5 0 hdr :: Line 0 15 128 15
                        :: body ++ [Text 5 52 (clock_hms env)])%list /\
               (List.length body <= 4)%nat /\ Forall (text_between 20 58) body).
  { intros m ->. destruct Hdiag as (body & y' & -> & Hlen & Hall).
    exists body. cbn [drawn y_pos app]. split; [reflexivity|]. split; assumption. }
  destruct voltage_data as [vd|]; [|left; now apply Hno].
  destruct (Py.nonempty vd); [|left; now apply Hno].
  destruct (draw_sensors_top vd
              {| drawn := [Text 5 0 hdr; Line 0 15 width 15]; y_pos := 20 |} eq_refl)
    as (lines & y' & r & Hrun & Hlen & Hall & Hok).
  cbn [drawn] in Hrun. rewrite Hrun.
  destruct r as [u|].
  - left. exists lines. cbn [drawn y_pos app]. split; [reflexivity|].
    split; [lia|].
    apply (text_between_weaken 20 46); [lia | lia | exact Hall].
  - right. split; [reflexivity|]. exists vd. split; [reflexivity|].
    intros Hr. specialize (Hok Hr). discriminate Hok.
Qed.

(** X5.  The voltage-monitor view raises only at a reading of the snapshot
    that is not well formed.  Otherwise, for every provider, it draws the
    header, the separator at row 15, at most four body lines at column 5
    between rows 20 and 58, and the clock at row 52 as last command; so it
    does on every snapshot whose readings are well formed and whenever
    there is no snapshot. *)
Theorem voltage_monitor_frame (env : Env) (voltage_data : option VoltageData) :
  ((forall vd, voltage_data = Some vd -> snapshot_renderable vd) ->
   exists f,
     with_canvas false (display_normal_voltage_monitor env voltage_data) = Py.Ok f) /\
  (forall f,
      with_canvas false (display_normal_voltage_monitor env voltage_data) = Py.Ok f ->
      voltage_monitor_shape env f) /\
  (with_canvas false (display_normal_voltage_monitor env voltage_data) = Py.Raise ->
   exists vd, voltage_data = Some vd /\ ~ snapshot_renderable vd).
Proof.
  destruct (voltage_monitor_body env voltage_data)
    as [(body & Hrun & Hlen & Hall) | (Hrun & vd & Hvd & Hill)]; rewrite Hrun.
  - split; [eauto|]. split; [|discriminate].
    intros f Hf. injection Hf as <-. exists body. auto.
  - split; [|split; [discriminate | eauto]].
    intros Hr. exfalso. exact (Hill (Hr vd Hvd)).
Qed.

(** A snapshot with a voltage of [None]: the view raises after the first
    sensor's line; without that sensor it draws the frame. *)
Lemma voltage_monitor_frame_witness :
  with_canvas false
    (display_normal_voltage_monitor (tick_env no_provider 110) (Some mute_snapshot))
  = Py.Raise /\
  with_canvas false
    (display_normal_voltage_monitor (tick_env no_provider 110)
       (Some [("Battery", battery_readings)]))
  = Py.Ok [ Text 5 0 "Voltage Monitor"; Line 0 15 128 15;
            Text 5 20 "Battery: 7.40V"; Text 5 32 "  I: 1.2A";
            Text 5 52 "12:00:00" ].
Proof.
  split; [reflexivity|].
  destruct (proj1 (voltage_monitor_frame (tick_env no_provider 110)
                     (Some [("Battery", battery_readings)]))) as [f Hf].
  - intros vd Hvd. injection Hvd as <-. intros name r [Hin|[]].
    injection Hin as <- <-. intros voltage Hv. injection Hv as <-.
    split; [eexists; eexists; split; [reflexivity | exact I]|].
    intros current Hc. injection Hc as <-.
    eexists; eexists; split; [reflexivity | exact I].
  - rewrite Hf. f_equal. vm_compute in Hf. now injection Hf.
Defined.

(** Idle since 100 with a finished race: the header names the race. *)
Example voltage_monitor_after_race :
  flushed_frame (snd (update_display finished_env ready_display))
  = Some [ Text 5 0 "Race: Finished"; Line 0 15 128 15;
           Text 5 20 "Battery: 7.40V"; Text 5 32 "  I: 1.2A";
           Text 5 52 "12:00:00" ].
Proof. reflexivity. Qed.

(* ================================================================== *)
(** ** The frame of the standings view                                 *)
(* ================================================================== *)

(** The standings loop from rank [i + 1] at row [16 + 10 i], for any pilot
    data: it stops by itself or at a pilot it cannot print, in both cases
    within the four rows. *)
Lemma draw_standings_any (l : list PilotResult) :
  forall (i : nat) (c : Canvas),
    (i <= 4)%nat ->
    y_pos c = 16 + 10 * Z.of_nat i ->
    exists lines r,
      draw_standings i l c
      = ({| drawn := (drawn c ++ lines)%list;
            y_pos := y_pos c + 10 * Z.of_nat (List.length lines) |}, r) /\
      (i + List.length lines <= 4)%nat /\
      Forall (text_between 16 46) lines /\
      (r = Py.Raise -> (i + List.length lines <= 3)%nat).
Proof.
  induction l as [|p rest IH]; intros i c Hi Hy.
  - exists [], (Py.Ok tt). destruct c as [d y]. simpl. unfold dret.
    rewrite app_nil_r, Z.add_0_r.
    split; [reflexivity|]. split; [lia|]. split; [constructor | discriminate].
  - cbn [draw_standings].
    destruct (4 <=? i)%nat eqn:E4.
    + exists [], (Py.Ok tt). destruct c as [d y]. simpl. unfold dret.
      rewrite app_nil_r, Z.add_0_r.
      split; [reflexivity|]. split; [lia|]. split; [constructor | discriminate].
    + apply Nat.leb_gt in E4.
      cbv beta iota zeta delta [dbind lift].
      destruct (pilot_line i p) as [text|].
      * cbv beta iota zeta delta [draw_text_y draw_text add_y].
        cbn [drawn y_pos].
        set (c1 := {| drawn := (drawn c ++ [Text 5 (y_pos c + 0) text])%list;
                      y_pos := y_pos c + 10 |}).
        assert (Hy1 : y_pos c1 = 16 + 10 * Z.of_nat (S i))
          by (unfold c1; cbn [y_pos]; lia).
        destruct (IH (S i) c1 ltac:(lia) Hy1) as (lines & r & Hrun & Hlen & Hall & Hr).
        exists (Text 5 (y_pos c) text :: lines), r.
        rewrite Hrun. subst c1. cbn [drawn y_pos List.length].
        rewrite <- app_assoc. cbn [app].
        replace (y_pos c + 0) with (y_pos c) by lia.
        replace (y_pos c + 10 + 10 * Z.of_nat (List.length lines))
          with (y_pos c + 10 * Z.of_nat (S (List.length lines))) by lia.
        split; [reflexivity|]. split; [lia|]. split.
        -- constructor; [|exact Hall].
           exists (y_pos c), text. split; [reflexivity | lia].
        -- intros Hraise. specialize (Hr Hraise). lia.
      * exists [], Py.Raise. destruct c as [d y]. simpl.
        rewrite app_nil_r, Z.add_0_r.
        split; [reflexivity|]. split; [lia|]. split; [constructor|]. intros _. lia.
Qed.

(** The commands of the standings view, after header and separator. *)
Lemma race_status_lines (env : Env) :
  exists body,
    with_canvas false (race_status_body env)
    = Py.Ok (Text 5 0 (or_string (provider_status_text (rhapi_status env)) "Race Active")
             :: Line 0 13 128 13 :: body)%list /\
    (List.length body <= 5)%nat /\
    Forall (text_between 16 56) body.
Proof.
  unfold race_status_body, with_canvas.
  rewrite get_race_status_text.
  cbv beta iota zeta delta [dbind lift draw_text draw_line set_y draw_try dret
                            draw_waiting draw_text_y].
  cbn [drawn y_pos app].
  set (hdr := or_string (provider_status_text (rhapi_status env)) "Race Active").
  destruct (race (rhapi_results env)) as [| |[ri|]];
    cbn [Py.hasattr Py.getattr drawn y_pos app].
  - exists []. split; [reflexivity|].
    split; [simpl; lia | constructor].
  - eexists. split; [reflexivity|].
    split; [simpl; lia | text_rows].
  - destruct (results ri) as [| |[res|]]; cbn [Py.getattr drawn y_pos app];
      try (eexists; split; [reflexivity|];
           split; [simpl; lia | text_rows]).
    destruct (Py.nonempty res && Py.mem "by_race_time" res);
      [|eexists; split; [reflexivity|];
        split; [simpl; lia | text_rows]].
    destruct (getitem "by_race_time" res) as [standings|];
      [|eexists; split; [reflexivity|];
        split; [simpl; lia | text_rows]].
    destruct (draw_standings_any (firstn 4 standings) 0
                {| drawn := [Text 5 0 hdr; Line 0 13 width 13]; y_pos := 16 |}
                ltac:(lia) eq_refl)
      as (lines & r & Hrun & Hlen & Hall & Hr).
    rewrite Hrun. cbn [drawn y_pos app].
    destruct r as [u|].
    + exists lines. split; [reflexivity|].
      split; [lia|].
      apply (text_between_weaken 16 46); [lia | lia | exact Hall].
    + specialize (Hr eq_refl).
      exists (lines ++ [Text 5 (16 + 10 * Z.of_nat (List.length lines) + 0)
                          "Race in progress";
                        Text 5 (16 + 10 * Z.of_nat (List.length lines) + 10)
                          "Monitoring laps..."])%list.
      split; [now rewrite <- !app_assoc|].
      split; [rewrite length_app; simpl; lia|].
      apply Forall_app. split.
      * apply (text_between_weaken 16 46); [lia | lia | exact Hall].
      * text_rows.
  - exists []. split; [reflexivity|].
    split; [simpl; lia | constructor].
Qed.

(** X6.  The standings view never raises, whatever race data the provider
    returns: it draws the status header, the separator at row 13 and at
    most five more lines at column 5 between rows 16 and 56 (standings, the
    waiting placeholder, or the fallback text after the lines drawn before
    a pilot that cannot be printed). *)
Theorem standings_frame (env : Env) :
  exists f,
    with_canvas false (race_status_body env) = Py.Ok f /\
    standings_shape (rhapi_status env) f.
Proof.
  destruct (race_status_lines env) as (body & Hrun & Hlen & Hall).
  eexists. split; [exact Hrun|].
  exists body. split; [reflexivity|]. split; assumption.
Qed.

Lemma staging_or_racing_text (rhapi : RHAPI) :
  staging_or_racing rhapi ->
  provider_status_text rhapi = Some "Race: Staging" \/
  provider_status_text rhapi = Some "Race: Running".
Proof.
  intros (ri & v & Hr & Hs & [-> | ->]); unfold provider_status_text;
    rewrite Hr, Hs; [now left | now right].
Qed.

Lemma idle_status_text (rhapi : RHAPI) :
  ~ staging_or_racing rhapi ->
  provider_status_text rhapi = Some "Race: Finished" \/
  provider_status_text rhapi = None.
Proof.
  intros Hno. unfold provider_status_text.
  destruct (race rhapi) as [| |[ri|]] eqn:Hr; auto.
  destruct (status ri) as [| |v] eqn:Hs; auto.
  destruct v as [|z|s]; auto.
  destruct (Z.eq_dec z 1) as [->|H1];
    [exfalso; apply Hno; exists ri, (Py.Int 1); auto|].
  destruct (Z.eq_dec z 2) as [->|H2];
    [exfalso; apply Hno; exists ri, (Py.Int 2); auto|].
  destruct (Z.eq_dec z 3) as [->|H3]; [now left|].
  right. now apply race_status_text_other.
Qed.

(** The status text is one of three, or there is none. *)
Lemma provider_status_text_cases (rhapi : RHAPI) :
  provider_status_text rhapi = Some "Race: Staging" \/
  provider_status_text rhapi = Some "Race: Running" \/
  provider_status_text rhapi = Some "Race: Finished" \/
  provider_status_text rhapi = None.
Proof.
  unfold provider_status_text.
  destruct (race rhapi) as [| |[ri|]]; auto.
  destruct (status ri) as [| |[|z|s]]; auto.
  destruct (Z.eq_dec z 1) as [->|H1]; [now left|].
  destruct (Z.eq_dec z 2) as [->|H2]; [now right; left|].
  destruct (Z.eq_dec z 3) as [->|H3]; [now right; right; left|].
  right. right. right. now apply race_status_text_other.
Qed.

(** The status text depends on the [race] attribute only. *)
Lemma provider_status_text_race (a b : RHAPI) :
  race a = race b -> provider_status_text a = provider_status_text b.
Proof. unfold provider_status_text. now intros ->. Qed.

(** X7.  A tick that shows the standings on a working panel flushes a
    frame with a header, the separator and at most five lines between rows
    16 and 56.  The header is "Race: Staging" or "Race: Running" when the
    provider's race object is the same at the mode check and when the view
    reads the status; when the host changed it in between, the header can
    also be "Race: Finished" or the fallback "Race Active". *)
Theorem standings_tick (env : Env) (self : OLEDDisplay) :
  display_enabled self = true ->
  ~ lap_pending env self ->
  staging_or_racing (rhapi_active env) ->
  panel_fails env = false ->
  exists hdr body,
    snd (update_display env self)
    = Selected RaceStanding
        (Flushed (Text 5 0 hdr :: Line 0 13 128 13 :: body)) /\
    (hdr = "Race: Staging" \/ hdr = "Race: Running" \/
     hdr = "Race: Finished" \/ hdr = "Race Active") /\
    (race (rhapi_status env) = race (rhapi_active env) ->
     hdr = "Race: Staging" \/ hdr = "Race: Running") /\
    (List.length body <= 5)%nat /\
    Forall (text_between 16 56) body.
Proof.
  intros Hen Hno Hrace Hpanel.
  apply lap_pending_false in Hno.
  pose proof (staging_or_racing_text _ Hrace) as Htext.
  apply is_race_active_true_iff in Hrace.
  unfold update_display. rewrite Hen, Hno, Hrace. simpl.
  unfold display_race_status. simpl. rewrite Hen, Hpanel. simpl.
  destruct (race_status_lines env) as (body & -> & Hlen & Hall).
  exists (or_string (provider_status_text (rhapi_status env)) "Race Active"), body.
  split; [reflexivity|]. split; [|split; [|split; assumption]].
  - destruct (provider_status_text_cases (rhapi_status env)) as [-> | [-> | [-> | ->]]];
      simpl; auto.
  - intros Hsame. rewrite (provider_status_text_race _ _ Hsame).
    destruct Htext as [-> | ->]; [now left | now right].
Qed.

(** Five pilots during a race: header and four lines; and a race that
    ends between the mode check and the view. *)
Lemma standings_tick_witness :
  display_enabled ready_display = true /\
  ~ lap_pending five_pilots_env ready_display /\
  staging_or_racing (rhapi_active five_pilots_env) /\
  (exists hdr body,
      snd (update_display five_pilots_env ready_display)
      = Selected RaceStanding (Flushed (Text 5 0 hdr :: Line 0 13 128 13 :: body)) /\
      (hdr = "Race: Staging" \/ hdr = "Race: Running")) /\
  snd (update_display race_ending_env ready_display)
  = Selected RaceStanding
      (Flushed [Text 5 0 "Race: Finished"; Line 0 13 128 13;
                Text 5 16 "Waiting for"; Text 5 26 "race data..."]).
Proof.
  assert (Hno : ~ lap_pending five_pilots_env ready_display)
    by (intros [H _]; discriminate H).
  assert (Hrace : staging_or_racing (rhapi_active five_pilots_env))
    by (exists {| status := Py.Present (Py.Int 2);
                  results := Py.Present (Some [("by_race_time", five_pilots)]) |},
               (Py.Int 2); auto).
  split; [reflexivity|]. split; [exact Hno|]. split; [exact Hrace|].
  split; [|reflexivity].
  destruct (standings_tick five_pilots_env ready_display eq_refl Hno Hrace eq_refl)
    as (hdr & body & Hout & _ & Hsame & _).
  exists hdr, body. split; [exact Hout | exact (Hsame eq_refl)].
Defined.

(** X8.  A tick that shows the voltage monitor on a working panel, with
    well-formed readings in what the sensors report, flushes a frame with
    a header, the separator, at most four body lines between rows 20 and
    58, and the clock at row 52.  The header is "Race: Finished" or
    "Voltage Monitor" when the provider's race object is the same at the
    mode check and when the view reads the status; when the host changed
    it in between, it can also name a staging or running race. *)
Theorem voltage_monitor_tick (env : Env) (self : OLEDDisplay) :
  idle_tick env self ->
  panel_fails env = false ->
  selected_mode (snd (update_display env self)) = Some VoltageMonitor ->
  sensors_renderable (rhapi_sensors env) ->
  exists hdr body,
    snd (update_display env self)
    = Selected VoltageMonitor
        (Flushed (Text 5 0 hdr :: Line 0 15 128 15
                  :: body ++ [Text 5 52 (clock_hms env)])%list) /\
    (hdr = "Race: Staging" \/ hdr = "Race: Running" \/
     hdr = "Race: Finished" \/ hdr = "Voltage Monitor") /\
    (race (rhapi_status env) = race (rhapi_active env) ->
     hdr = "Race: Finished" \/ hdr = "Voltage Monitor") /\
    (List.length body <= 4)%nat /\
    Forall (text_between 20 58) body.
Proof.
  intros Hidle Hpanel Hmode Hsens.
  pose proof Hidle as (_ & _ & Hrace).
  rewrite (update_display_idle env self Hidle) in *. cbn [snd selected_mode] in *.
  destruct (burn_in_protection_active (after_idle env self)) eqn:Hburn;
    [discriminate Hmode|].
  unfold voltage_view. rewrite Hburn, Hpanel.
  destruct (get_voltage_data_total (rhapi_sensors env)) as [vd Hvd].
  rewrite Hvd. cbn [Py.bind].
  destruct (voltage_monitor_body env vd)
    as [(body & -> & Hlen & Hall) | (_ & vd0 & -> & Hill)];
    [|exfalso; exact (Hill (Hsens vd0 Hvd))].
  cbn [view_result].
  exists (or_string (provider_status_text (rhapi_status env)) "Voltage Monitor"), body.
  split; [reflexivity|]. split; [|split; [|split; assumption]].
  - destruct (provider_status_text_cases (rhapi_status env)) as [-> | [-> | [-> | ->]]];
      simpl; auto.
  - intros Hsame. rewrite (provider_status_text_race _ _ Hsame).
    destruct (idle_status_text _ Hrace) as [-> | ->]; [now left | now right].
Qed.

Lemma two_sensors_renderable : sensors_renderable (provider two_sensors 3 None).
Proof.
  intros vd Hvd. vm_compute in Hvd. injection Hvd as <-.
  intros name r [Hin|[Hin|[]]]; injection Hin as <- <-;
    intros voltage Hv; [|discriminate Hv].
  injection Hv as <-.
  split; [eexists; eexists; split; [reflexivity | exact I]|].
  intros current Hc. injection Hc as <-.
  eexists; eexists; split; [reflexivity | exact I].
Qed.

(** The finished race with a battery, idle for 10 seconds. *)
Lemma voltage_monitor_tick_witness :
  idle_tick finished_env ready_display /\
  sensors_renderable (rhapi_sensors finished_env) /\
  exists hdr body,
    snd (update_display finished_env ready_display)
    = Selected VoltageMonitor
        (Flushed (Text 5 0 hdr :: Line 0 15 128 15
                  :: body ++ [Text 5 52 (clock_hms finished_env)])%list) /\
    (hdr = "Race: Finished" \/ hdr = "Voltage Monitor").
Proof.
  assert (Hidle : idle_tick finished_env ready_display).
  { split; [reflexivity|]. split.
    - intros [H _]. discriminate H.
    - intros (ri & v & H & Hs & Hv). injection H as <-. simpl in Hs.
      injection Hs as <-. destruct Hv; discriminate. }
  split; [exact Hidle|]. split; [exact two_sensors_renderable|].
  destruct (voltage_monitor_tick finished_env ready_display Hidle eq_refl eq_refl
              two_sensors_renderable)
    as (hdr & body & Hout & _ & Hsame & _).
  exists hdr, body. split; [exact Hout | exact (Hsame eq_refl)].
Defined.

(* ================================================================== *)
(** ** The burn-in guard                                               *)
(* ================================================================== *)

(** X9.  With a random source that respects its bounds, the burn-in guard
    either draws exactly two texts, the primary reading with its row
    between 10 and 22 and the clock with its row between 32 and 44, both
    with their column between 10 and 78 (the reading above the clock, both
    anchors inside the 128x64 panel), or, when the primary reading cannot
    be formatted, raises before it draws anything. *)
Theorem burn_in_placement (env : Env) (voltage_data : option VoltageData) :
  randint_in_bounds env ->
  (forall text,
      burn_in_voltage_text voltage_data = Py.Ok text ->
      exists f,
        with_canvas false (display_burn_in_protection env voltage_data) = Py.Ok f /\
        burn_in_shape env text f) /\
  (burn_in_voltage_text voltage_data = Py.Raise ->
   display_burn_in_protection env voltage_data {| drawn := []; y_pos := 0 |}
   = ({| drawn := []; y_pos := 0 |}, Py.Raise)).
Proof.
  intros Hrand. unfold display_burn_in_protection, with_canvas. split.
  - intros text ->.
    cbv beta iota zeta delta [dbind lift draw_text]. cbn [drawn y_pos app].
    eexists. split; [reflexivity|].
    unfold burn_in_shape. do 4 eexists. split; [reflexivity|].
    unfold width, height.
    change (128 - 50) with 78. change (64 - 20) with 44.
    change (44 / 2) with 22. change (22 + 10) with 32.
    repeat split; apply Hrand; lia.
  - intros ->. reflexivity.
Qed.

(** A random source that always answers with the upper bound. *)
Lemma burn_in_placement_witness :
  randint_in_bounds upper_random_env /\
  burn_in_voltage_text (Some [("Battery", battery_readings)]) = Py.Ok "7.4V" /\
  exists f,
    with_canvas false
      (display_burn_in_protection upper_random_env
         (Some [("Battery", battery_readings)])) = Py.Ok f /\
    burn_in_shape upper_random_env "7.4V" f.
Proof.
  assert (Hrand : randint_in_bounds upper_random_env)
    by (intros k a b Hab; simpl; lia).
  split; [exact Hrand|]. split; [reflexivity|].
  exact (proj1 (burn_in_placement upper_random_env
                  (Some [("Battery", battery_readings)]) Hrand) "7.4V" eq_refl).
Defined.

Lemma get_none_iff {V} (k : string) (d : Py.dict V) :
  Py.get k d = None <-> ~ In k (Py.keys d).
Proof.
  rewrite <- get_in_keys. destruct (Py.get k d); split; intros H; try congruence.
  exfalso. apply H. discriminate.
Qed.

Lemma primary_voltage_none (vd : VoltageData) (dflt : string) :
  (forall name r, In (name, r) vd -> ~ In "voltage" (Py.keys r)) ->
  primary_voltage vd dflt = Py.Ok dflt.
Proof.
  induction vd as [|[name r] rest IH]; intros H; simpl; [reflexivity|].
  assert (Hr : Py.get "voltage" r = None)
    by (apply get_none_iff, (H name); now left).
  rewrite Hr. apply IH. intros n r' Hin. apply (H n). now right.
Qed.

Lemma primary_voltage_first (pre post : VoltageData) (name : string)
    (r : Readings) (voltage : Reading) (dflt : string) :
  (forall name' r', In (name', r') pre -> ~ In "voltage" (Py.keys r')) ->
  Py.get "voltage" r = Some voltage ->
  primary_voltage (pre ++ (name, r) :: post)%list dflt = format_reading 1 voltage.
Proof.
  intros Hpre Hv. induction pre as [|[n0 r0] pre IH]; simpl.
  - now rewrite Hv.
  - assert (Hr0 : Py.get "voltage" r0 = None)
      by (apply get_none_iff, (Hpre n0); now left).
    rewrite Hr0. apply IH. intros n r' Hin. apply (Hpre n). now right.
Qed.

(** X10.  The burn-in guard takes the reading of the first sensor of the
    snapshot, in its order, that has a ['voltage'] key: it shows that
    reading with one decimal and its unit when the reading is well formed,
    and raises when it is not, without trying a later sensor.  It shows
    "No Data" when no sensor of the snapshot has that key, even if the
    snapshot is not empty. *)
Theorem burn_in_primary_reading (vd : VoltageData) : primary_reading_rule vd.
Proof.
  unfold primary_reading_rule, burn_in_voltage_text. split.
  - apply primary_voltage_none.
  - intros pre name r voltage post -> Hpre Hv.
    rewrite (primary_voltage_first pre post name r voltage _ Hpre Hv).
    split; [|split].
    + intros x units ->. reflexivity.
    + apply format_reading_well_formed.
    + apply format_reading_ill_formed.
Qed.

(** The bus sensor comes first but has no ['voltage'] key: the battery is
    the primary reading; a first voltage of [None] raises although a
    battery follows. *)
Lemma burn_in_primary_reading_witness :
  burn_in_voltage_text (Some [("Bus", bus_readings); ("Battery", battery_readings)])
  = Py.Ok "7.4V" /\
  burn_in_voltage_text (Some [("Bus", bus_readings)]) = Py.Ok "No Data" /\
  burn_in_voltage_text (Some [("Mute", mute_readings); ("Battery", battery_readings)])
  = Py.Raise.
Proof.
  split; [|split].
  - refine (proj1 (proj2 (burn_in_primary_reading _)
                     [("Bus", bus_readings)] "Battery" battery_readings
                     (reading (decimal 74 10) "V") [] eq_refl _ eq_refl)
              (decimal 74 10) (MStr "V") eq_refl).
    intros n r [H|[]]. injection H as <- <-. simpl. intros [H|[]]. discriminate H.
  - refine (proj1 (burn_in_primary_reading _) _).
    intros n r [H|[]]. injection H as <- <-. simpl. intros [H|[]]. discriminate H.
  - refine (proj2 (proj2 (proj2 (burn_in_primary_reading _)
                     [] "Mute" mute_readings
                     (ReadingDict (Some MNone) (Some (MStr "V")))
                     [("Battery", battery_readings)] eq_refl _ eq_refl)) _).
    + intros n r [].
    + intros (value & units & H & Hnum). injection H as <- <-. exact Hnum.
Defined.

(* ================================================================== *)
(** ** Names in the standings                                          *)
(* ================================================================== *)

Lemma truncate_pilot_prefix (s : string) : truncate_name ("Pilot " ++ s) = "Pilot ".
Proof.
  unfold truncate_name, Py.strlen, Py.slice_to.
  destruct s as [|c s]; reflexivity.
Qed.

(** X11.  A pilot result with neither callsign nor name is listed as
    "<rank>.Pilot  <lap>" whatever its pilot id: the fallback name "Pilot
    <id>" is cut to its first six characters, which are "Pilot ". *)
Theorem anonymous_pilot_line (i : nat) (p : PilotResult) (lap : string) :
  Py.get "callsign" p = None ->
  Py.get "name" p = None ->
  best_lap p = Py.Str lap ->
  pilot_line i p
  = Py.Ok (Py.str_of_Z (Z.of_nat i + 1) ++ ".Pilot " ++ " " ++ strip_minute lap).
Proof.
  intros Hc Hn Hl.
  assert (Hname : display_name p
                  = Py.Str ("Pilot " ++ Py.str (Py.get_default "pilot_id" (Py.Str "?") p)))
    by (unfold display_name; now rewrite Hc, Hn).
  rewrite (pilot_line_printable i p _ lap Hname Hl).
  unfold standing_line. now rewrite truncate_pilot_prefix.
Qed.

(** Pilot 12345 in third place. *)
Lemma anonymous_pilot_line_witness :
  pilot_line 2 anonymous_pilot = Py.Ok "3.Pilot  31.100".
Proof.
  exact (anonymous_pilot_line 2 anonymous_pilot "0:31.100" eq_refl eq_refl eq_refl).
Defined.

(* ================================================================== *)
(** ** What ticks change                                               *)
(* ================================================================== *)

(** A tick keeps the panel handle and both flags of the state. *)
Lemma update_display_keeps_flags (env : Env) (self : OLEDDisplay) :
  display (fst (update_display env self)) = display self /\
  display_enabled (fst (update_display env self)) = display_enabled self /\
  thread_running (fst (update_display env self)) = thread_running self.
Proof.
  unfold update_display.
  destruct (negb (display_enabled self)); [now repeat split|].
  destruct (show_race_info self && _); [now repeat split|].
  destruct (is_race_active (rhapi_active env)) as [[|]|]; cbn [fst]; [now repeat split| |now repeat split].
  destruct (Qeq_bool _ _); now repeat split.
Qed.

(** X12.  [update_display] never touches the panel handle, the enabled
    flag, the expiry of the lap notice or the thread fields, whatever
    branch it takes. *)
Theorem update_display_frame_condition (env : Env) (self : OLEDDisplay) :
  same_hardware_fields self (fst (update_display env self)).
Proof.
  unfold same_hardware_fields, update_display.
  destruct (negb (display_enabled self)); [now repeat split|].
  destruct (show_race_info self && _); [now repeat split|].
  destruct (is_race_active (rhapi_active env)) as [[|]|]; cbn [fst]; [now repeat split| |now repeat split].
  destruct (Qeq_bool _ _); now repeat split.
Qed.

(** X13.  After a tick that showed the standings, a following idle tick
    selects the burn-in guard exactly when more than 60 seconds have passed
    since the clock read of that race tick (provided that read was not 0):
    the race restarts the idle timer. *)
Theorem burn_in_after_race (env1 env2 : Env) (self : OLEDDisplay) :
  display_enabled self = true ->
  ~ lap_pending env1 self ->
  staging_or_racing (rhapi_active env1) ->
  ~ (t_race env1 == 0)%Q ->
  idle_tick env2 (fst (update_display env1 self)) ->
  (selected_mode (snd (update_display env2 (fst (update_display env1 self))))
   = Some BurnInGuard
   <-> (60 < t_idle env2 - t_race env1)%Q).
Proof.
  intros Hen Hno Hrace Hnz Hidle.
  rewrite (update_display_idle env2 _ Hidle). cbn [snd selected_mode].
  apply lap_pending_false in Hno. apply is_race_active_true_iff in Hrace.
  assert (Hs1 : fst (update_display env1 self)
                = set_voltage_monitor_start_time (t_race env1) self)
    by (unfold update_display; rewrite Hen, Hno, Hrace; reflexivity).
  rewrite Hs1. unfold after_idle. cbn [voltage_monitor_start_time reset_race_info
                          set_voltage_monitor_start_time].
  destruct (Qeq_bool (t_race env1) 0) eqn:E;
    [apply Qeq_bool_iff in E; contradiction|].
  cbn [burn_in_protection_active set_burn_in_protection_active
       voltage_monitor_start_time set_voltage_monitor_start_time].
  rewrite <- Qlt_bool_true.
  destruct (Qlt_bool 60 _); split; congruence.
Qed.

(** A race tick at 130, then idle ticks at 185 (55 s) and 195 (65 s). *)
Lemma burn_in_after_race_witness :
  selected_mode (snd (update_display idle_env_185
                        (fst (update_display race_env_130 ready_display))))
  <> Some BurnInGuard /\
  selected_mode (snd (update_display idle_env_195
                        (fst (update_display race_env_130 ready_display))))
  = Some BurnInGuard.
Proof.
  assert (Hno : ~ lap_pending race_env_130 ready_display)
    by (intros [H _]; discriminate H).
  assert (Hrace : staging_or_racing (rhapi_active race_env_130))
    by (exists {| status := Py.Present (Py.Int 2); results := Py.Present None |},
               (Py.Int 2); auto).
  assert (Hnz : ~ (t_race race_env_130 == 0)%Q) by (intros H; discriminate H).
  assert (Hidle : forall t, idle_tick (tick_env no_provider t)
                              (fst (update_display race_env_130 ready_display))).
  { intros t. split; [reflexivity|]. split.
    - intros [H _]. discriminate H.
    - intros (ri & v & H & _). discriminate H. }
  split.
  - intros H.
    apply (burn_in_after_race race_env_130 idle_env_185 ready_display
             eq_refl Hno Hrace Hnz (Hidle 185%Q)) in H.
    vm_compute in H. discriminate H.
  - apply (burn_in_after_race race_env_130 idle_env_195 ready_display
             eq_refl Hno Hrace Hnz (Hidle 195%Q)).
    reflexivity.
Defined.

Lemma run_ticks_in_window (X : Q) (info : Py.dict Py.value) (envs : list Env)
    (self : OLEDDisplay) :
  display_enabled self = true ->
  show_race_info self = true ->
  last_lap_info self = Some info ->
  Py.nonempty info = true ->
  race_info_timeout self = X ->
  Forall (fun env => (t_check env < X)%Q) envs ->
  snd (run_ticks envs self) = self.
Proof.
  intros Hen Hshow Hinfo Hne HX Hall.
  induction Hall as [|e rest He Hrest IH]; [reflexivity|].
  rewrite run_ticks_cons. cbn [snd].
  rewrite <- HX in He.
  rewrite (update_display_lap_notice e self info Hen Hshow Hinfo Hne He).
  exact IH.
Qed.

(** X14.  Showing a lap notice does not restart the idle timer: however
    many ticks displayed the notice, the first idle tick after its expiry
    selects the burn-in guard exactly when more than 60 seconds have passed
    since the idle-start timestamp stored before the lap event. *)
Theorem lap_notice_keeps_idle_timer (T : Q) (pilot_name lap_number lap_time : Py.value)
    (position : option Py.value) (self : OLEDDisplay) (envs : list Env) (env : Env) :
  display_enabled self = true ->
  ~ (voltage_monitor_start_time self == 0)%Q ->
  Forall (fun e => (t_check e < T + 5)%Q) envs ->
  idle_tick env (show_lap_completion T pilot_name lap_number lap_time position self) ->
  snd (run_ticks envs
         (show_lap_completion T pilot_name lap_number lap_time position self))
  = show_lap_completion T pilot_name lap_number lap_time position self /\
  (selected_mode
     (snd (update_display env
             (snd (run_ticks envs
                     (show_lap_completion T pilot_name lap_number lap_time
                        position self)))))
   = Some BurnInGuard
   <-> (60 < t_idle env - voltage_monitor_start_time self)%Q).
Proof.
  intros Hen Hnz Hall Hidle.
  set (s0 := show_lap_completion T pilot_name lap_number lap_time position self) in *.
  assert (Hs : snd (run_ticks envs s0) = s0)
    by (apply (run_ticks_in_window (T + 5)%Q _ envs s0 Hen eq_refl eq_refl eq_refl
                 eq_refl Hall)).
  split; [exact Hs|]. rewrite Hs.
  rewrite (update_display_idle env s0 Hidle). cbn [snd selected_mode].
  unfold after_idle, s0.
  cbn [voltage_monitor_start_time reset_race_info show_lap_completion].
  destruct (Qeq_bool (voltage_monitor_start_time self) 0) eqn:E;
    [apply Qeq_bool_iff in E; contradiction|].
  cbn [burn_in_protection_active set_burn_in_protection_active
       voltage_monitor_start_time reset_race_info].
  rewrite <- Qlt_bool_true.
  destruct (Qlt_bool 60 _); split; congruence.
Qed.

(** Idle since 100; a lap at 200 shown at 201 and 203; at 206 the guard. *)
Lemma lap_notice_keeps_idle_timer_witness :
  selected_mode
    (snd (update_display idle_env_206
            (snd (run_ticks [tick_env no_provider 201; tick_env no_provider 203]
                    (show_lap_completion 200 (Py.Str "Red5") (Py.Int 3)
                       (Py.Str "0:24.531") None ready_display)))))
  = Some BurnInGuard.
Proof.
  assert (Hidle : idle_tick idle_env_206
                    (show_lap_completion 200 (Py.Str "Red5") (Py.Int 3)
                       (Py.Str "0:24.531") None ready_display)).
  { split; [reflexivity|]. split.
    - intros [_ H]. vm_compute in H. discriminate H.
    - intros (ri & v & H & _). discriminate H. }
  refine (proj2 (proj2 (lap_notice_keeps_idle_timer 200 (Py.Str "Red5") (Py.Int 3)
                   (Py.Str "0:24.531") None ready_display
                   [tick_env no_provider 201; tick_env no_provider 203]
                   idle_env_206 eq_refl _ _ Hidle)) _).
  - intros H. discriminate H.
  - repeat constructor.
  - reflexivity.
Defined.

(* ================================================================== *)
(** ** Lifecycle                                                       *)
(* ================================================================== *)

(** X15.  In every state the methods of the class can reach, an enabled
    display has a panel handle: [update_display] never opens a canvas on
    [None]. *)
Theorem enabled_display_has_panel (self : OLEDDisplay) :
  reachable self -> display_enabled self = true -> display self = true.
Proof.
  induction 1 as [now | hw s _ IH | alive s _ IH | env s _ IH
                 | now p l t pos s _ IH | e s _ IH].
  - discriminate.
  - destruct hw; simpl; auto; discriminate.
  - unfold start_display_thread. destruct (display_thread s && alive); exact IH.
  - destruct (update_display_keeps_flags env s) as (Hd & He & _).
    rewrite Hd, He. exact IH.
  - exact IH.
  - unfold cleanup, stop_display_thread. simpl.
    destruct (display s) eqn:E; simpl; [intros _; exact E | rewrite E; exact IH].
Qed.

(** The display after a successful initialisation and a tick. *)
Lemma enabled_display_has_panel_witness :
  display (fst (update_display idle_env_110 ready_display)) = true.
Proof.
  apply enabled_display_has_panel.
  - apply reach_update_display, reach_initialize_display, reach_init.
  - reflexivity.
Defined.

Lemma _display_loop_running (envs : list Env) :
  forall self,
    thread_running self = true ->
    _display_loop envs self = run_ticks envs self.
Proof.
  induction envs as [|env rest IH]; intros self Hrun; [reflexivity|].
  cbn [_display_loop run_ticks]. rewrite Hrun.
  destruct (update_display_keeps_flags env self) as (_ & _ & Hkeep).
  destruct (update_display env self) as [s1 out]. cbn [fst] in Hkeep.
  rewrite IH by congruence. reflexivity.
Qed.

(** X16.  A running display loop executes one tick per iteration and
    never stops by itself, since no tick clears [thread_running]; once
    [cleanup] ran, the loop finds the flag cleared and performs no further
    tick. *)
Theorem display_loop_until_cleanup (envs : list Env) (e : ShutdownEnv)
    (self : OLEDDisplay) :
  thread_running self = true ->
  _display_loop envs self = run_ticks envs self /\
  List.length (fst (_display_loop envs self)) = List.length envs /\
  _display_loop envs (fst (fst (cleanup e self))) = ([], fst (fst (cleanup e self))).
Proof.
  intros Hrun. split; [now apply _display_loop_running|].
  split; [rewrite _display_loop_running by exact Hrun; apply run_ticks_length|].
  assert (Hstop : thread_running (fst (fst (cleanup e self))) = false)
    by (unfold cleanup, stop_display_thread; simpl; destruct (display self); reflexivity).
  destruct envs as [|env rest]; [reflexivity|].
  cbn [_display_loop]. now rewrite Hstop.
Qed.

(** The running display: three ticks, then none after the shutdown. *)
Lemma display_loop_until_cleanup_witness :
  thread_running running_display = true /\
  List.length (fst (_display_loop three_ticks running_display)) = 3%nat /\
  fst (_display_loop three_ticks (fst (fst (cleanup first_shutdown running_display))))
  = [].
Proof.
  split; [reflexivity|].
  destruct (display_loop_until_cleanup three_ticks first_shutdown running_display
              eq_refl) as (_ & Hlen & Hstop).
  split; [exact Hlen|]. now rewrite Hstop.
Defined.

(** X17.  Restarting after a shutdown: if the old thread has ended,
    [start_display_thread] starts a new one and sets [thread_running]; if
    the old thread is still alive (its join timed out), the call does
    nothing and [thread_running] stays cleared, so the old loop ends and
    no loop is left. *)
Theorem restart_after_cleanup (e : ShutdownEnv) (alive : bool) (self : OLEDDisplay) :
  display_thread self = true ->
  let stopped := fst (fst (cleanup e self)) in
  (alive = true ->
   start_display_thread alive stopped = (stopped, []) /\
   thread_running stopped = false) /\
  (alive = false ->
   snd (start_display_thread alive stopped) = [ThreadStart] /\
   thread_running (fst (start_display_thread alive stopped)) = true /\
   display_thread (fst (start_display_thread alive stopped)) = true).
Proof.
  intros Hthread. cbv zeta.
  assert (Hs : fst (fst (cleanup e self)) = set_thread (display_thread self) false self)
    by (unfold cleanup, stop_display_thread; simpl; destruct (display self); reflexivity).
  rewrite Hs. unfold start_display_thread. cbn [display_thread set_thread].
  rewrite Hthread. split; intros ->; simpl; auto.
Qed.

(** The running display, shut down while its thread outlives the join. *)
Lemma restart_after_cleanup_witness :
  start_display_thread true (fst (fst (cleanup first_shutdown running_display)))
  = (fst (fst (cleanup first_shutdown running_display)), []) /\
  thread_running (fst (fst (cleanup first_shutdown running_display))) = false.
Proof.
  exact (proj1 (restart_after_cleanup first_shutdown true running_display eq_refl)
           eq_refl).
Defined.

(** X18.  The plugin's [initialize] succeeds exactly when the panel could
    be created and cleared; then the display is enabled, has its panel
    handle and a running thread.  Otherwise the display stays disabled
    without a thread, a later start request is ignored and every
    [update_display] returns at once. *)
Theorem plugin_initialize_outcome (now : Q) (hw : Hardware) :
  initialize_outcome now hw.
Proof.
  unfold initialize_outcome.
  destruct hw; cbn; (split; [split; [auto; discriminate | auto; discriminate]|]);
    (split; [try discriminate; auto|]); try discriminate; auto.
Qed.

(* ================================================================== *)
(** ** The plugin's sensor test                                        *)
(* ================================================================== *)

(** X19.  [test_sensor_access] never raises and answers [True] exactly
    when the [sensors] attribute is present, not [None], and its
    [sensors_dict] can be read, also when that dict is empty; a positive
    answer therefore does not mean that [get_voltage_data] returns a
    snapshot. *)
Theorem test_sensor_access_spec (rhapi : RHAPI) :
  (test_sensor_access rhapi = Py.Ok true \/ test_sensor_access rhapi = Py.Ok false) /\
  (test_sensor_access rhapi = Py.Ok true <-> ~ sensors_unavailable rhapi) /\
  (test_sensor_access rhapi = Py.Ok false -> get_voltage_data rhapi = Py.Ok None).
Proof.
  unfold test_sensor_access, sensors_unavailable, get_voltage_data.
  destruct (sensors rhapi) as [| |[si|]] eqn:Es; simpl.
  - split; [now right|]. split; [split; [discriminate | intros H; exfalso; apply H; auto]|].
    reflexivity.
  - split; [now right|]. split; [split; [discriminate | intros H; exfalso; apply H; auto]|].
    reflexivity.
  - destruct (sensors_dict si) as [| |sd] eqn:Ed; simpl.
    + split; [now right|]. split; [|reflexivity].
      split; [discriminate|]. intros H. exfalso. apply H.
      right. right. right. exists si. auto.
    + split; [now right|]. split; [|reflexivity].
      split; [discriminate|]. intros H. exfalso. apply H.
      right. right. right. exists si. auto.
    + split; [now left|]. split; [|discriminate].
      split; [|reflexivity]. intros _ [H|[H|[H|(si' & H & [H'|H'])]]];
        try discriminate; injection H as <-; congruence.
  - split; [now right|]. split; [split; [discriminate | intros H; exfalso; apply H; auto]|].
    reflexivity.
Qed.

(** An empty sensor subsystem passes the test and yields no snapshot. *)
Lemma test_sensor_access_spec_witness :
  test_sensor_access empty_sensor_system = Py.Ok true /\
  get_voltage_data empty_sensor_system = Py.Ok None /\
  test_sensor_access no_provider = Py.Ok false.
Proof.
  split; [|split; [reflexivity|reflexivity]].
  apply (proj1 (proj2 (test_sensor_access_spec empty_sensor_system))).
  intros [H|[H|[H|(si & H & [H'|H'])]]]; try discriminate;
    injection H as <-; discriminate.
Defined.

(* ================================================================== *)
(** ** The lap-recorded handler                                        *)
(* ================================================================== *)

(** The handler at work: pilot 7, lap 3, 84531 ms, no [util]. *)
Example handler_formats_raw_time :
  option_map last_lap_info
    (Handler.lap_recorded_handler sample_api 200 (Some ready_display)
       (Some raw_lap_args))
  = Some (Some [("pilot_name", Py.Str "Red5"); ("lap_number", Py.Int 3);
                ("lap_time", Py.Str "1:24.531"); ("position", Py.None_)]).
Proof. reflexivity. Qed.

(** The fallback formatting computes on floats: 59999.6 ms is shown with
    60 seconds, and from about 2^53 ms on the last digits differ from those
    of the integer; an infinite time ends in the [except] branch. *)
Example fallback_lap_time_floats :
  Handler.fallback_lap_time (Handler.RawFloat raw_59999_6) = Py.Ok "0:60.000" /\
  Handler.fallback_lap_time (Handler.RawInt 59999) = Py.Ok "0:59.999" /\
  Handler.fallback_lap_time (Handler.RawInt 8864655251685956)
  = Py.Ok "147744254194:45.955" /\
  fallback_text (Handler.RawFloat (S754_infinity false)) = "infms" /\
  Handler.raw_str (Handler.RawFloat raw_59999_6) = "59999.6".
Proof. vm_compute. repeat split. Qed.

Lemma resolve_pilot_name_truthy (api : Handler.PluginAPI) (pilot_id v : Py.value) :
  Handler.resolve_pilot_name api pilot_id = Py.Ok v -> Py.truthy v = true.
Proof.
  unfold Handler.resolve_pilot_name.
  destruct (Py.truthy pilot_id); simpl;
    [|intros H; injection H as <-; reflexivity].
  destruct (Handler.db api) as [| |[database|]]; simpl;
    try discriminate; try (intros H; injection H as <-; reflexivity).
  destruct (Handler.pilot_by_id database pilot_id) as [[pilot|]|]; simpl;
    try (intros H; injection H as <-; reflexivity).
  destruct (Handler.callsign pilot) as [| |c]; simpl;
    try (intros H; injection H as <-; reflexivity).
  destruct (Py.truthy c) eqn:Ec; simpl; [intros H; injection H as <-; exact Ec|].
  destruct (Handler.name pilot) as [| |n]; simpl;
    try (intros H; injection H as <-; reflexivity).
  destruct (Py.truthy n) eqn:En; simpl; intros H; injection H as <-;
    [exact En | reflexivity].
Qed.

(** The pilot lookup raises only when reading [db] does. *)
Lemma resolve_pilot_name_raise (api : Handler.PluginAPI) (pilot_id : Py.value) :
  Handler.resolve_pilot_name api pilot_id = Py.Raise <->
  Py.truthy pilot_id = true /\ Handler.db api = Py.Broken.
Proof.
  unfold Handler.resolve_pilot_name. split.
  - destruct (Py.truthy pilot_id); cbn [Py.bind]; [|discriminate].
    destruct (Handler.db api) as [| |[database|]];
      cbn [Py.hasattr Py.getattr Py.bind]; try discriminate; auto.
    intros H. exfalso.
    match type of H with
    | context [Py.try_except ?b (Py.Ok ?a)] =>
        destruct (try_except_total b a) as [x Hx]; rewrite Hx in H
    end.
    discriminate H.
  - intros [-> ->]. reflexivity.
Qed.

(** Formatting the raw lap time never raises. *)
Lemma format_raw_lap_time_total (api : Handler.PluginAPI) (lap_time : Py.value)
    (lap_time_raw : Handler.Raw) :
  exists v, Handler.format_raw_lap_time api lap_time lap_time_raw = Py.Ok v.
Proof.
  unfold Handler.format_raw_lap_time.
  destruct (Py.value_eqb lap_time (Py.Str "N/A") && Handler.raw_positive lap_time_raw);
    [apply try_except_total | eauto].
Qed.

(** Reading the lap raises only at an attribute of a [lap] object. *)
Lemma lap_fields_raise (api : Handler.PluginAPI) (args : Handler.LapArgs) :
  Handler.lap_fields api args = Py.Raise <->
  exists number formatted raw,
    Handler.arg_lap args = Some (Handler.LapObject number formatted raw) /\
    (number = Py.Broken \/
     (exists v, number = Py.Present v) /\
     (formatted = Py.Broken \/ raw = Py.Broken)).
Proof.
  unfold Handler.lap_fields. split.
  - destruct (Handler.arg_lap args) as [[number formatted raw|d raw|]|];
      try discriminate.
    + cbn [Handler.lap_truthy]. intros H. exists number, formatted, raw.
      split; [reflexivity|].
      destruct number as [| |v];
        cbn [Py.hasattr Py.getattr Py.bind] in H; try discriminate; [now left|].
      right. split; [eauto|].
      destruct formatted as [| |f];
        cbn [Handler.getattr_default Py.bind] in H; auto;
        destruct raw as [| |r];
        cbn [Handler.getattr_default Py.bind] in H; auto; exfalso;
        match type of H with
        | context [Handler.format_raw_lap_time ?a ?t ?r] =>
            destruct (format_raw_lap_time_total a t r) as [x Hx]; rewrite Hx in H
        end; discriminate H.
    + destruct (Handler.lap_truthy (Handler.LapDict d raw)); [|discriminate].
      intros H. exfalso. cbn [Py.bind] in H.
      match type of H with
      | context [Handler.format_raw_lap_time ?a ?t ?r] =>
          destruct (format_raw_lap_time_total a t r) as [x Hx]; rewrite Hx in H
      end; discriminate H.
  - intros (number & formatted & raw & -> & H). cbn [Handler.lap_truthy].
    destruct H as [-> | [[v ->] [-> | ->]]]; simpl; try reflexivity.
    destruct formatted; reflexivity.
Qed.

(** X20.  The handler leaves the display as it is exactly when reading
    the event raises, which only an attribute of the [lap] object or the
    [db] attribute of the provider can do; in every other case it injects
    one lap notice through [show_lap_completion], without a position and
    with a pilot name that is never empty or [None], and on an enabled
    display with a working panel that notice is drawn with the line
    "Position: None". *)
Theorem handler_injects_notice (api : Handler.PluginAPI) (now : Q) (env : Env)
    (display_obj : OLEDDisplay) (args : Handler.LapArgs) :
  handler_effect api now env display_obj args.
Proof.
  unfold handler_effect, event_unreadable, Handler.lap_recorded_handler. split.
  - intros [Hlap | Hdb].
    + apply (proj2 (lap_fields_raise api args)) in Hlap. now rewrite Hlap.
    + apply (proj2 (resolve_pilot_name_raise api _)) in Hdb.
      destruct (Handler.lap_fields api args); [|reflexivity].
      cbn [Py.bind]. now rewrite Hdb.
  - intros Hok.
    destruct (Handler.lap_fields api args) as [[lap_number lap_time]|] eqn:Hfields;
      [|exfalso; apply Hok; left; exact (proj1 (lap_fields_raise api args) Hfields)].
    cbn [Py.bind].
    destruct (Handler.resolve_pilot_name api _) as [pilot_name|] eqn:Hname;
      [|exfalso; apply Hok; right; exact (proj1 (resolve_pilot_name_raise api _) Hname)].
    cbn [Py.bind fst snd].
    exists pilot_name, lap_number, lap_time.
    split; [reflexivity|].
    split; [exact (resolve_pilot_name_truthy _ _ _ Hname)|].
    intros Hen Hpanel.
    exact (lap_notice_after_injection env now pilot_name lap_number lap_time None
             display_obj Hen Hpanel).
Qed.

(** A [lap] object whose formatted time raises when read: nothing is
    shown; the same event as a dict is shown. *)
Lemma handler_injects_notice_witness :
  event_unreadable sample_api broken_lap_args /\
  Handler.lap_recorded_handler sample_api 200 (Some ready_display)
    (Some broken_lap_args)
  = Some ready_display /\
  ~ event_unreadable sample_api raw_lap_args.
Proof.
  assert (Hbad : event_unreadable sample_api broken_lap_args).
  { left. exists (Py.Present (Py.Int 3)), Py.Broken, Py.Absent.
    split; [reflexivity|]. right. split; [eauto | now left]. }
  split; [exact Hbad|]. split.
  - exact (proj1 (handler_injects_notice sample_api 200 idle_env_202 ready_display
                    broken_lap_args) Hbad).
  - intros [(number & formatted & raw & H & _) | [_ H]]; discriminate H.
Defined.

(** X21.  Missing fields degrade instead of failing: an event without a
    [lap] entry and without (or with a falsy) pilot id is shown with the
    pilot "Unknown" and with [lap_number] and [lap_time_formatted] taken
    from the event, 0 and "N/A" when they are missing; neither the
    database nor [util] is consulted. *)
Theorem handler_defaults (api : Handler.PluginAPI) (now : Q)
    (display_obj : OLEDDisplay) (args : Handler.LapArgs) :
  Handler.arg_lap args = None ->
  Py.truthy (Handler.arg_default (Handler.arg_pilot_id args) Py.None_) = false ->
  Handler.lap_recorded_handler api now (Some display_obj) (Some args)
  = Some (show_lap_completion now (Py.Str "Unknown")
            (Handler.arg_default (Handler.arg_lap_number args) (Py.Int 0))
            (Handler.arg_default (Handler.arg_lap_time_formatted args) (Py.Str "N/A"))
            None display_obj).
Proof.
  intros Hlap Hid.
  unfold Handler.lap_recorded_handler, Handler.lap_fields,
    Handler.resolve_pilot_name.
  rewrite Hlap, Hid. reflexivity.
Qed.

(** An event without any of the keys. *)
Lemma handler_defaults_witness :
  Handler.lap_recorded_handler sample_api 200 (Some ready_display) (Some bare_args)
  = Some (show_lap_completion 200 (Py.Str "Unknown") (Py.Int 0) (Py.Str "N/A")
            None ready_display).
Proof.
  exact (handler_defaults sample_api 200 ready_display bare_args eq_refl eq_refl).
Defined.

Lemma format_raw_lap_time_verbatim (api : Handler.PluginAPI)
    (lap_time : Py.value) (lap_time_raw : Handler.Raw) :
  lap_time <> Py.Str "N/A" ->
  Handler.format_raw_lap_time api lap_time lap_time_raw = Py.Ok lap_time.
Proof.
  intros Hne. unfold Handler.format_raw_lap_time.
  destruct (Py.value_eqb lap_time (Py.Str "N/A")) eqn:E; [|reflexivity].
  exfalso. apply Hne.
  destruct lap_time as [|z|s]; simpl in E; try discriminate.
  apply String.eqb_eq in E. now subst.
Qed.

(** X22.  A formatted lap time is shown verbatim: when the [lap] dict has
    a [lap_time_formatted] other than "N/A", that value is the lap time,
    whatever the raw time is, an int, a float or anything else, and
    whether or not [util] works. *)
Theorem formatted_lap_time_verbatim (api : Handler.PluginAPI)
    (pilot_id : option Py.value) (d : Py.dict Py.value)
    (lap_time_raw : option Handler.Raw) (v : Py.value) :
  Py.get "lap_time_formatted" d = Some v ->
  v <> Py.Str "N/A" ->
  Handler.lap_fields api (dict_args pilot_id d lap_time_raw)
  = Py.Ok (Py.get_default "lap_number" (Py.Int 0) d, v).
Proof.
  intros Hget Hne. unfold Handler.lap_fields, dict_args. simpl.
  rewrite (get_some_nonempty _ _ _ Hget). cbn [orb].
  unfold Py.get_default at 1. rewrite Hget.
  now rewrite (format_raw_lap_time_verbatim api v _ Hne).
Qed.

(** A formatted time next to a raw float, with a [util] that raises. *)
Lemma formatted_lap_time_verbatim_witness :
  Handler.lap_fields broken_util_api
    (dict_args None formatted_lap_dict (Some (Handler.RawFloat raw_59999_6)))
  = Py.Ok (Py.Int 3, Py.Str "0:24.531").
Proof.
  apply (formatted_lap_time_verbatim broken_util_api None formatted_lap_dict
           (Some (Handler.RawFloat raw_59999_6)) (Py.Str "0:24.531") eq_refl).
  discriminate.
Defined.

(** X24.  A positive raw lap time, an int or a float, in a [lap] dict
    without a formatted time: with no [util] attribute the fallback
    formatting of lines 115-118 is shown, or "<raw>ms" when that raises;
    with a [util], what [format_time_to_str] returns; and "<raw>ms" when
    [util] or the formatting call raises. *)
Theorem raw_lap_time_formatting (api : Handler.PluginAPI)
    (pilot_id : option Py.value) (d : Py.dict Py.value)
    (lap_time_raw : Handler.Raw) :
  Py.get "lap_time_formatted" d = None ->
  Handler.raw_positive lap_time_raw = true ->
  raw_time_rule api pilot_id d lap_time_raw.
Proof.
  intros Hfmt Hpos. unfold raw_time_rule, Handler.lap_fields, dict_args.
  cbn [Handler.arg_lap Handler.lap_truthy Handler.arg_default].
  rewrite orb_true_r.
  assert (Hf1 : Py.get_default "lap_time_formatted" (Py.Str "N/A") d = Py.Str "N/A")
    by (unfold Py.get_default; now rewrite Hfmt).
  rewrite Hf1. unfold Handler.format_raw_lap_time, fallback_text.
  rewrite Hpos. cbn [Py.value_eqb String.eqb Ascii.eqb Bool.eqb andb].
  split; [|split].
  - intros ->. cbn [Py.hasattr Py.bind].
    destruct (Handler.fallback_lap_time lap_time_raw); reflexivity.
  - intros f v -> Hf. cbn [Py.hasattr Py.getattr Py.bind]. rewrite Hf. reflexivity.
  - intros [-> | (f & -> & Hf)]; cbn [Py.hasattr Py.getattr Py.bind];
      [reflexivity|]. rewrite Hf. reflexivity.
Qed.

(** Lap 3 in 84531 ms and in 59999.6 ms, without [util]; the latter with
    a [util] that raises. *)
Lemma raw_lap_time_formatting_witness :
  Handler.lap_fields sample_api
    (dict_args (Some (Py.Int 7)) raw_lap_dict (Some (Handler.RawInt 84531)))
  = Py.Ok (Py.Int 3, Py.Str "1:24.531") /\
  Handler.lap_fields sample_api
    (dict_args (Some (Py.Int 7)) raw_lap_dict (Some (Handler.RawFloat raw_59999_6)))
  = Py.Ok (Py.Int 3, Py.Str "0:60.000") /\
  Handler.lap_fields broken_util_api
    (dict_args (Some (Py.Int 7)) raw_lap_dict (Some (Handler.RawFloat raw_59999_6)))
  = Py.Ok (Py.Int 3, Py.Str "59999.6ms").
Proof.
  split; [|split].
  - exact (proj1 (raw_lap_time_formatting sample_api (Some (Py.Int 7)) raw_lap_dict
                    (Handler.RawInt 84531) eq_refl eq_refl) eq_refl).
  - exact (proj1 (raw_lap_time_formatting sample_api (Some (Py.Int 7)) raw_lap_dict
                    (Handler.RawFloat raw_59999_6) eq_refl eq_refl) eq_refl).
  - exact (proj2 (proj2 (raw_lap_time_formatting broken_util_api (Some (Py.Int 7))
                           raw_lap_dict (Handler.RawFloat raw_59999_6)
                           eq_refl eq_refl)) (or_introl eq_refl)).
Defined.

(** X25.  The pilot name of a lap notice: for a truthy pilot id and a
    database that finds the pilot, the callsign if it is not empty, else
    the name if it is not empty, else "Pilot <id>"; "Pilot <id>" also when
    the lookup raises; "Unknown" when the database has no such pilot. *)
Theorem pilot_name_resolution (api : Handler.PluginAPI) (database : Handler.Database)
    (pilot_id : Py.value) :
  Py.truthy pilot_id = true ->
  Handler.db api = Py.Present (Some database) ->
  (forall pilot c n,
      Handler.pilot_by_id database pilot_id = Py.Ok (Some pilot) ->
      Handler.callsign pilot = Py.Present c ->
      Handler.name pilot = Py.Present n ->
      Handler.resolve_pilot_name api pilot_id = Py.Ok (preferred_name c n pilot_id)) /\
  (Handler.pilot_by_id database pilot_id = Py.Raise ->
   Handler.resolve_pilot_name api pilot_id
   = Py.Ok (Py.Str ("Pilot " ++ Py.str pilot_id))) /\
  (Handler.pilot_by_id database pilot_id = Py.Ok None ->
   Handler.resolve_pilot_name api pilot_id = Py.Ok (Py.Str "Unknown")).
Proof.
  intros Hid Hdb. unfold Handler.resolve_pilot_name, preferred_name.
  rewrite Hid, Hdb. simpl. split; [|split].
  - intros pilot c n -> Hc Hn. simpl. rewrite Hc. simpl.
    destruct (Py.truthy c); [reflexivity|]. rewrite Hn. simpl.
    destruct (Py.truthy n); reflexivity.
  - intros ->. reflexivity.
  - intros ->. reflexivity.
Qed.

(** An empty callsign falls back to the name. *)
Lemma pilot_name_resolution_witness :
  Handler.resolve_pilot_name
    {| Handler.util := Py.Absent; Handler.db := Py.Present (Some nameless_database) |}
    (Py.Int 7)
  = Py.Ok (Py.Str "Luke").
Proof.
  exact (proj1 (pilot_name_resolution
                  {| Handler.util := Py.Absent;
                     Handler.db := Py.Present (Some nameless_database) |}
                  nameless_database (Py.Int 7) eq_refl eq_refl)
           _ (Py.Str "") (Py.Str "Luke") eq_refl eq_refl eq_refl).
Defined.

(* ================================================================== *)
(** ** Every tick draws a frame                                        *)
(* ================================================================== *)

Lemma lap_notice_body_flushes (info : Py.dict Py.value) :
  exists f,
    with_canvas false (lap_notice_body info) = Py.Ok f /\
    (5 <= List.length f <= 6)%nat.
Proof.
  unfold lap_notice_body, with_canvas, Py.mem, getitem.
  destruct (Py.get "position" info); draw_steps;
    eexists; (split; [reflexivity | simpl; lia]).
Qed.

(** The primary reading raises only on a snapshot that is not renderable. *)
Lemma primary_voltage_raise (vd : VoltageData) (dflt : string) :
  primary_voltage vd dflt = Py.Raise -> ~ snapshot_renderable vd.
Proof.
  induction vd as [|[name r] rest IH]; cbn [primary_voltage]; [discriminate|].
  destruct (Py.get "voltage" r) as [v|] eqn:Hv.
  - intros Hraise Hr. apply snapshot_renderable_tail in Hr. destruct Hr as [Hr _].
    destruct (Hr v Hv) as [Hwf _].
    destruct (format_reading_well_formed 1 v Hwf) as [t Ht]. congruence.
  - intros Hraise Hr. apply snapshot_renderable_tail in Hr.
    exact (IH Hraise (proj2 Hr)).
Qed.

(** X26.  On a working panel every tick of an enabled display, in any
    state the class can reach, selects a mode and is never skipped or
    aborted.  It ends with a frame of 2 to 7 drawing commands sent to the
    panel, unless the sensors report a reading that is not well formed:
    only then, and only in the voltage monitor or the burn-in guard, the
    tick fails without a frame. *)
Theorem tick_always_flushes (env : Env) (self : OLEDDisplay) :
  reachable self ->
  display_enabled self = true ->
  panel_fails env = false ->
  exists mode r,
    snd (update_display env self) = Selected mode r /\
    r <> Skipped /\
    (forall f, r = Flushed f -> (2 <= List.length f <= 7)%nat) /\
    (r = Failed ->
     (mode = VoltageMonitor \/ mode = BurnInGuard) /\
     ~ sensors_renderable (rhapi_sensors env)) /\
    (sensors_renderable (rhapi_sensors env) -> exists f, r = Flushed f).
Proof.
  intros Hreach Hen Hpanel.
  pose proof (reachable_lap_info_inv self Hreach) as Hinv.
  unfold update_display. rewrite Hen. cbn [negb].
  destruct (show_race_info self && Qlt_bool (t_check env) (race_info_timeout self))
    eqn:Hlap.
  - apply andb_true_iff in Hlap. destruct Hlap as [Hshow _].
    specialize (Hinv Hshow). cbn [snd].
    unfold display_race_info. rewrite Hen, Hinv, Hpanel. cbn [negb orb].
    destruct (last_lap_info self) as [info|]; [|discriminate Hinv].
    destruct (lap_notice_body_flushes info) as (f & -> & Hlen).
    exists LapNotice, (Flushed f). cbn [view_result].
    split; [reflexivity|]. split; [discriminate|].
    split; [intros f' H; injection H as <-; lia|].
    split; [discriminate | eauto].
  - destruct (is_race_active_total (rhapi_active env)) as [[|] ->]; cbn [snd].
    + unfold display_race_status. cbn [display_enabled set_voltage_monitor_start_time].
      rewrite Hen, Hpanel. cbn [negb].
      destruct (race_status_lines env) as (body & -> & Hlen & _).
      eexists. eexists. cbn [view_result].
      split; [reflexivity|]. split; [discriminate|].
      split; [intros f' H; injection H as <-; simpl; lia|].
      split; [discriminate | eauto].
    + unfold voltage_view. rewrite Hpanel.
      destruct (get_voltage_data_total (rhapi_sensors env)) as [vd Hvd].
      rewrite Hvd. cbn [Py.bind].
      match goal with
      | |- context [burn_in_protection_active ?s] =>
          destruct (burn_in_protection_active s)
      end.
      * unfold display_burn_in_protection, with_canvas.
        destruct (burn_in_voltage_text vd) as [text|] eqn:Htext.
        -- cbv beta iota zeta delta [dbind lift draw_text].
           cbn [drawn y_pos app view_result].
           eexists. eexists. split; [reflexivity|]. split; [discriminate|].
           split; [intros f' H; injection H as <-; simpl; lia|].
           split; [discriminate | eauto].
        -- cbv beta iota zeta delta [dbind lift]. cbn [view_result].
           eexists. eexists. split; [reflexivity|]. split; [discriminate|].
           split; [discriminate|].
           assert (Hill : ~ sensors_renderable (rhapi_sensors env)).
           { intros Hs. destruct vd as [vd0|]; [|discriminate Htext].
             exact (primary_voltage_raise vd0 _ Htext (Hs vd0 Hvd)). }
           split; [intros _; split; [now right | exact Hill]|].
           intros Hs. contradiction.
      * destruct (voltage_monitor_body env vd)
          as [(body & -> & Hlen & _) | (-> & vd0 & -> & Hill)]; cbn [view_result].
        -- eexists. eexists. split; [reflexivity|]. split; [discriminate|].
           split; [|split; [discriminate | eauto]].
           intros f' H. injection H as <-.
           cbn [List.length]. rewrite length_app. simpl. lia.
        -- eexists. eexists. split; [reflexivity|]. split; [discriminate|].
           split; [discriminate|].
           assert (Hill' : ~ sensors_renderable (rhapi_sensors env))
             by (intros Hs; exact (Hill (Hs vd0 Hvd))).
           split; [intros _; split; [now left | exact Hill']|].
           intros Hs. contradiction.
Qed.

(** The lap notice of the example, two seconds after the event; and a
    voltage of [None], which makes the voltage monitor fail. *)
Lemma tick_always_flushes_witness :
  (exists f,
      snd (update_display idle_env_202 plugin_red5_notice) = Selected LapNotice (Flushed f) /\
      (2 <= List.length f <= 7)%nat) /\
  snd (update_display (tick_env mute_provider 110) ready_display)
  = Selected VoltageMonitor Failed.
Proof.
  split; [|reflexivity].
  destruct (tick_always_flushes idle_env_202 plugin_red5_notice) as (mode & r & Hout & _ & Hlen & _).
  - apply plugin_reachable_reachable, plugin_lap_recorded, plugin_initialize.
  - reflexivity.
  - reflexivity.
  - vm_compute in Hout. injection Hout as <- <-.
    eexists. split; [reflexivity|]. exact (Hlen _ eq_refl).
Defined.

(* ================================================================== *)
(** ** Lap notices are not queued                                      *)
(* ================================================================== *)

(** X27.  A lap event that arrives while another notice is pending
    replaces it: the state is the one the second event alone would give,
    the following ticks (in clock order) show the second lap's notice
    until 5 seconds after the second event, and the first lap is never
    shown again. *)
Theorem lap_notices_not_queued (T1 T2 : Q) (p1 l1 t1 p2 l2 t2 : Py.value)
    (pos1 pos2 : option Py.value) (self : OLEDDisplay) (envs : list Env) :
  display_enabled self = true ->
  StronglySorted Qle (map t_check envs) ->
  show_lap_completion T2 p2 l2 t2 pos2 (show_lap_completion T1 p1 l1 t1 pos1 self)
  = show_lap_completion T2 p2 l2 t2 pos2 self /\
  second_notice_only T2 p2 l2 t2 pos2 envs
    (show_lap_completion T2 p2 l2 t2 pos2 (show_lap_completion T1 p1 l1 t1 pos1 self)).
Proof.
  intros Hen Hsorted. split; [reflexivity|].
  intros i env out Hi Ho Hpanel. split.
  - intros Hlt.
    rewrite (ticks_in_window (T2 + 5)%Q _ envs
               (show_lap_completion T2 p2 l2 t2 pos2
                  (show_lap_completion T1 p1 l1 t1 pos1 self))
               i env out Hen eq_refl eq_refl eq_refl eq_refl Hsorted Hi Ho Hlt).
    rewrite Hpanel. destruct pos2; reflexivity.
  - intros Hle.
    apply (ticks_after_expiry (T2 + 5)%Q envs
             (show_lap_completion T2 p2 l2 t2 pos2
                (show_lap_completion T1 p1 l1 t1 pos1 self))
             i env out eq_refl Hi Ho Hle).
Qed.

(** Lap 3 reported at 200, lap 4 at 200.5; ticks at 201, 203 and 206. *)
Lemma lap_notices_not_queued_witness :
  second_notice_only (401 # 2) (Py.Str "Red5") (Py.Int 4) (Py.Str "0:23.900") None
    three_ticks
    (show_lap_completion (401 # 2) (Py.Str "Red5") (Py.Int 4) (Py.Str "0:23.900") None
       (show_lap_completion 200 (Py.Str "Red5") (Py.Int 3) (Py.Str "0:24.531") None
          ready_display)).
Proof.
  exact (proj2 (lap_notices_not_queued 200 (401 # 2)
                  (Py.Str "Red5") (Py.Int 3) (Py.Str "0:24.531")
                  (Py.Str "Red5") (Py.Int 4) (Py.Str "0:23.900")
                  None None ready_display three_ticks eq_refl three_ticks_sorted)).
Defined.

(* ================================================================== *)
(** ** A lap event that arrives during a tick                          *)
(* ================================================================== *)

(** Without a handler at work, the interleaved tick is the tick. *)
Lemma update_display_during_nothing (env : Env) (self : OLEDDisplay) :
  update_display_during (fun self => self) env self = update_display env self.
Proof. reflexivity. Qed.

(** No tick sets [show_race_info]. *)
Lemma update_display_no_notice (env : Env) (self : OLEDDisplay) :
  show_race_info self = false ->
  show_race_info (fst (update_display env self)) = false /\
  selected_mode (snd (update_display env self)) <> Some LapNotice.
Proof.
  intros Hshow. unfold update_display. rewrite Hshow. cbn [andb].
  destruct (negb (display_enabled self)); [split; [exact Hshow | discriminate]|].
  destruct (is_race_active (rhapi_active env)) as [[|]|]; cbn [fst snd].
  - split; [exact Hshow | discriminate].
  - split; [|destruct (burn_in_protection_active _); discriminate].
    destruct (Qeq_bool _ _); reflexivity.
  - split; [exact Hshow | discriminate].
Qed.

Lemma run_ticks_no_notice (envs : list Env) :
  forall (self : OLEDDisplay) (out : TickOutcome),
    show_race_info self = false ->
    In out (fst (run_ticks envs self)) ->
    selected_mode out <> Some LapNotice.
Proof.
  induction envs as [|e rest IH]; intros self out Hshow Hin.
  - destruct Hin.
  - rewrite run_ticks_cons in Hin. cbn [fst] in Hin.
    destruct (update_display_no_notice e self Hshow) as [Hnext Hmode].
    destruct Hin as [<- | Hin]; [exact Hmode|].
    exact (IH _ out Hnext Hin).
Qed.

(** An idle tick leaves no notice behind. *)
Lemma after_idle_no_notice (env : Env) (self : OLEDDisplay) :
  show_race_info (after_idle env self) = false /\
  last_lap_info (after_idle env self) = None.
Proof.
  unfold after_idle. destruct (Qeq_bool _ _); split; reflexivity.
Qed.

(** X23.  A lap event stored while an idle tick of an enabled display is
    under way (after its test of line 110, before its lines 121-122) is
    lost: the tick clears it, and no later tick selects the lap notice,
    whatever clock it reads. *)
Theorem lap_event_lost_in_flight (T : Q) (pilot_name lap_number lap_time : Py.value)
    (position : option Py.value) (env : Env) (self : OLEDDisplay) (envs : list Env) :
  display_enabled self = true ->
  ~ lap_pending env self ->
  ~ staging_or_racing (rhapi_active env) ->
  event_lost (show_lap_completion T pilot_name lap_number lap_time position)
    env self envs.
Proof.
  intros Hen Hno Hrace.
  apply lap_pending_false in Hno. apply is_race_active_false in Hrace.
  unfold event_lost, update_display_during. rewrite Hen, Hno, Hrace.
  change (let after :=
            after_idle env
              (show_lap_completion T pilot_name lap_number lap_time position self) in
          show_race_info after = false /\
          last_lap_info after = None /\
          forall out, In out (fst (run_ticks envs after)) ->
                      selected_mode out <> Some LapNotice).
  intros after.
  destruct (after_idle_no_notice env
              (show_lap_completion T pilot_name lap_number lap_time position self))
    as [Hshow Hinfo].
  split; [exact Hshow|]. split; [exact Hinfo|].
  intros out. apply run_ticks_no_notice. exact Hshow.
Qed.

(** A lap event at 200 that arrives during the tick reading 200: the ticks
    at 201, 203 and 206 show no notice. *)
Lemma lap_event_lost_in_flight_witness :
  display_enabled ready_display = true /\
  ~ lap_pending idle_env_200 ready_display /\
  ~ staging_or_racing (rhapi_active idle_env_200) /\
  event_lost
    (show_lap_completion 200 (Py.Str "Red5") (Py.Int 3) (Py.Str "0:24.531") None)
    idle_env_200 ready_display three_ticks.
Proof.
  assert (Hno : ~ lap_pending idle_env_200 ready_display)
    by (intros [H _]; discriminate H).
  assert (Hrace : ~ staging_or_racing (rhapi_active idle_env_200))
    by (intros (ri & v & H & _); discriminate H).
  split; [reflexivity|]. split; [exact Hno|]. split; [exact Hrace|].
  exact (lap_event_lost_in_flight 200 (Py.Str "Red5") (Py.Int 3) (Py.Str "0:24.531")
           None idle_env_200 ready_display three_ticks eq_refl Hno Hrace).
Defined.
